(** * Memory-augmented chat: a shallow embedding of [memory.py], [llm.py]
    and [main.py], and the properties of the orchestration layer.

    The three Python modules are embedded one Rocq module each
    ([Memory], [Llm], [Main]) on top of a small model of the Python
    runtime ([Py]).  The two external collaborators, the mem0 memory
    store and the OpenAI completion client, are interfaces (type
    classes); every call the code makes to them is recorded in an event
    trace, so that "which calls were issued, in which order, with which
    arguments" is a statement about a list. *)

From Stdlib Require Import ZArith String Ascii List Bool Lia.
From Stdlib Require Import PrimFloat SpecFloat FloatOps DecimalString.
From stdpp Require Import gmap strings.

Local Open Scope string_scope.
Local Open Scope list_scope.
Local Open Scope Z_scope.

(* ===================================================================== *)
(** * The Python runtime, as far as the code uses it                      *)
(* ===================================================================== *)

Module Py.

(** Python values as [yaml.safe_load] produces them and as the store
    hands them back in free-form metadata; the keys of a mapping are
    strings. *)
#[warnings="-register-all"]
Inductive pyval :=
| PNone
| PBool (b : bool)
| PInt (z : Z)
| PFloat (f : float)
| PStr (s : string)
| PList (l : list pyval)
| PDict (m : gmap string pyval).

(** Exceptions.  [ValueError] and [FileNotFoundError] are raised by the
    code with a message of its own; [AttributeError], [TypeError] and
    [ValidationError] by the interpreter or by pydantic (their text is
    not the code's); the collaborators may raise anything.
    [KeyboardInterrupt] and [SystemExit] do not derive from
    [Exception]. *)
Inductive exn :=
| ValueError (msg : string)
| FileNotFoundError (msg : string)
| AttributeError
| TypeError
| KeyError
| OverflowError
| ValidationError
| OtherException (msg : string)
| KeyboardInterrupt
| SystemExit.

Definition is_Exception (e : exn) : bool :=
  match e with
  | KeyboardInterrupt | SystemExit => false
  | _ => true
  end.

(** A call either returns or raises. *)
Inductive outcome (A : Type) :=
| Ok (a : A)
| Raise (e : exn).
Arguments Ok {A} a.
Arguments Raise {A} e.

Definition nl : string := String (ascii_of_nat 10) EmptyString.

(** ** Truthiness *)

Definition str_truthy (s : string) : bool :=
  match s with EmptyString => false | _ => true end.

(** [x or d] for an [Optional[str]] x. *)
Definition str_or (x : option string) (d : string) : string :=
  match x with
  | Some s => if str_truthy s then s else d
  | None => d
  end.

Definition truthy (v : pyval) : bool :=
  match v with
  | PNone => false
  | PBool b => b
  | PInt z => negb (Z.eqb z 0)
  | PFloat f => negb (PrimFloat.eqb f 0%float)
  | PStr s => str_truthy s
  | PList l => match l with [] => false | _ => true end
  | PDict m => negb (bool_decide (m = ∅))
  end.

(** ** [str] methods, on strings of code points below 256 *)

Definition is_space (c : ascii) : bool :=
  let n := nat_of_ascii c in
  ((9 <=? n) && (n <=? 13) || (28 <=? n) && (n <=? 32)
   || (n =? 133) || (n =? 160))%nat.

Fixpoint lstrip (s : string) : string :=
  match s with
  | EmptyString => EmptyString
  | String c s' => if is_space c then lstrip s' else s
  end.

Fixpoint rstrip (s : string) : string :=
  match s with
  | EmptyString => EmptyString
  | String c s' =>
      match rstrip s' with
      | EmptyString => if is_space c then EmptyString else String c EmptyString
      | t => String c t
      end
  end.

Definition strip (s : string) : string := rstrip (lstrip s).

Definition lower_char (c : ascii) : ascii :=
  let n := nat_of_ascii c in
  if ((65 <=? n) && (n <=? 90)
      || (192 <=? n) && (n <=? 222) && negb (n =? 215))%nat
  then ascii_of_nat (n + 32) else c.

Fixpoint lower (s : string) : string :=
  match s with
  | EmptyString => EmptyString
  | String c s' => String (lower_char c) (lower s')
  end.

(** [s.startswith(c)] for a one-character prefix. *)
Definition startswith_char (s : string) (c : ascii) : bool :=
  match s with
  | String c' _ => bool_decide (c' = c)
  | EmptyString => false
  end.

(** [s[1:]] *)
Definition drop_first (s : string) : string :=
  match s with
  | String _ s' => s'
  | EmptyString => EmptyString
  end.

(** [s.split(' ', 1)]: one element when [s] has no space, else the text
    before the first space and the text after it. *)
Fixpoint split_space_once (s : string) : list string :=
  match s with
  | EmptyString => [EmptyString]
  | String c s' =>
      if bool_decide (c = " "%char) then [EmptyString; s']
      else match split_space_once s' with
           | h :: t => String c h :: t
           | [] => [String c EmptyString]
           end
  end.

(** The last character of [s] is whitespace. *)
Fixpoint ends_with_space (s : string) : bool :=
  match s with
  | EmptyString => false
  | String c EmptyString => is_space c
  | String _ s' => ends_with_space s'
  end.

(** No character of [s] is a space. *)
Fixpoint no_space (s : string) : bool :=
  match s with
  | EmptyString => true
  | String c s' => negb (bool_decide (c = " "%char)) && no_space s'
  end.

(** [needle in hay] for two strings. *)
Fixpoint str_contains (needle hay : string) : bool :=
  String.prefix needle hay
  || match hay with
     | EmptyString => false
     | String _ hay' => str_contains needle hay'
     end.

(** ** Formatting a float with [:.2f]

    A binary64 value is [m * 2^e] exactly; the conversion is correctly
    rounded, ties to even. *)

Definition round_half_even (n e : Z) : Z :=
  if 0 <=? e then n * 2 ^ e
  else
    let d := 2 ^ (- e) in
    let q := n / d in
    let r := n mod d in
    match 2 * r ?= d with
    | Lt => q
    | Gt => q + 1
    | Eq => if Z.even q then q else q + 1
    end.

Definition digits (n : Z) : string :=
  NilZero.string_of_uint (N.to_uint (Z.to_N n)).

(** [h] hundredths, written with two decimals. *)
Definition fixed2 (h : Z) : string :=
  digits (h / 100) +:+ "." +:+ digits (h mod 100 / 10) +:+ digits (h mod 10).

Definition sign_str (s : bool) : string := if s then "-" else "".

Definition format_2f (x : float) : string :=
  match Prim2SF x with
  | S754_zero s => sign_str s +:+ "0.00"
  | S754_infinity s => sign_str s +:+ "inf"
  | S754_nan => "nan"
  | S754_finite s m e =>
      sign_str s +:+ fixed2 (round_half_even (Z.pos m * 100) e)
  end.

(** ** Builtins whose text is not modelled

    [str] of an arbitrary value (the [repr] of dicts, lists and floats)
    and the message of an exception raised by the interpreter or by a
    library are left to the runtime. *)
Class Builtins := {
  py_str : pyval -> string;
  runtime_text : exn -> string;
}.

(** [str(e)] *)
Definition exn_str `{Builtins} (e : exn) : string :=
  match e with
  | ValueError m | FileNotFoundError m | OtherException m => m
  | _ => runtime_text e
  end.

End Py.

Export Py.

(* ===================================================================== *)
(** * The external collaborators                                          *)
(* ===================================================================== *)

Module Collab.

(** A chat message, the dict [{"role": ..., "content": ...}]. *)
Record Message := { role : string; content : string }.

(** One raw search result of the store: [memory] is always there,
    [metadata], [timestamp] and [score] may be missing. *)
Record Entry := {
  memory : string;
  metadata : option pyval;
  timestamp : option pyval;
  score : option float;
}.

(** The memory store ([mem0.Memory]).  [search] reads the store and
    leaves it as it is; [add] and [clear] may change it, also when they
    raise. *)
Class Mem0Memory (Store : Type) := {
  mem0_search : Store -> string -> string -> Z -> outcome (list Entry);
  mem0_add :
    Store -> list Message -> string -> option pyval -> outcome string * Store;
  mem0_clear : Store -> string -> outcome unit * Store;
}.

(** The arguments of [client.chat.completions.create]. *)
Record Request := {
  req_model : string;
  req_messages : list Message;
  req_stream : bool;
  req_temperature : float;
  req_max_tokens : Z;
}.

(** One step of a streamed response: a chunk with its
    [choices[0].delta.content], or an error raised while reading. *)
Inductive stream_item :=
| Chunk (delta_content : option string)
| StreamRaise (e : exn).

(** The completion client: a blocking call returns the content of
    [choices[0].message], a streaming call the sequence of chunks. *)
Class OpenAI := {
  completions_create : Request -> outcome string;
  completions_stream : Request -> outcome (list stream_item);
}.

(** Every call issued to a collaborator, and every text printed. *)
Inductive event :=
| MemSearch (query user_id : string) (limit : Z)
| MemAdd (messages : list Message) (user_id : string) (metadata : option pyval)
| MemClear (user_id : string)
| Create (req : Request)
| Print (text : string).

Definition is_add (ev : event) : bool :=
  match ev with MemAdd _ _ _ => true | _ => false end.

Definition is_store_call (ev : event) : bool :=
  match ev with
  | MemSearch _ _ _ | MemAdd _ _ _ | MemClear _ => true
  | _ => false
  end.

(** ** Computations: store passing, exceptions, a trace of events *)

Definition M (Store A : Type) : Type := Store -> outcome A * Store * list event.

Section Monad.
Context {Store : Type}.

Definition ret {A} (a : A) : M Store A := fun st => (Ok a, st, []).

Definition raise {A} (e : exn) : M Store A := fun st => (Raise e, st, []).

Definition bind {A B} (c : M Store A) (k : A -> M Store B) : M Store B :=
  fun st =>
    match c st with
    | (Ok a, st1, tr1) =>
        match k a st1 with
        | (r, st2, tr2) => (r, st2, tr1 ++ tr2)
        end
    | (Raise e, st1, tr1) => (Raise e, st1, tr1)
    end.

(** [try: c  except: h] with a bare [except], which catches everything. *)
Definition try_except_all {A} (c : M Store A) (h : M Store A) : M Store A :=
  fun st =>
    match c st with
    | (Ok a, st1, tr1) => (Ok a, st1, tr1)
    | (Raise _, st1, tr1) =>
        match h st1 with
        | (r, st2, tr2) => (r, st2, tr1 ++ tr2)
        end
    end.

Definition print (text : string) : M Store unit :=
  fun st => (Ok tt, st, [Print text]).

Context `{Mem0Memory Store} `{OpenAI}.

Definition memory_search (query user_id : string) (limit : Z)
  : M Store (list Entry) :=
  fun st => (mem0_search st query user_id limit, st,
             [MemSearch query user_id limit]).

Definition memory_add (messages : list Message) (user_id : string)
    (md : option pyval) : M Store string :=
  fun st =>
    let '(r, st') := mem0_add st messages user_id md in
    (r, st', [MemAdd messages user_id md]).

Definition memory_clear (user_id : string) : M Store unit :=
  fun st =>
    let '(r, st') := mem0_clear st user_id in
    (r, st', [MemClear user_id]).

Definition client_create (req : Request) : M Store string :=
  fun st => (completions_create req, st, [Create req]).

Definition client_stream (req : Request) : M Store (list stream_item) :=
  fun st => (completions_stream req, st, [Create req]).

End Monad.

Notation "'let*' x := c 'in' k" := (bind c (fun x => k))
  (at level 10, x binder, k at level 200).

End Collab.

Export Collab.

(* ===================================================================== *)
(** * memory.py                                                           *)
(* ===================================================================== *)

Module Memory.

Record MemoryConfig := {
  llm : pyval;
  embedder : pyval;
  vector_store : pyval;
  search_limit : Z;
  context_limit : Z;
}.

(** The class-level defaults of [MemoryConfig]. *)
#[warnings="-inexact-float"]
Definition default_llm : pyval :=
  PDict {[ "provider" := PStr "litellm";
           "config" := PDict {[ "api_key" := PNone;
                                "openai_base_url" := PNone;
                                "model" := PStr "openai/THUDM/GLM-Z1-9B-0414";
                                "temperature" := PFloat 0.7;
                                "max_tokens" := PInt 4096 ]} ]}.

Definition default_embedder : pyval :=
  PDict {[ "provider" := PStr "openai";
           "config" := PDict {[ "api_key" := PNone;
                                "openai_base_url" := PNone;
                                "model" := PStr "BAAI/bge-m3";
                                "embedding_dims" := PInt 1024 ]} ]}.

Definition default_vector_store : pyval :=
  PDict {[ "provider" := PStr "qdrant";
           "config" := PDict {[ "embedding_model_dims" := PInt 1024 ]} ]}.

Definition default_search_limit : Z := 5.
Definition default_context_limit : Z := 3.

(** A [MemoryManager]; its [memory] attribute is the store the
    computations below run against. *)
Record MemoryManager := { config : MemoryConfig }.

(** A record of the result lists: the dict built per raw result. *)
Record Profile := { recent_memories : list (gmap string pyval) }.

Section Methods.
Context {Store : Type} `{Mem0Memory Store} `{Builtins}.
Variable self : MemoryManager.

Definition add_user (user_id : string) (md : option pyval) : M Store string :=
  ret user_id.

(** [metadata or {}] *)
Definition metadata_or_empty (md : option pyval) : pyval :=
  match md with
  | Some v => if truthy v then v else PDict ∅
  | None => PDict ∅
  end.

Definition add_conversation (user_id : string) (messages : list Message)
    (md : option pyval) : M Store string :=
  let* memory_id := memory_add messages user_id (Some (metadata_or_empty md)) in
  ret memory_id.

(** [m.get(key, default)] on a raw result *)
Definition get_or (field : option pyval) (default : pyval) : pyval :=
  match field with Some v => v | None => default end.

Definition score_or (field : option float) (default : float) : float :=
  match field with Some v => v | None => default end.

Definition profile_record (m : Entry) : gmap string pyval :=
  {[ "content" := PStr (memory m);
     "metadata" := get_or (metadata m) (PDict ∅);
     "created_at" := get_or (timestamp m) PNone ]}.

Definition get_user_profile (user_id : string) (as_json : bool)
  : M Store Profile :=
  let* memories := memory_search "summary" user_id (search_limit (config self)) in
  ret {| recent_memories := map profile_record memories |}.

Definition context_line (m : Entry) : string :=
  "- " +:+ memory m +:+ " (Metadata: "
       +:+ py_str (get_or (metadata m) (PDict ∅)) +:+ ")".

Definition get_context (user_id : string) (max_token_size : Z)
    (prefer_topics : option (list string)) : M Store string :=
  let* memories :=
    memory_search "summary" user_id (context_limit (config self)) in
  let memory_str := String.concat nl (map context_line memories) in
  ret ("Recent context:" +:+ nl +:+ memory_str).

Definition search_record (m : Entry) : gmap string pyval :=
  {[ "content" := PStr (memory m);
     "metadata" := get_or (metadata m) (PDict ∅);
     "created_at" := get_or (timestamp m) PNone;
     "relevance_score" := PFloat (score_or (score m) 0%float) ]}.

Definition search_memories (user_id query : string) (max_results : Z)
  : M Store (list (gmap string pyval)) :=
  let* results :=
    memory_search query user_id
      (Z.min max_results (search_limit (config self))) in
  ret (map search_record results).

Definition delete_user (user_id : string) : M Store bool :=
  try_except_all (let* _ := memory_clear user_id in ret true) (ret false).

End Methods.

End Memory.

(* ===================================================================== *)
(** * llm.py                                                              *)
(* ===================================================================== *)

Module Llm.

Import Memory.

Record LLMConfig := {
  api_key : string;
  api_base : string;
  model : string;
  temperature : float;
  max_tokens : Z;
  top_p : float;
  system_prompt : string;
}.

(** The declared defaults; [api_key], [api_base] and [model] have none. *)
#[warnings="-inexact-float"]
Definition default_temperature : float := 0.7.
Definition default_max_tokens : Z := 2000.
Definition default_top_p : float := 1.0.
Definition default_system_prompt : string :=
  "You are a helpful AI assistant. Use the provided memories to give context-aware responses.".

(** pydantic's validators for the three field types of [LLMConfig]:
    the value of the field, or nothing when the value is rejected. *)
Class Pydantic := {
  as_str : pyval -> option string;
  as_float : pyval -> option float;
  as_int : pyval -> option Z;
}.

(** A value that already has the declared type is taken as it is. *)
Class PydanticLaws `{Pydantic} : Prop := {
  as_str_PStr : forall s, as_str (PStr s) = Some s;
  as_float_PFloat : forall f, as_float (PFloat f) = Some f;
  as_int_PInt : forall z, as_int (PInt z) = Some z;
}.

(** What the constructor takes from its surroundings: the location of
    [config.yaml] beside the code, the files ([None] when the path does
    not exist, else what [open] and [yaml.safe_load] give), the token
    [str(uuid.uuid4())] returns, and the constructor of the completion
    client, [OpenAI(api_key=..., base_url=...)], which returns when the
    client is built and may raise. *)
Class Host := {
  default_config_path : string;
  read_yaml : string -> option (outcome pyval);
  uuid4 : string;
  new_client : string -> string -> outcome unit;
}.

(** An [LLM]; its [client] attribute, the client [new_client] has
    built, is the completion client the computations below run
    against. *)
Record LLM := {
  provider : string;
  memory_manager : option MemoryManager;
  user_id : string;
  config : LLMConfig;
}.

Section Construction.
Context `{Pydantic} `{Host}.

(** One field of a pydantic model built from keyword arguments:
    [default] is [None] for a required field. *)
Definition field {A} (validate : pyval -> option A)
    (kwargs : gmap string pyval) (key : string) (default : option A)
  : outcome A :=
  match kwargs !! key with
  | Some v =>
      match validate v with
      | Some a => Ok a
      | None => Raise ValidationError
      end
  | None =>
      match default with
      | Some d => Ok d
      | None => Raise ValidationError
      end
  end.

Definition and_then {A B} (r : outcome A) (k : A -> outcome B) : outcome B :=
  match r with
  | Ok a => k a
  | Raise e => Raise e
  end.

(** [LLMConfig] built from the keyword arguments [kwargs]; keys that
    name no field are ignored. *)
Definition LLMConfig_init (kwargs : gmap string pyval) : outcome LLMConfig :=
  and_then (field as_str kwargs "api_key" None) (fun k =>
  and_then (field as_str kwargs "api_base" None) (fun b =>
  and_then (field as_str kwargs "model" None) (fun m =>
  and_then (field as_float kwargs "temperature" (Some default_temperature)) (fun t =>
  and_then (field as_int kwargs "max_tokens" (Some default_max_tokens)) (fun mt =>
  and_then (field as_float kwargs "top_p" (Some default_top_p)) (fun tp =>
  and_then (field as_str kwargs "system_prompt" (Some default_system_prompt)) (fun sp =>
  Ok {| api_key := k; api_base := b; model := m; temperature := t;
        max_tokens := mt; top_p := tp; system_prompt := sp |}))))))).

(** [provider in container] *)
Definition py_in (provider : string) (container : pyval) : outcome bool :=
  match container with
  | PDict m => Ok (bool_decide (is_Some (m !! provider)))
  | PStr s => Ok (str_contains provider s)
  | PList l =>
      Ok (existsb (fun v => match v with
                            | PStr s => bool_decide (s = provider)
                            | _ => false
                            end) l)
  | _ => Raise TypeError
  end.

(** [container[provider]] with a string index *)
Definition py_getitem (container : pyval) (provider : string) : outcome pyval :=
  match container with
  | PDict m =>
      match m !! provider with
      | Some v => Ok v
      | None => Raise KeyError
      end
  | _ => Raise TypeError
  end.

Definition not_found_message (provider : string) : string :=
  "Provider '" +:+ provider +:+ "' not found in configuration".

(** [config_path], or the file beside the code when it is [None] *)
Definition path_or_default (config_path : option string) : string :=
  match config_path with
  | None => default_config_path
  | Some p => p
  end.

(** [LLM.__init__] *)
Definition LLM_init (provider : string) (mm : option MemoryManager)
    (uid : option string) (config_path : option string) : outcome LLM :=
  let uid := str_or uid uuid4 in
  let config_path := path_or_default config_path in
  match read_yaml config_path with
  | None =>
      Raise (FileNotFoundError
               ("Configuration file not found: " +:+ config_path))
  | Some (Raise e) => Raise e
  | Some (Ok (PDict cfg)) =>
      let providers :=
        match cfg !! "providers" with
        | Some v => v
        | None => PDict ∅
        end in
      and_then (py_in provider providers) (fun found =>
      if negb found then Raise (ValueError (not_found_message provider))
      else
        and_then (py_getitem providers provider) (fun provider_config =>
        match provider_config with
        | PDict kwargs =>
            and_then (LLMConfig_init kwargs) (fun c =>
            and_then (new_client (api_key c) (api_base c)) (fun _ =>
            Ok {| provider := provider; memory_manager := mm;
                  user_id := uid; config := c |}))
        | _ => Raise TypeError
        end))
  | Some (Ok _) => Raise AttributeError
  end.

Definition create_silicon_flow (mm : option MemoryManager)
    (uid : option string) (config_path : option string) : outcome LLM :=
  LLM_init "silicon_flow" mm uid config_path.

Definition create_open_router (mm : option MemoryManager)
    (uid : option string) (config_path : option string) : outcome LLM :=
  LLM_init "open_router" mm uid config_path.

End Construction.

(** ** Reading a provider entry against the schema

    An entry is valid when every field it gives has the declared type
    and no required field is missing; a profile matches the entry when
    each field holds the value given, or the declared default of a
    field the entry does not give. *)

Definition typed {A} (inj : A -> pyval) (kwargs : gmap string pyval)
    (key : string) (default : option A) : Prop :=
  match kwargs !! key with
  | Some v => exists a, v = inj a
  | None => is_Some default
  end.

Definition reads {A} (inj : A -> pyval) (kwargs : gmap string pyval)
    (key : string) (default : option A) (actual : A) : Prop :=
  match kwargs !! key with
  | Some v => v = inj actual
  | None => default = Some actual
  end.

Definition valid_entry (kwargs : gmap string pyval) : Prop :=
  typed PStr kwargs "api_key" None
  /\ typed PStr kwargs "api_base" None
  /\ typed PStr kwargs "model" None
  /\ typed PFloat kwargs "temperature" (Some default_temperature)
  /\ typed PInt kwargs "max_tokens" (Some default_max_tokens)
  /\ typed PFloat kwargs "top_p" (Some default_top_p)
  /\ typed PStr kwargs "system_prompt" (Some default_system_prompt).

Definition matches_entry (kwargs : gmap string pyval) (c : LLMConfig) : Prop :=
  reads PStr kwargs "api_key" None (api_key c)
  /\ reads PStr kwargs "api_base" None (api_base c)
  /\ reads PStr kwargs "model" None (model c)
  /\ reads PFloat kwargs "temperature" (Some default_temperature)
       (temperature c)
  /\ reads PInt kwargs "max_tokens" (Some default_max_tokens) (max_tokens c)
  /\ reads PFloat kwargs "top_p" (Some default_top_p) (top_p c)
  /\ reads PStr kwargs "system_prompt" (Some default_system_prompt)
       (system_prompt c).

(** The validator takes the value an entry gives for a field; a
    required field has to be given. *)
Definition accepted {A} (validate : pyval -> option A)
    (kwargs : gmap string pyval) (key : string) (required : bool) : Prop :=
  match kwargs !! key with
  | Some v => is_Some (validate v)
  | None => required = false
  end.

(** A field of the profile holds what the entry gives for it: the
    validated value, which is the value itself when that has the
    declared type; or [default] when the entry omits the field. *)
Definition holds {A} (validate : pyval -> option A) (inj : A -> pyval)
    (kwargs : gmap string pyval) (key : string) (default : option A)
    (actual : A) : Prop :=
  match kwargs !! key with
  | Some v => validate v = Some actual /\ (forall a, v = inj a -> actual = a)
  | None => default = Some actual
  end.

(** An entry the schema accepts: [api_key], [api_base] and [model] are
    given, and every field given passes its validator. *)
Definition accepted_entry `{Pydantic} (kwargs : gmap string pyval) : Prop :=
  accepted as_str kwargs "api_key" true
  /\ accepted as_str kwargs "api_base" true
  /\ accepted as_str kwargs "model" true
  /\ accepted as_float kwargs "temperature" false
  /\ accepted as_int kwargs "max_tokens" false
  /\ accepted as_float kwargs "top_p" false
  /\ accepted as_str kwargs "system_prompt" false.

(** The [providers] section of a configuration, a mapping when it is
    there, has no entry for [provider]. *)
Definition lacks_provider (cfg : gmap string pyval) (provider : string)
  : Prop :=
  match cfg !! "providers" with
  | None => True
  | Some (PDict ps) => ps !! provider = None
  | Some _ => False
  end.

(** ** [chat_with_memories], a generator

    Calling the method runs nothing: the body starts at the first
    [next].  A generator is the point where the body is suspended,
    together with the locals that are live there. *)
Inductive generator :=
| Created (self : LLM) (message : string) (uid : option string)
          (store_memory stream : bool)
| Streaming (messages : list Message) (uid : string) (store_memory : bool)
            (response : list stream_item) (collected_response : list string)
| Yielded
| Finished.

Definition not_initialized : exn := ValueError "Memory manager not initialized".

Section Methods.
Context {Store : Type} `{Mem0Memory Store} `{OpenAI}.

Section Self.
Variable self : LLM.

Definition memory_line (entry : Entry) : string :=
  "- " +:+ memory entry +:+ " (Relevance: "
       +:+ format_2f (score_or (score entry) 0%float) +:+ ")".

Definition system_message (relevant_memories : list Entry) : Message :=
  let memories_str := String.concat nl (map memory_line relevant_memories) in
  {| role := "system";
     content := system_prompt (config self) +:+ nl +:+ nl
                +:+ "Relevant Memories:" +:+ nl +:+ memories_str |}.

Definition user_message (message : string) : Message :=
  {| role := "user"; content := message |}.

Definition assistant_message (text : string) : Message :=
  {| role := "assistant"; content := text |}.

Definition request (messages : list Message) (stream : bool) : Request :=
  {| req_model := model (config self);
     req_messages := messages;
     req_stream := stream;
     req_temperature := temperature (config self);
     req_max_tokens := max_tokens (config self) |}.

(** The [for chunk in response] loop and what follows it, from the
    point where [response] is what is left of the stream.  The result
    is the value of the next [yield] and the generator suspended there,
    or [None] when the body returns. *)
Fixpoint stream_loop (messages : list Message) (uid : string)
    (store_memory : bool) (response : list stream_item)
    (collected_response : list string)
  : M Store (option string * generator) :=
  match response with
  | [] =>
      if store_memory then
        let* _ :=
          memory_add
            (messages
               ++ [assistant_message (String.concat "" collected_response)])
            uid None in
        ret (None, Finished)
      else ret (None, Finished)
  | StreamRaise e :: _ => raise e
  | Chunk delta :: rest =>
      match delta with
      | Some content =>
          if str_truthy content then
            ret (Some content,
                 Streaming messages uid store_memory rest
                   (collected_response ++ [content]))
          else stream_loop messages uid store_memory rest collected_response
      | None => stream_loop messages uid store_memory rest collected_response
      end
  end.

(** The body up to its first [yield]. *)
Definition start (message : string) (uid : option string)
    (store_memory stream : bool) : M Store (option string * generator) :=
  match memory_manager self with
  | None => raise not_initialized
  | Some mm =>
      let uid := str_or uid (user_id self) in
      let* relevant_memories :=
        memory_search message uid (context_limit (Memory.config mm)) in
      let messages :=
        [system_message relevant_memories; user_message message] in
      if stream then
        let* response := client_stream (request messages true) in
        stream_loop messages uid store_memory response []
      else
        let* assistant_response := client_create (request messages false) in
        let* _ :=
          if store_memory then
            let* _ :=
              memory_add (messages ++ [assistant_message assistant_response])
                uid None in
            ret tt
          else ret tt in
        ret (Some assistant_response, Yielded)
  end.

Definition chat_with_memories (message : string) (uid : option string)
    (store_memory stream : bool) : generator :=
  Created self message uid store_memory stream.

Definition get_user_profile : M Store Profile :=
  match memory_manager self with
  | None => raise not_initialized
  | Some mm => Memory.get_user_profile mm (user_id self) true
  end.

Definition search_memories (query : string) (max_results : Z)
  : M Store (list (gmap string pyval)) :=
  match memory_manager self with
  | None => raise not_initialized
  | Some mm => Memory.search_memories mm (user_id self) query max_results
  end.

End Self.

(** [next(g)]: the yielded value, or [None] for [StopIteration]; an
    exception leaves the generator finished. *)
Definition next (g : generator) : M Store (option string * generator) :=
  match g with
  | Created self message uid store_memory stream =>
      start self message uid store_memory stream
  | Streaming messages uid store_memory response collected_response =>
      stream_loop messages uid store_memory response collected_response
  | Yielded => ret (None, Finished)
  | Finished => ret (None, Finished)
  end.

(** A caller that asks for at most [n] values: the values it received,
    then the generator (or the exception that ended it), the store and
    the calls issued. *)
Fixpoint consume (n : nat) (g : generator) (st : Store)
  : list string * outcome generator * Store * list event :=
  match n with
  | O => ([], Ok g, st, [])
  | S n' =>
      match next g st with
      | (Ok (Some y, g'), st', tr) =>
          match consume n' g' st' with
          | (ys, r, st'', tr') => (y :: ys, r, st'', tr ++ tr')
          end
      | (Ok (None, g'), st', tr) => ([], Ok g', st', tr)
      | (Raise e, st', tr) => ([], Raise e, st', tr)
      end
  end.

(** The values a caller receives from a stream it reads to the end (or
    up to the error that breaks it). *)
Fixpoint fragments (response : list stream_item) : list string :=
  match response with
  | [] => []
  | StreamRaise _ :: _ => []
  | Chunk (Some content) :: rest =>
      if str_truthy content then content :: fragments rest
      else fragments rest
  | Chunk None :: rest => fragments rest
  end.

(** A stream that ends without an error. *)
Definition unbroken (response : list stream_item) : Prop :=
  forall e, ~ In (StreamRaise e) response.

(** A run that comes after the calls [issued]. *)
Definition after (issued : list event)
    (run : list string * outcome generator * Store * list event)
  : list string * outcome generator * Store * list event :=
  match run with
  | (ys, r, st, tr) => (ys, r, st, issued ++ tr)
  end.

(** A generator whose body has started. *)
Definition started (g : generator) : Prop :=
  match g with
  | Created _ _ _ _ _ => False
  | _ => True
  end.

(** An upper bound on the values a generator can still yield. *)
Definition pending (g : generator) : nat :=
  match g with
  | Streaming _ _ _ response _ => length response
  | _ => O
  end.

(** [for v in g: body(v)], with [fuel] bounding the values taken. *)
Fixpoint for_loop (fuel : nat) (g : generator) (body : string -> M Store unit)
  : M Store unit :=
  let* '(y, g') := next g in
  match y with
  | None => ret tt
  | Some v =>
      let* _ := body v in
      match fuel with
      | O => ret tt
      | S fuel' => for_loop fuel' g' body
      end
  end.

(** [for v in g: body(v)] for a generator that has not started: the
    first [next] runs the body up to its first [yield], which fixes the
    stream and so the number of values still to come. *)
Definition for_in (g : generator) (body : string -> M Store unit)
  : M Store unit :=
  let* '(y, g') := next g in
  match y with
  | None => ret tt
  | Some v =>
      let* _ := body v in
      for_loop (pending g') g' body
  end.

End Methods.

(** ** [chat_completion], a generator without memory

    The same completion call as [chat_with_memories], on messages the
    caller has built; nothing is searched and nothing is stored. *)
Inductive completion_generator :=
| CompletionCreated (self : LLM) (messages : list Message) (stream : bool)
| CompletionStreaming (response : list stream_item)
| CompletionYielded
| CompletionFinished.

Section Completion.
Context {Store : Type} `{OpenAI}.

(** The [for chunk in response] loop of [chat_completion]. *)
Fixpoint completion_loop (response : list stream_item)
  : M Store (option string * completion_generator) :=
  match response with
  | [] => ret (None, CompletionFinished)
  | StreamRaise e :: _ => raise e
  | Chunk delta :: rest =>
      match delta with
      | Some content =>
          if str_truthy content then
            ret (Some content, CompletionStreaming rest)
          else completion_loop rest
      | None => completion_loop rest
      end
  end.

Definition completion_start (self : LLM) (messages : list Message)
    (stream : bool) : M Store (option string * completion_generator) :=
  if stream then
    let* response := client_stream (request self messages true) in
    completion_loop response
  else
    let* reply := client_create (request self messages false) in
    ret (Some reply, CompletionYielded).

Definition chat_completion (self : LLM) (messages : list Message)
    (stream : bool) : completion_generator :=
  CompletionCreated self messages stream.

Definition completion_next (g : completion_generator)
  : M Store (option string * completion_generator) :=
  match g with
  | CompletionCreated self messages stream =>
      completion_start self messages stream
  | CompletionStreaming response => completion_loop response
  | CompletionYielded => ret (None, CompletionFinished)
  | CompletionFinished => ret (None, CompletionFinished)
  end.

(** A caller of [chat_completion] that asks for at most [n] values. *)
Fixpoint completion_consume (n : nat) (g : completion_generator) (st : Store)
  : list string * outcome completion_generator * Store * list event :=
  match n with
  | O => ([], Ok g, st, [])
  | S n' =>
      match completion_next g st with
      | (Ok (Some y, g'), st', tr) =>
          match completion_consume n' g' st' with
          | (ys, r, st'', tr') => (y :: ys, r, st'', tr ++ tr')
          end
      | (Ok (None, g'), st', tr) => ([], Ok g', st', tr)
      | (Raise e, st', tr) => ([], Raise e, st', tr)
      end
  end.

End Completion.

(** ** Vocabulary for the properties of a turn *)

(** A call to the store names the user [u]; other events name no user. *)
Definition scoped_to (u : string) (ev : event) : Prop :=
  match ev with
  | MemSearch _ u' _ | MemAdd _ u' _ | MemClear u' => u' = u
  | _ => True
  end.

(** The user a generator works for. *)
Definition works_for (u : string) (g : generator) : Prop :=
  match g with
  | Created self _ uid _ _ => str_or uid (user_id self) = u
  | Streaming _ u' _ _ _ => u' = u
  | _ => True
  end.

(** The error that breaks a stream, if one does. *)
Fixpoint stream_error (response : list stream_item) : option exn :=
  match response with
  | [] => None
  | StreamRaise e :: _ => Some e
  | Chunk _ :: rest => stream_error rest
  end.

(** The calls of one turn, in the only order they can come in: the
    search, the completion request, the write. *)
Definition turn_shaped (tr : list event) : Prop :=
  match tr with
  | [] | [MemSearch _ _ _] | [MemSearch _ _ _; Create _]
  | [MemSearch _ _ _; Create _; MemAdd _ _ _] => True
  | _ => False
  end.

End Llm.

(* ===================================================================== *)
(** * memory.py: the constructor                                          *)
(* ===================================================================== *)

Module MemoryInit.

Import Memory Llm.

(** pydantic's validator for a [Dict[str, Any]] field. *)
Class PydanticDict := { as_dict : pyval -> option pyval }.

(** A dict is taken as it is. *)
Class PydanticDictLaws `{PydanticDict} : Prop := {
  as_dict_PDict : forall m, as_dict (PDict m) = Some (PDict m);
}.

(** [Mem0Memory.from_config]: the store, built from the three adapter
    settings. *)
Class Mem0Factory (Store : Type) := { from_config : pyval -> outcome Store }.

Section Construction.
Context `{Pydantic} `{PydanticDict} `{Host} {Store : Type} `{Mem0Factory Store}.

(** [MemoryConfig] built from the keyword arguments [kwargs]; every
    field has a default. *)
Definition MemoryConfig_init (kwargs : gmap string pyval)
  : outcome MemoryConfig :=
  and_then (field as_dict kwargs "llm" (Some default_llm)) (fun l =>
  and_then (field as_dict kwargs "embedder" (Some default_embedder)) (fun e =>
  and_then (field as_dict kwargs "vector_store" (Some default_vector_store))
    (fun v =>
  and_then (field as_int kwargs "search_limit" (Some default_search_limit))
    (fun sl =>
  and_then (field as_int kwargs "context_limit" (Some default_context_limit))
    (fun cl =>
  Ok {| llm := l; embedder := e; vector_store := v;
        search_limit := sl; context_limit := cl |}))))).

(** [d.get(key, {})]; only a dict has [get]. *)
Definition get_or_empty (d : pyval) (key : string) : outcome pyval :=
  match d with
  | PDict m =>
      Ok (match m !! key with
          | Some v => v
          | None => PDict ∅
          end)
  | _ => Raise AttributeError
  end.

(** What [Mem0Memory.from_config] is given. *)
Definition mem0_settings (c : MemoryConfig) : pyval :=
  PDict {[ "llm" := llm c; "embedder" := embedder c;
           "vector_store" := vector_store c ]}.

(** [MemoryManager.__init__]: the manager and the store behind its
    [memory] attribute. *)
Definition MemoryManager_init (config_path : option string)
  : outcome (MemoryManager * Store) :=
  let config_path := path_or_default config_path in
  match read_yaml config_path with
  | None =>
      Raise (FileNotFoundError
               ("Configuration file not found: " +:+ config_path))
  | Some (Raise e) => Raise e
  | Some (Ok cfg) =>
      and_then (get_or_empty cfg "memory") (fun memory =>
      and_then (get_or_empty memory "mem0") (fun memory_config =>
      match memory_config with
      | PDict kwargs =>
          and_then (MemoryConfig_init kwargs) (fun c =>
          and_then (from_config (mem0_settings c)) (fun store =>
          Ok ({| Memory.config := c |}, store)))
      | _ => Raise TypeError
      end))
  end.

End Construction.

(** A [mem0] section is valid when the adapter settings it gives are
    dicts and the limits it gives are integers; a configuration matches
    it when each field holds the value given, or its default. *)
Definition valid_memory_section (kwargs : gmap string pyval) : Prop :=
  typed PDict kwargs "llm" (Some ∅)
  /\ typed PDict kwargs "embedder" (Some ∅)
  /\ typed PDict kwargs "vector_store" (Some ∅)
  /\ typed PInt kwargs "search_limit" (Some default_search_limit)
  /\ typed PInt kwargs "context_limit" (Some default_context_limit).

Definition matches_memory_section (kwargs : gmap string pyval)
    (c : MemoryConfig) : Prop :=
  reads id kwargs "llm" (Some default_llm) (llm c)
  /\ reads id kwargs "embedder" (Some default_embedder) (embedder c)
  /\ reads id kwargs "vector_store" (Some default_vector_store)
       (vector_store c)
  /\ reads PInt kwargs "search_limit" (Some default_search_limit)
       (search_limit c)
  /\ reads PInt kwargs "context_limit" (Some default_context_limit)
       (context_limit c).

(** The configuration of a file without a [mem0] section. *)
Definition default_memory_config : MemoryConfig :=
  {| llm := default_llm; embedder := default_embedder;
     vector_store := default_vector_store;
     search_limit := default_search_limit;
     context_limit := default_context_limit |}.

End MemoryInit.

(* ===================================================================== *)
(** * main.py                                                             *)
(* ===================================================================== *)

Module Main.

Import Memory Llm.

(** [int] to [float], rounded to nearest even; too large an [int]
    raises. *)
Definition float_of_int (z : Z) : outcome float :=
  match binary_normalize prec emax z 0 false with
  | S754_infinity _ => Raise OverflowError
  | sf => Ok (SF2Prim sf)
  end.

(** [f"{v:.2f}"] for an arbitrary value. *)
Definition format_2f_value (v : pyval) : outcome string :=
  match v with
  | PFloat f => Ok (format_2f f)
  | PInt z =>
      match float_of_int z with
      | Ok f => Ok (format_2f f)
      | Raise e => Raise e
      end
  | PBool b => Ok (if b then "1.00" else "0.00")
  | PStr _ => Raise (ValueError "Unknown format code 'f' for object of type 'str'")
  | _ => Raise TypeError
  end.

(** What the loop does after a turn. *)
Inductive control := Continue | Break.

(** The branches of the loop body. *)
Inductive branch :=
| Exit
| Search (query : string)
| ShowProfile
| Clear
| Help
| Chat (user_input : string).

Definition help_lines : list string :=
  [ "  /search <query> - Search memories";
    "  /profile - View user profile";
    "  /clear - Clear chat history";
    "  /exit - Exit the chat" ].

Section Shell.
Context {Store : Type} `{Mem0Memory Store} `{OpenAI} `{Builtins}.

(** [print(text)] writes the text and a newline. *)
Definition println (text : string) : M Store unit := print (text +:+ nl).

(** [f"{v}"] *)
Definition format_value (v : pyval) : string :=
  match v with
  | PStr s => s
  | _ => py_str v
  end.

(** [d[key]] on a dict *)
Definition getitem (d : gmap string pyval) (key : string) : M Store pyval :=
  match d !! key with
  | Some v => ret v
  | None => raise KeyError
  end.

(** [if d.get(key):] *)
Definition get_truthy (d : gmap string pyval) (key : string) : bool :=
  match d !! key with
  | Some v => truthy v
  | None => false
  end.

(** [d.get(key) is not None] *)
Definition get_is_not_None (d : gmap string pyval) (key : string) : bool :=
  match d !! key with
  | Some PNone | None => false
  | Some _ => true
  end.

Definition when (b : bool) (c : M Store unit) : M Store unit :=
  if b then c else ret tt.

(** The part of a loop body that [print_memories] and [print_profile]
    share: the numbered content line, the metadata and the date. *)
Definition print_entry (i : Z) (memory : gmap string pyval) : M Store unit :=
  let* c := getitem memory "content" in
  let* _ := println (nl +:+ digits i +:+ ". Content: " +:+ format_value c) in
  let* _ :=
    when (get_truthy memory "metadata")
      (let* md := getitem memory "metadata" in
       println ("   Metadata: " +:+ format_value md)) in
  when (get_truthy memory "created_at")
    (let* ts := getitem memory "created_at" in
     println ("   Created: " +:+ format_value ts)).

Definition print_relevance (memory : gmap string pyval) : M Store unit :=
  when (get_is_not_None memory "relevance_score")
    (let* sc := getitem memory "relevance_score" in
     match format_2f_value sc with
     | Ok text => println ("   Relevance: " +:+ text)
     | Raise e => raise e
     end).

(** [for i, memory in enumerate(memories, i): body(i, memory)] *)
Fixpoint for_enumerate (i : Z) (memories : list (gmap string pyval))
    (body : Z -> gmap string pyval -> M Store unit) : M Store unit :=
  match memories with
  | [] => ret tt
  | memory :: rest =>
      let* _ := body i memory in
      for_enumerate (i + 1) rest body
  end.

Definition print_memories (memories : list (gmap string pyval))
  : M Store unit :=
  match memories with
  | [] => println "No memories found."
  | _ =>
      let* _ := println (nl +:+ "Relevant Memories:") in
      for_enumerate 1 memories (fun i memory =>
        let* _ := print_entry i memory in
        print_relevance memory)
  end.

Definition print_profile (profile : Profile) : M Store unit :=
  let* _ := println (nl +:+ "User Profile:") in
  match recent_memories profile with
  | [] => println "No recent memories found."
  | memories =>
      let* _ := println (nl +:+ "Recent Memories:") in
      for_enumerate 1 memories print_entry
  end.

Fixpoint print_lines (lines : list string) : M Store unit :=
  match lines with
  | [] => ret tt
  | l :: rest => let* _ := println l in print_lines rest
  end.

Definition print_help : M Store unit :=
  let* _ := println "Unknown command. Available commands:" in
  print_lines help_lines.

(** [memory_manager] and [llm] of [main]; [memory_manager.memory] is
    the store the turn runs against. *)
Variable llm : LLM.

(** [command[0]] and [command[1]] of a [split(' ', 1)] *)
Definition command_name (command : list string) : string :=
  match command with
  | c :: _ => c
  | [] => ""
  end.

(** Which branch of the [if]/[elif] chain a stripped input selects. *)
Definition dispatch (user_input : string) : branch :=
  if startswith_char user_input "/" then
    let command := split_space_once (drop_first user_input) in
    let cmd := lower (command_name command) in
    if bool_decide (cmd = "exit") then Exit
    else
      match bool_decide (cmd = "search"), command with
      | true, _ :: query :: _ => Search query
      | _, _ =>
          if bool_decide (cmd = "profile") then ShowProfile
          else if bool_decide (cmd = "clear") then Clear
          else Help
      end
  else Chat user_input.

(** The body of each branch. *)
Definition run (b : branch) : M Store control :=
  match b with
  | Exit =>
      let* _ := println "Goodbye!" in
      ret Break
  | Search query =>
      let* _ := println (nl +:+ "Searching memories for: " +:+ query) in
      let* memories := Llm.search_memories llm query 5 in
      let* _ := print_memories memories in
      ret Continue
  | ShowProfile =>
      let* profile := Llm.get_user_profile llm in
      let* _ := print_profile profile in
      ret Continue
  | Clear =>
      let* cleared := Memory.delete_user (Llm.user_id llm) in
      let* _ :=
        if cleared then println "Chat history cleared."
        else println "Failed to clear chat history." in
      ret Continue
  | Help =>
      let* _ := print_help in
      ret Continue
  | Chat user_input =>
      let* _ := print (nl +:+ "Assistant: ") in
      let* _ :=
        for_in (chat_with_memories llm user_input None true true)
          (fun response => print response) in
      let* _ := println "" in
      ret Continue
  end.

(** The body of the [try] once [input] has returned [line]. *)
Definition turn_body (line : string) : M Store control :=
  run (dispatch (strip line)).

(** The two [except] clauses of the loop: an interrupt ends the loop,
    an [Exception] is reported and the loop goes on, anything else
    leaves [main]. *)
Definition handle (c : M Store control) : M Store control :=
  fun st =>
    match c st with
    | (Ok k, st1, tr1) => (Ok k, st1, tr1)
    | (Raise KeyboardInterrupt, st1, tr1) =>
        (Ok Break, st1, tr1 ++ [Print (nl +:+ "Goodbye!" +:+ nl)])
    | (Raise e, st1, tr1) =>
        if is_Exception e then
          (Ok Continue, st1,
           tr1 ++ [Print (nl +:+ "Error: " +:+ exn_str e +:+ nl)])
        else (Raise e, st1, tr1)
    end.

(** One iteration of [while True], given what [input] returned. *)
Definition turn (input : outcome string) : M Store control :=
  handle
    (let* _ := print (nl +:+ "You: ") in
     match input with
     | Ok line => turn_body line
     | Raise e => raise e
     end).

End Shell.

(** ** Vocabulary for the properties of the shell *)

Definition is_print (ev : event) : Prop :=
  match ev with Print _ => True | _ => False end.

(** Every event of a computation satisfies [P], from whatever store it
    starts. *)
Definition emits {Store A : Type} (P : event -> Prop) (c : M Store A) : Prop :=
  forall st, Forall P (snd (c st)).

(** The line [print_memories] writes for the relevance of a result. *)
Definition relevance_line (m : Entry) : event :=
  Print ("   Relevance: "
         +:+ format_2f (match score m with
                        | Some x => x
                        | None => 0%float
                        end) +:+ nl).

(** A command line: [/], the command token and, after one space, its
    argument if there is one. *)
Definition command_line (tok : string) (arg : option string) : string :=
  String "/" (match arg with
              | None => tok
              | Some a => tok +:+ " " +:+ a
              end).

(** The branch a command token and its argument stand for. *)
Definition command_branch (tok : string) (arg : option string) : branch :=
  if bool_decide (lower tok = "exit") then Exit
  else if bool_decide (lower tok = "search") then
    match arg with
    | Some query => Search query
    | None => Help
    end
  else if bool_decide (lower tok = "profile") then ShowProfile
  else if bool_decide (lower tok = "clear") then Clear
  else Help.

(** ** The session: [main] *)

(** How a run over finitely many inputs stops: the loop has ended, or
    it is back at [input] for a line that is not there yet. *)
Inductive loop_end := Ended | Waiting.

Definition banner : list string :=
  [ "Welcome to the Chat Demo!"; "Available commands:" ]
  ++ help_lines
  ++ [ nl +:+ "Start chatting (or use a command):" ].

Section Session.
Context {Store : Type} `{Mem0Memory Store} `{OpenAI} `{Builtins}.

(** [while True], on the results of the successive [input] calls. *)
Fixpoint loop (llm : LLM) (inputs : list (outcome string))
  : M Store loop_end :=
  match inputs with
  | [] => ret Waiting
  | input :: rest =>
      let* k := turn llm input in
      match k with
      | Break => ret Ended
      | Continue => loop llm rest
      end
  end.

Import MemoryInit.
Context `{Pydantic} `{PydanticDict} `{Host} `{Mem0Factory Store}.

(** [main()]: the result, the store if it was built, and the trace. *)
Definition main (inputs : list (outcome string))
  : outcome loop_end * option Store * list event :=
  match MemoryManager_init None with
  | Raise e => (Raise e, None, [])
  | Ok (memory_manager, store) =>
      match create_silicon_flow (Some memory_manager)
              (Some "demo_user") None with
      | Raise e => (Raise e, Some store, [])
      | Ok llm =>
          match (let* _ := print_lines banner in loop llm inputs) store with
          | (r, st, tr) => (r, Some st, tr)
          end
      end
  end.

End Session.

End Main.

(* ===================================================================== *)
(** * Test doubles                                                        *)
(* ===================================================================== *)

Module Doubles.

Import Memory Llm Main.

(** A store that keeps, per user, the texts written to it; [clear]
    fails on a store that is offline. *)
Record FakeStore := {
  rows : list (string * string);
  offline : bool;
}.

Definition row_entry (row : string * string) : Entry :=
  {| memory := snd row; metadata := None; timestamp := None; score := None |}.

Definition rows_of (st : FakeStore) (uid : string) : list (string * string) :=
  filter (fun row => bool_decide (fst row = uid)) (rows st).

#[global] Instance fake_mem0 : Mem0Memory FakeStore := {
  mem0_search st query uid limit :=
    Ok (map row_entry (firstn (Z.to_nat limit) (rows_of st uid)));
  mem0_add st messages uid md :=
    (Ok "id-1",
     {| rows := rows st
                  ++ [(uid, String.concat " | " (map content messages))];
        offline := offline st |});
  mem0_clear st uid :=
    if offline st then (Raise (OtherException "store unreachable"), st)
    else (Ok tt,
          {| rows := filter (fun row => negb (bool_decide (fst row = uid)))
                       (rows st);
             offline := false |});
}.

(** A client that answers "Hello" in one piece, or in two fragments
    with two empty chunks between them. *)
#[global] Instance fake_openai : OpenAI := {
  completions_create req := Ok "Hello";
  completions_stream req :=
    Ok [Chunk (Some "Hel"); Chunk None; Chunk (Some ""); Chunk (Some "lo")];
}.

#[global] Instance fake_builtins : Builtins := {
  py_str v := "{}";
  runtime_text e := "";
}.

(** Validators that accept a value of the declared type only. *)
#[global] Instance strict_pydantic : Pydantic := {
  as_str v := match v with PStr s => Some s | _ => None end;
  as_float v := match v with PFloat f => Some f | _ => None end;
  as_int v := match v with PInt z => Some z | _ => None end;
}.

(** A configuration file with two provider entries: [test] gives a
    model and a temperature only, [full] also the credentials. *)
Definition test_entry : gmap string pyval :=
  {[ "model" := PStr "m1"; "temperature" := PFloat 0.5 ]}.

Definition full_entry : gmap string pyval :=
  {[ "api_key" := PStr "sk-1"; "api_base" := PStr "https://api.example/v1";
     "model" := PStr "m1"; "temperature" := PFloat 0.5 ]}.

Definition config_yaml : pyval :=
  PDict {[ "providers" := PDict {[ "test" := PDict test_entry;
                                   "full" := PDict full_entry ]} ]}.

#[global] Instance fake_host : Host := {
  default_config_path := "config.yaml";
  read_yaml path :=
    if bool_decide (path = "config.yaml") then Some (Ok config_yaml)
    else None;
  uuid4 := "7f0c8bd2-5f0e-4a55-9d0e-0c1d6b7a9e11";
  new_client key base := Ok tt;
}.

Definition manager : MemoryManager :=
  {| Memory.config :=
       {| llm := default_llm; embedder := default_embedder;
          vector_store := default_vector_store;
          search_limit := default_search_limit;
          context_limit := default_context_limit |} |}.

Definition profile_m1 : LLMConfig :=
  {| api_key := "sk-1"; api_base := "https://api.example/v1"; model := "m1";
     temperature := 0.5; max_tokens := default_max_tokens;
     top_p := default_top_p; system_prompt := "Be brief." |}.

Definition llm_with_memory : LLM :=
  {| provider := "full"; memory_manager := Some manager;
     user_id := "demo_user"; config := profile_m1 |}.

Definition store0 : FakeStore :=
  {| rows := [("demo_user", "likes coffee"); ("other", "likes tea")];
     offline := false |}.

Definition store_offline : FakeStore :=
  {| rows := [("demo_user", "likes coffee")]; offline := true |}.

End Doubles.

(** More test doubles: the constructor of the memory manager and a
    configuration with the [silicon_flow] preset. *)
Module MoreDoubles.

Import Memory Llm MemoryInit Main Doubles.

Definition plain_pydantic_dict : PydanticDict := {|
  as_dict v := match v with PDict m => Some (PDict m) | _ => None end;
|}.

Definition fake_factory : Mem0Factory FakeStore := {|
  from_config settings := Ok {| rows := []; offline := false |};
|}.

Definition custom_llm : pyval := PDict {[ "provider" := PStr "openai" ]}.

Definition demo_yaml : pyval :=
  PDict {[ "providers" :=
             PDict {[ "silicon_flow" := PDict full_entry ]};
           "memory" :=
             PDict {[ "mem0" := PDict {[ "llm" := custom_llm;
                                         "search_limit" := PInt 8 ]} ]} ]}.

Definition demo_host : Host := {|
  default_config_path := "config.yaml";
  read_yaml path :=
    if bool_decide (path = "config.yaml") then Some (Ok demo_yaml)
    else None;
  uuid4 := "7f0c8bd2-5f0e-4a55-9d0e-0c1d6b7a9e11";
  new_client key base := Ok tt;
|}.

(** A host whose client constructor refuses a key without text, and
    its configuration: the entry [blank] passes the schema. *)
Definition blank_entry : gmap string pyval :=
  {[ "api_key" := PStr ""; "api_base" := PStr "https://api.example/v1";
     "model" := PStr "m1" ]}.

Definition wary_host : Host := {|
  default_config_path := "config.yaml";
  read_yaml path :=
    if bool_decide (path = "config.yaml")
    then Some (Ok (PDict {[ "providers" :=
                              PDict {[ "blank" := PDict blank_entry;
                                       "full" := PDict full_entry ]} ]}))
    else None;
  uuid4 := "7f0c8bd2-5f0e-4a55-9d0e-0c1d6b7a9e11";
  new_client key base :=
    if str_truthy key then Ok tt
    else Raise (OtherException "The api_key client option must be set");
|}.

(** A store whose search fails, and one that answers with a scored
    entry. *)
Definition down_mem0 : Mem0Memory FakeStore := {|
  mem0_search st query uid limit := Raise (OtherException "search failed");
  mem0_add st messages uid md := (Raise (OtherException "add failed"), st);
  mem0_clear st uid := (Raise KeyboardInterrupt, st);
|}.

#[warnings="-inexact-float"]
Definition scored_entry : Entry :=
  {| memory := "likes coffee"; metadata := None; timestamp := None;
     score := Some 0.91%float |}.

(** A client whose stream breaks after the first fragment. *)
Definition broken_openai : OpenAI := {|
  completions_create req := Raise (OtherException "no route");
  completions_stream req :=
    Ok [Chunk (Some "Hel"); StreamRaise (OtherException "reset");
        Chunk (Some "lo")];
|}.

(** The profile of the [full] entry, with the defaults filled in. *)
Definition profile_default : LLMConfig :=
  {| api_key := "sk-1"; api_base := "https://api.example/v1"; model := "m1";
     temperature := 0.5; max_tokens := default_max_tokens;
     top_p := default_top_p; system_prompt := default_system_prompt |}.

Definition llm_without_memory : LLM :=
  {| provider := "full"; memory_manager := None;
     user_id := "demo_user"; config := profile_m1 |}.

End MoreDoubles.

(* ===================================================================== *)
(** * The runtime model on sample values                                  *)
(* ===================================================================== *)

Module RuntimeSpec.

#[warnings="-inexact-float"]
Example format_2f_samples :
  map format_2f [0.91; 0.125; 0.375; 2.675; 12.345; (-0.001); 1e22]%float
  = ["0.91"; "0.12"; "0.38"; "2.67"; "12.35"; "-0.00";
     "10000000000000000000000.00"].
Proof. vm_compute. reflexivity. Qed.

Example strip_sample : strip "  /search coffee  " = "/search coffee".
Proof. reflexivity. Qed.

Example split_samples :
  map split_space_once ["search coffee and tea"; "search"; ""; " x"]
  = [["search"; "coffee and tea"]; ["search"]; [""]; [""; "x"]].
Proof. reflexivity. Qed.

Example lower_sample : lower "SeArCh" = "search".
Proof. reflexivity. Qed.

End RuntimeSpec.

(* ===================================================================== *)
(** * Properties of memory.py                                             *)
(* ===================================================================== *)

Module MemorySpec.

Import Memory Doubles.

Section Store.
Context {Store : Type} `{Mem0Memory Store} `{Builtins}.

Lemma memory_search_run (query uid : string) (limit : Z) (st : Store) :
  memory_search query uid limit st
  = (mem0_search st query uid limit, st, [MemSearch query uid limit]).
Proof. reflexivity. Qed.

Lemma search_then_ret {B} (query uid : string) (limit : Z)
    (f : list Entry -> B) (st : Store) :
  (let* found := memory_search query uid limit in ret (f found)) st
  = (match mem0_search st query uid limit with
     | Ok found => Ok (f found)
     | Raise e => Raise e
     end, st, [MemSearch query uid limit]).
Proof.
  unfold bind, ret. rewrite memory_search_run.
  destruct (mem0_search st query uid limit); reflexivity.
Qed.

Lemma search_memories_run (self : MemoryManager) (uid query : string)
    (max_results : Z) (st : Store) :
  search_memories self uid query max_results st
  = (match mem0_search st query uid
             (Z.min max_results (search_limit (config self))) with
     | Ok results => Ok (map search_record results)
     | Raise e => Raise e
     end, st,
     [MemSearch query uid (Z.min max_results (search_limit (config self)))]).
Proof. unfold search_memories. apply search_then_ret. Qed.

(** C3. [search_memories] issues exactly one search, whose limit is
    [min(max_results, config.search_limit)]; so it never asks the store
    for more than [max_results] results nor for more than
    [config.search_limit]. *)
Theorem search_memories_single_capped_search (self : MemoryManager)
    (uid query : string) (max_results : Z) (st : Store) :
  let limit := Z.min max_results (search_limit (config self)) in
  search_memories self uid query max_results st
  = (match mem0_search st query uid limit with
     | Ok results => Ok (map search_record results)
     | Raise e => Raise e
     end, st, [MemSearch query uid limit])
  /\ limit <= max_results
  /\ limit <= search_limit (config self).
Proof.
  intros limit. split.
  - apply search_memories_run.
  - subst limit. lia.
Qed.

(** C5. [delete_user] returns [True] when the purge succeeds and
    [False] when the purge raises, whatever it raises; it never raises
    itself. *)
Theorem delete_user_reports_failure_as_false (uid : string) (st : Store) :
  (forall st', mem0_clear st uid = (Ok tt, st') ->
     delete_user uid st = (Ok true, st', [MemClear uid]))
  /\ (forall e st', mem0_clear st uid = (Raise e, st') ->
        delete_user uid st = (Ok false, st', [MemClear uid]))
  /\ (exists b st', delete_user uid st = (Ok b, st', [MemClear uid])).
Proof.
  unfold delete_user, try_except_all, bind, memory_clear, ret.
  destruct (mem0_clear st uid) as [[[] | e] st1] eqn:E; simpl.
  - split; [| split].
    + intros st' [= <-]. reflexivity.
    + intros e st' [=].
    + eauto.
  - split; [| split].
    + intros st' [=].
    + intros e' st' [= _ <-]. reflexivity.
    + eauto.
Qed.

(** C8. Two calls of [get_context] that differ only in
    [max_token_size] and [prefer_topics] issue the same single search
    and return the same string. *)
Theorem get_context_ignores_size_and_topics (self : MemoryManager)
    (uid : string) (size1 size2 : Z) (topics1 topics2 : option (list string))
    (st : Store) :
  get_context self uid size1 topics1 st = get_context self uid size2 topics2 st
  /\ snd (get_context self uid size1 topics1 st)
     = [MemSearch "summary" uid (context_limit (config self))].
Proof.
  split; [reflexivity |].
  unfold get_context. rewrite search_then_ret. reflexivity.
Qed.

End Store.

Lemma delete_user_reports_failure_as_false_witness :
  delete_user "demo_user" store_offline
  = (Ok false, store_offline, [MemClear "demo_user"]).
Proof.
  exact (proj1 (proj2 (delete_user_reports_failure_as_false
                         "demo_user" store_offline))
           (OtherException "store unreachable") store_offline eq_refl).
Defined.

End MemorySpec.

(* ===================================================================== *)
(** * Properties of llm.py: construction                                  *)
(* ===================================================================== *)

Module ConfigSpec.

Import Memory Llm Doubles.

#[global] Instance strict_pydantic_laws : PydanticLaws.
Proof. split; reflexivity. Qed.

Section Loading.
Context `{PydanticLaws} `{Host}.

Lemma and_then_Ok {A B} (r : outcome A) (k : A -> outcome B) (b : B) :
  and_then r k = Ok b -> exists a, r = Ok a /\ k a = Ok b.
Proof. destruct r as [a | e]; simpl; [eauto | discriminate]. Qed.

Lemma field_reads {A} (validate : pyval -> option A) (inj : A -> pyval)
    (kwargs : gmap string pyval) (key : string) (default : option A) :
  (forall a, validate (inj a) = Some a) ->
  typed inj kwargs key default ->
  exists a, field validate kwargs key default = Ok a
            /\ reads inj kwargs key default a.
Proof.
  intros Hval. unfold typed, field, reads.
  destruct (kwargs !! key) as [v |].
  - intros [a ->]. exists a. rewrite Hval. split; reflexivity.
  - intros [d ->]. exists d. split; reflexivity.
Qed.

(** A required field that is missing is rejected, whatever the
    validators accept. *)
Lemma field_required_missing {A} (validate : pyval -> option A)
    (kwargs : gmap string pyval) (key : string) :
  kwargs !! key = None -> field validate kwargs key None = Raise ValidationError.
Proof. intros E. unfold field. rewrite E. reflexivity. Qed.

Lemma LLMConfig_init_valid (kwargs : gmap string pyval) :
  valid_entry kwargs ->
  exists c, LLMConfig_init kwargs = Ok c /\ matches_entry kwargs c.
Proof.
  intros (Hk & Hb & Hm & Ht & Hmt & Htp & Hsp).
  destruct (field_reads as_str PStr _ _ _ as_str_PStr Hk) as (k & Ek & Rk).
  destruct (field_reads as_str PStr _ _ _ as_str_PStr Hb) as (b & Eb & Rb).
  destruct (field_reads as_str PStr _ _ _ as_str_PStr Hm) as (m & Em & Rm).
  destruct (field_reads as_float PFloat _ _ _ as_float_PFloat Ht)
    as (t & Et & Rt).
  destruct (field_reads as_int PInt _ _ _ as_int_PInt Hmt) as (mt & Emt & Rmt).
  destruct (field_reads as_float PFloat _ _ _ as_float_PFloat Htp)
    as (tp & Etp & Rtp).
  destruct (field_reads as_str PStr _ _ _ as_str_PStr Hsp) as (sp & Esp & Rsp).
  eexists. unfold LLMConfig_init.
  rewrite Ek, Eb, Em, Et, Emt, Etp, Esp. simpl.
  split; [reflexivity |]. repeat split; assumption.
Qed.

Lemma py_in_present (ps : gmap string pyval) (provider : string) (v : pyval) :
  ps !! provider = Some v -> py_in provider (PDict ps) = Ok true.
Proof.
  intros E. simpl. rewrite E. rewrite bool_decide_eq_true_2; eauto.
Qed.

Lemma py_in_absent (ps : gmap string pyval) (provider : string) :
  ps !! provider = None -> py_in provider (PDict ps) = Ok false.
Proof.
  intros E. simpl. rewrite E. rewrite bool_decide_eq_false_2; [reflexivity |].
  intros [x Hx]. discriminate.
Qed.

Lemma field_holds {A} (validate : pyval -> option A) (inj : A -> pyval)
    (kwargs : gmap string pyval) (key : string) (default : option A)
    (required : bool) :
  (forall a, validate (inj a) = Some a) ->
  (required = false -> is_Some default) ->
  accepted validate kwargs key required ->
  exists a, field validate kwargs key default = Ok a
            /\ holds validate inj kwargs key default a.
Proof.
  intros Hval Hdef. unfold accepted, field, holds.
  destruct (kwargs !! key) as [v |].
  - intros [a Ha]. exists a. rewrite Ha. split; [reflexivity |].
    split; [reflexivity |]. intros a' ->. rewrite Hval in Ha. congruence.
  - intros Hs. destruct (Hdef Hs) as [d ->]. exists d. split; reflexivity.
Qed.

(** C6, as the code has it.  Loading a configuration with a known
    provider key whose entry the schema accepts reads a profile whose
    fields are the values of the entry, with the declared default for
    every optional field the entry omits: temperature 0.7, max_tokens
    2000, top_p 1.0, and the default system prompt.  An entry is
    accepted only if it gives [api_key], [api_base] and [model], which
    have no default.  The constructor then builds the completion client
    from [api_key] and [api_base]: it returns the instance with that
    profile when the client is built, and raises the client's error
    otherwise. *)
#[warnings="-inexact-float"]
Theorem valid_entry_loads_with_defaults (provider : string)
    (mm : option MemoryManager) (uid config_path : option string)
    (cfg ps kwargs : gmap string pyval) :
  read_yaml (path_or_default config_path) = Some (Ok (PDict cfg)) ->
  cfg !! "providers" = Some (PDict ps) ->
  ps !! provider = Some (PDict kwargs) ->
  accepted_entry kwargs ->
  exists c,
    LLM_init provider mm uid config_path
    = match new_client (api_key c) (api_base c) with
      | Ok _ =>
          Ok {| provider := provider; memory_manager := mm;
                user_id := str_or uid uuid4; config := c |}
      | Raise e => Raise e
      end
    /\ holds as_str PStr kwargs "api_key" None (api_key c)
    /\ holds as_str PStr kwargs "api_base" None (api_base c)
    /\ holds as_str PStr kwargs "model" None (model c)
    /\ holds as_float PFloat kwargs "temperature" (Some 0.7%float)
         (temperature c)
    /\ holds as_int PInt kwargs "max_tokens" (Some 2000) (max_tokens c)
    /\ holds as_float PFloat kwargs "top_p" (Some 1.0%float) (top_p c)
    /\ holds as_str PStr kwargs "system_prompt"
         (Some "You are a helpful AI assistant. Use the provided memories to give context-aware responses.")
         (system_prompt c).
Proof.
  intros Hread Hprov Hentry (Hk & Hb & Hm & Ht & Hmt & Htp & Hsp).
  destruct (field_holds as_str PStr kwargs "api_key" None true
              as_str_PStr ltac:(discriminate) Hk) as (k & Ek & Rk).
  destruct (field_holds as_str PStr kwargs "api_base" None true
              as_str_PStr ltac:(discriminate) Hb) as (b & Eb & Rb).
  destruct (field_holds as_str PStr kwargs "model" None true
              as_str_PStr ltac:(discriminate) Hm) as (m & Em & Rm).
  destruct (field_holds as_float PFloat kwargs "temperature"
              (Some default_temperature) false
              as_float_PFloat (fun _ => ltac:(eauto)) Ht) as (t & Et & Rt).
  destruct (field_holds as_int PInt kwargs "max_tokens"
              (Some default_max_tokens) false
              as_int_PInt (fun _ => ltac:(eauto)) Hmt) as (mt & Emt & Rmt).
  destruct (field_holds as_float PFloat kwargs "top_p"
              (Some default_top_p) false
              as_float_PFloat (fun _ => ltac:(eauto)) Htp) as (tp & Etp & Rtp).
  destruct (field_holds as_str PStr kwargs "system_prompt"
              (Some default_system_prompt) false
              as_str_PStr (fun _ => ltac:(eauto)) Hsp) as (sp & Esp & Rsp).
  exists {| api_key := k; api_base := b; model := m; temperature := t;
            max_tokens := mt; top_p := tp; system_prompt := sp |}.
  split.
  - unfold LLM_init. rewrite Hread, Hprov.
    rewrite (py_in_present _ _ _ Hentry). simpl.
    rewrite Hentry. simpl. unfold LLMConfig_init.
    rewrite Ek, Eb, Em, Et, Emt, Etp, Esp. simpl.
    destruct (new_client k b); reflexivity.
  - repeat split; assumption.
Qed.

(** C7. When the [providers] section has no entry for the requested
    key, construction raises the "not found in configuration"
    [ValueError]; no profile is built. *)
Theorem missing_provider_raises_value_error (provider : string)
    (mm : option MemoryManager) (uid config_path : option string)
    (cfg : gmap string pyval) :
  read_yaml (path_or_default config_path) = Some (Ok (PDict cfg)) ->
  lacks_provider cfg provider ->
  LLM_init provider mm uid config_path
  = Raise (ValueError ("Provider '" +:+ provider
                       +:+ "' not found in configuration")).
Proof.
  intros Hread Hlacks. unfold LLM_init, lacks_provider in *. rewrite Hread.
  destruct (cfg !! "providers") as [[| | | | | | ps] |]; try contradiction.
  - rewrite (py_in_absent _ _ Hlacks). reflexivity.
  - rewrite (py_in_absent ∅ provider (lookup_empty _)). reflexivity.
Qed.

(** Construction keeps the memory manager it is given. *)
Lemma LLM_init_memory_manager (provider : string)
    (mm : option MemoryManager) (uid config_path : option string) (llm : LLM) :
  LLM_init provider mm uid config_path = Ok llm -> memory_manager llm = mm.
Proof.
  unfold LLM_init.
  destruct (read_yaml (path_or_default config_path)) as [[[] | e] |];
    try discriminate.
  intros E.
  apply and_then_Ok in E as (found & _ & E).
  destruct (negb found); [discriminate |].
  apply and_then_Ok in E as (pc & _ & E).
  destruct pc; try discriminate.
  apply and_then_Ok in E as (c & _ & E).
  apply and_then_Ok in E as (built & _ & E).
  injection E as <-. reflexivity.
Qed.

End Loading.

(** The entry of the scenario, [model: "m1", temperature: 0.5] and
    nothing else, is rejected: [api_key] and [api_base] are required. *)
Lemma model_and_temperature_alone_rejected :
  LLM_init "test" None None None = Raise ValidationError.
Proof. vm_compute. reflexivity. Qed.

(** C6, counterexample: no profile is built from an entry that gives
    only [model] and [temperature]. *)
Lemma model_and_temperature_alone_yield_no_profile :
  ~ exists llm,
      LLM_init "test" None None None = Ok llm
      /\ model (Llm.config llm) = "m1"
      /\ temperature (Llm.config llm) = 0.5%float
      /\ max_tokens (Llm.config llm) = 2000.
Proof.
  intros (llm & E & _). rewrite model_and_temperature_alone_rejected in E.
  discriminate.
Qed.

(** An entry the schema accepts does not load when the client cannot
    be built from it: the constructor raises what the client raised. *)
Example client_error_is_raised :
  @LLM_init strict_pydantic MoreDoubles.wary_host "blank" None None None
  = Raise (OtherException "The api_key client option must be set")
  /\ exists llm,
       @LLM_init strict_pydantic MoreDoubles.wary_host "full" None None None
       = Ok llm.
Proof. split; [vm_compute; reflexivity | eexists; vm_compute; reflexivity]. Qed.

(** The scenario with the credentials added: the entry gives
    [api_key], [api_base], [model: "m1"] and [temperature: 0.5]. *)
Lemma valid_entry_loads_with_defaults_witness :
  exists c,
    LLM_init "full" None None None
    = Ok {| provider := "full"; memory_manager := None;
            user_id := uuid4; config := c |}
    /\ model c = "m1"
    /\ temperature c = 0.5%float
    /\ max_tokens c = 2000
    /\ top_p c = 1.0%float.
Proof.
  destruct (valid_entry_loads_with_defaults "full" None None None
              {[ "providers" := PDict {[ "test" := PDict test_entry;
                                         "full" := PDict full_entry ]} ]}
              {[ "test" := PDict test_entry; "full" := PDict full_entry ]}
              full_entry)
    as (c & Einit & _ & _ & Hm & Ht & Hmt & Htp & _).
  - reflexivity.
  - reflexivity.
  - reflexivity.
  - repeat split; unfold accepted; vm_compute; eauto.
  - exists c. split; [exact Einit |].
    unfold holds in Hm, Ht, Hmt, Htp.
    change (full_entry !! "model") with (Some (PStr "m1")) in Hm.
    change (full_entry !! "temperature") with (Some (PFloat 0.5)) in Ht.
    change (full_entry !! "max_tokens") with (@None pyval) in Hmt.
    change (full_entry !! "top_p") with (@None pyval) in Htp.
    destruct Hm as [_ Hm]. destruct Ht as [_ Ht].
    injection Hmt as Hmt. injection Htp as Htp.
    repeat split;
      [exact (Hm "m1" eq_refl) | exact (Ht 0.5%float eq_refl)
      | exact (eq_sym Hmt) | exact (eq_sym Htp)].
Defined.

Lemma missing_provider_raises_value_error_witness :
  LLM_init "nope" None None None
  = Raise (ValueError "Provider 'nope' not found in configuration").
Proof.
  apply (missing_provider_raises_value_error "nope" None None None
           {[ "providers" := PDict {[ "test" := PDict test_entry;
                                      "full" := PDict full_entry ]} ]}).
  - reflexivity.
  - vm_compute. reflexivity.
Defined.

End ConfigSpec.

(* ===================================================================== *)
(** * Properties of llm.py: the methods                                   *)
(* ===================================================================== *)

Module ChatSpec.

Import Memory Llm Doubles.

Section Collaborators.
Context {Store : Type} `{Mem0Memory Store} `{OpenAI}.

Lemma consume_S (n : nat) (g : generator) (st : Store) :
  consume (S n) g st
  = match next g st with
    | (Ok (Some y, g'), st', tr) =>
        match consume n g' st' with
        | (ys, r, st'', tr') => (y :: ys, r, st'', tr ++ tr')
        end
    | (Ok (None, g'), st', tr) => ([], Ok g', st', tr)
    | (Raise e, st', tr) => ([], Raise e, st', tr)
    end.
Proof. reflexivity. Qed.

(** The first [next] of a streaming call, step by step. *)
Lemma next_created_stream (self : LLM) (message : string)
    (uid : option string) (store_memory : bool) (st : Store) :
  next (Created self message uid store_memory true) st
  = match memory_manager self with
    | None => (Raise not_initialized, st, [])
    | Some mm =>
        let u := str_or uid (user_id self) in
        let limit := context_limit (Memory.config mm) in
        match mem0_search st message u limit with
        | Raise e => (Raise e, st, [MemSearch message u limit])
        | Ok relevant =>
            let messages := [system_message self relevant;
                             user_message message] in
            match completions_stream (request self messages true) with
            | Raise e =>
                (Raise e, st,
                 [MemSearch message u limit;
                  Create (request self messages true)])
            | Ok response =>
                match stream_loop messages u store_memory response [] st with
                | (r, st', tr) =>
                    (r, st',
                     MemSearch message u limit
                     :: Create (request self messages true) :: tr)
                end
            end
        end
    end.
Proof.
  unfold next, start. destruct (memory_manager self) as [mm |]; [| reflexivity].
  unfold bind, memory_search, client_stream.
  destruct (mem0_search _ _ _ _) as [relevant | e]; [| reflexivity].
  destruct (completions_stream _) as [response | e]; [| reflexivity].
  destruct (stream_loop _ _ _ _ _ _) as [[r st'] tr]. reflexivity.
Qed.

(** The first [next] of a blocking call. *)
Lemma next_created_blocking (self : LLM) (message : string)
    (uid : option string) (store_memory : bool) (st : Store) :
  next (Created self message uid store_memory false) st
  = match memory_manager self with
    | None => (Raise not_initialized, st, [])
    | Some mm =>
        let u := str_or uid (user_id self) in
        let limit := context_limit (Memory.config mm) in
        match mem0_search st message u limit with
        | Raise e => (Raise e, st, [MemSearch message u limit])
        | Ok relevant =>
            let messages := [system_message self relevant;
                             user_message message] in
            let issued := [MemSearch message u limit;
                           Create (request self messages false)] in
            match completions_create (request self messages false) with
            | Raise e => (Raise e, st, issued)
            | Ok reply =>
                if store_memory then
                  let turn := messages ++ [assistant_message reply] in
                  match mem0_add st turn u None with
                  | (Ok _, st') =>
                      (Ok (Some reply, Yielded), st',
                       issued ++ [MemAdd turn u None])
                  | (Raise e, st') =>
                      (Raise e, st', issued ++ [MemAdd turn u None])
                  end
                else (Ok (Some reply, Yielded), st, issued)
            end
        end
    end.
Proof.
  unfold next, start. destruct (memory_manager self) as [mm |]; [| reflexivity].
  unfold bind, memory_search, client_create, memory_add, ret.
  destruct (mem0_search _ _ _ _) as [relevant | e]; [| reflexivity].
  destruct (completions_create _) as [reply | e]; [| reflexivity].
  destruct store_memory; [| reflexivity].
  destruct (mem0_add _ _ _ _) as [[id | e] st']; reflexivity.
Qed.

(** Without a manager the body raises before anything else. *)
Lemma next_created_no_manager (self : LLM) (message : string)
    (uid : option string) (store_memory stream : bool) (st : Store) :
  memory_manager self = None ->
  next (Created self message uid store_memory stream) st
  = (Raise not_initialized, st, []).
Proof. intros E. unfold next, start. rewrite E. reflexivity. Qed.

(** ** The [for] loop over a generator

    Each value taken from a started generator leaves fewer to come, so
    [pending] is fuel enough: more fuel changes nothing. *)

Lemma stream_loop_yield (response : list stream_item) :
  forall (messages : list Message) (u : string) (store_memory : bool)
         (collected : list string) (st : Store) (v : string) (g' : generator)
         (st' : Store) (tr : list event),
  stream_loop messages u store_memory response collected st
  = (Ok (Some v, g'), st', tr) ->
  started g' /\ (pending g' < length response)%nat.
Proof.
  induction response as [| item rest IH];
    intros messages u store_memory collected st v g' st' tr; simpl.
  - destruct store_memory; [| discriminate].
    unfold bind, memory_add, ret.
    destruct (mem0_add _ _ _ _) as [[id | e] st1]; discriminate.
  - destruct item as [[content |] | e]; [| | discriminate].
    + destruct (str_truthy content).
      * intros [= <- <- <- <-]. simpl. split; [exact I | lia].
      * intros Hrun. apply IH in Hrun as [Hs Hp]. split; [exact Hs | lia].
    + intros Hrun. apply IH in Hrun as [Hs Hp]. split; [exact Hs | lia].
Qed.

Lemma next_started_pending (g : generator) (st : Store) (v : string)
    (g' : generator) (st' : Store) (tr : list event) :
  started g ->
  next g st = (Ok (Some v, g'), st', tr) ->
  started g' /\ (pending g' < pending g)%nat.
Proof.
  destruct g; simpl; try contradiction; try discriminate.
  intros _. apply stream_loop_yield.
Qed.

Lemma for_loop_unfold (fuel : nat) (g : generator)
    (body : string -> M Store unit) :
  for_loop fuel g body
  = (let* '(y, g') := next g in
     match y with
     | None => ret tt
     | Some v =>
         let* _ := body v in
         match fuel with
         | O => ret tt
         | S fuel' => for_loop fuel' g' body
         end
     end).
Proof. destruct fuel; reflexivity. Qed.

Lemma for_loop_fuel (body : string -> M Store unit) (fuel : nat) :
  forall (g : generator) (st : Store),
  started g ->
  (pending g <= fuel)%nat ->
  for_loop fuel g body st = for_loop (pending g) g body st.
Proof.
  induction fuel as [fuel IH] using lt_wf_ind. intros g st Hs Hp.
  rewrite (for_loop_unfold fuel), (for_loop_unfold (pending g)).
  unfold bind.
  destruct (next g st) as [[[[[v |] g'] | e] st1] tr1] eqn:E; try reflexivity.
  destruct (next_started_pending _ _ _ _ _ _ Hs E) as [Hs' Hp'].
  destruct (body v st1) as [[[[] | e] st2] tr2]; [| reflexivity].
  destruct fuel as [| fuel']; [lia |].
  destruct (pending g) as [| p]; [lia |].
  rewrite (IH fuel' ltac:(lia) g' st2 Hs' ltac:(lia)).
  rewrite (IH p ltac:(lia) g' st2 Hs' ltac:(lia)).
  reflexivity.
Qed.

(** C4. On an instance constructed without a memory manager,
    [get_user_profile], [search_memories] and (from its first [next])
    [chat_with_memories] raise "Memory manager not initialized"; no
    call reaches the store or the completion client. *)
Theorem memory_methods_need_manager `{Pydantic} `{Host}
    (provider : string) (uid config_path : option string) (llm : LLM) :
  LLM_init provider None uid config_path = Ok llm ->
  forall st : Store,
    get_user_profile llm st
    = (Raise (ValueError "Memory manager not initialized"), st, [])
    /\ (forall query max_results,
          search_memories llm query max_results st
          = (Raise (ValueError "Memory manager not initialized"), st, []))
    /\ (forall message u store_memory stream n,
          consume (S n) (chat_with_memories llm message u store_memory stream)
            st
          = ([], Raise (ValueError "Memory manager not initialized"), st, [])).
Proof.
  intros Hinit st.
  pose proof (ConfigSpec.LLM_init_memory_manager _ _ _ _ _ Hinit) as Hmm.
  split; [| split].
  - unfold get_user_profile. rewrite Hmm. reflexivity.
  - intros. unfold search_memories. rewrite Hmm. reflexivity.
  - intros. rewrite consume_S. unfold chat_with_memories.
    rewrite next_created_no_manager by exact Hmm. reflexivity.
Qed.

(** ** The streaming loop, one [next] at a time *)

Lemma next_streaming_none (messages : list Message) (u : string)
    (store_memory : bool) (rest : list stream_item) (collected : list string) :
  next (Streaming messages u store_memory (Chunk None :: rest) collected)
  = next (Streaming messages u store_memory rest collected).
Proof. reflexivity. Qed.

Lemma next_streaming_empty (messages : list Message) (u : string)
    (store_memory : bool) (content : string) (rest : list stream_item)
    (collected : list string) :
  str_truthy content = false ->
  next (Streaming messages u store_memory (Chunk (Some content) :: rest)
          collected)
  = next (Streaming messages u store_memory rest collected).
Proof. intros E. simpl. rewrite E. reflexivity. Qed.

Lemma next_streaming_fragment (messages : list Message) (u : string)
    (store_memory : bool) (content : string) (rest : list stream_item)
    (collected : list string) (st : Store) :
  str_truthy content = true ->
  next (Streaming messages u store_memory (Chunk (Some content) :: rest)
          collected) st
  = (Ok (Some content,
         Streaming messages u store_memory rest (collected ++ [content])),
     st, []).
Proof. intros E. simpl. rewrite E. reflexivity. Qed.

Lemma next_streaming_end_store (messages : list Message) (u : string)
    (collected : list string) (st : Store) :
  next (Streaming messages u true [] collected) st
  = let turn := messages ++ [assistant_message (String.concat "" collected)] in
    match mem0_add st turn u None with
    | (Ok _, st') => (Ok (None, Finished), st', [MemAdd turn u None])
    | (Raise e, st') => (Raise e, st', [MemAdd turn u None])
    end.
Proof.
  simpl. unfold bind, memory_add, ret.
  destruct (mem0_add _ _ _ _) as [[id | e] st']; reflexivity.
Qed.

Lemma consume_same_next (n : nat) (g1 g2 : generator) (st : Store) :
  next g1 = next g2 -> consume (S n) g1 st = consume (S n) g2 st.
Proof. intros E. rewrite !consume_S, E. reflexivity. Qed.

(** A streaming call, once the stream is open: the search and the
    request come before what the loop issues. *)
Lemma consume_created_stream (n : nat) (self : LLM) (message : string)
    (uid : option string) (store_memory : bool) (st : Store) :
  consume (S n) (Created self message uid store_memory true) st
  = match memory_manager self with
    | None => ([], Raise not_initialized, st, [])
    | Some mm =>
        let u := str_or uid (user_id self) in
        let limit := context_limit (Memory.config mm) in
        match mem0_search st message u limit with
        | Raise e => ([], Raise e, st, [MemSearch message u limit])
        | Ok relevant =>
            let messages := [system_message self relevant;
                             user_message message] in
            let issued := [MemSearch message u limit;
                           Create (request self messages true)] in
            match completions_stream (request self messages true) with
            | Raise e => ([], Raise e, st, issued)
            | Ok response =>
                after issued
                  (consume (S n)
                     (Streaming messages u store_memory response []) st)
            end
        end
    end.
Proof.
  rewrite consume_S, next_created_stream.
  destruct (memory_manager self) as [mm |]; [| reflexivity]. cbv zeta.
  destruct (mem0_search _ _ _ _) as [relevant | e]; [| reflexivity].
  destruct (completions_stream _) as [response | e]; [| reflexivity].
  rewrite consume_S. unfold next, after.
  destruct (stream_loop _ _ _ _ _ _) as [[[[[y |] g'] | e] st'] tr];
    try reflexivity.
  destruct (consume n g' st') as [[[ys r] st''] tr']. reflexivity.
Qed.

Lemma consume_yielded (n : nat) (st : Store) :
  exists g, consume n Yielded st = ([], Ok g, st, []).
Proof. destruct n; simpl; eauto. Qed.

(** ** Streaming without storing *)

Lemma consume_streaming_no_store (response : list stream_item) :
  forall (n : nat) (messages : list Message) (u : string)
         (collected : list string) (st : Store),
  exists ys r,
    consume n (Streaming messages u false response collected) st
    = (ys, r, st, []).
Proof.
  induction response as [| item rest IH]; intros [| n] messages u collected st;
    try (simpl; eauto; fail).
  destruct item as [[content |] | e].
  - destruct (str_truthy content) eqn:E.
    + rewrite consume_S, next_streaming_fragment by exact E.
      destruct (IH n messages u (collected ++ [content]) st)
        as (ys & r & ->).
      simpl. eauto.
    + rewrite (consume_same_next n _ _ st
                 (next_streaming_empty _ _ _ _ _ _ E)).
      apply IH.
  - rewrite (consume_same_next n _ _ st (next_streaming_none _ _ _ _ _)).
    apply IH.
  - rewrite consume_S. simpl. eauto.
Qed.

(** What a call with [store_memory=False] issues: nothing before it
    runs, else the search and, when the search returns, the completion
    request; the store is the one it started with. *)
Lemma consume_no_store (n : nat) (self : LLM) (message : string)
    (uid : option string) (stream : bool) (st : Store)
    (ys : list string) (r : outcome generator) (st' : Store)
    (tr : list event) :
  consume (S n) (Created self message uid false stream) st = (ys, r, st', tr) ->
  st' = st
  /\ match memory_manager self with
     | None => tr = []
     | Some mm =>
         exists tr',
           tr = MemSearch message (str_or uid (user_id self))
                  (context_limit (Memory.config mm)) :: tr'
           /\ (tr' = [] \/ exists req, tr' = [Create req])
     end.
Proof.
  destruct stream.
  - rewrite consume_created_stream.
    destruct (memory_manager self) as [mm |]; [| intros [= <- <- <- <-]; auto].
    cbv zeta. destruct (mem0_search _ _ _ _) as [relevant | e].
    + destruct (completions_stream _) as [response | e].
      * destruct (consume_streaming_no_store response (S n)
                    [system_message self relevant; user_message message]
                    (str_or uid (user_id self)) [] st) as (ys0 & r0 & ->).
        simpl. intros [= <- <- <- <-]. split; [reflexivity |]. eauto.
      * intros [= <- <- <- <-]. split; [reflexivity |]. eauto.
    + intros [= <- <- <- <-]. split; [reflexivity |]. eauto.
  - rewrite consume_S, next_created_blocking.
    destruct (memory_manager self) as [mm |]; [| intros [= <- <- <- <-]; auto].
    cbv zeta. destruct (mem0_search _ _ _ _) as [relevant | e].
    + destruct (completions_create _) as [reply | e].
      * destruct (consume_yielded n st) as (g & ->).
        intros [= <- <- <- <-]. split; [reflexivity |]. eauto.
      * intros [= <- <- <- <-]. split; [reflexivity |]. eauto.
    + intros [= <- <- <- <-]. split; [reflexivity |]. eauto.
Qed.

(** C2. With [store_memory=False], streaming or not, however far the
    caller reads: no [add] is issued and the store is left as it was;
    the turn reads the store with one search. *)
Theorem no_store_memory_never_writes (self : LLM) (message : string)
    (uid : option string) (stream : bool) (n : nat) (st : Store)
    (ys : list string) (r : outcome generator) (st' : Store)
    (tr : list event) :
  consume n (chat_with_memories self message uid false stream) st
  = (ys, r, st', tr) ->
  st' = st
  /\ Forall (fun ev => is_add ev = false) tr
  /\ (forall mm, memory_manager self = Some mm -> n <> O ->
        exists tr',
          tr = MemSearch message (str_or uid (user_id self))
                 (context_limit (Memory.config mm)) :: tr'
          /\ Forall (fun ev => is_store_call ev = false) tr').
Proof.
  unfold chat_with_memories. destruct n as [| n].
  - simpl. intros [= <- <- <- <-]. repeat split; [constructor |].
    intros mm _ Hn. contradiction.
  - intros Hrun. apply consume_no_store in Hrun as [-> Htr].
    split; [reflexivity |].
    destruct (memory_manager self) as [mm |].
    + destruct Htr as (tr' & -> & Htr'). split.
      * constructor; [reflexivity |].
        destruct Htr' as [-> | [req ->]]; repeat constructor.
      * intros mm' [= <-] _. exists tr'. split; [reflexivity |].
        destruct Htr' as [-> | [req ->]]; repeat constructor.
    + subst tr. split; [constructor |]. intros mm' [=].
Qed.

(** ** Streaming and storing *)

(** From an open stream, a caller that takes at most [n] values either
    sees no call at all, or has read an unbroken stream to its end and
    sees the one [add], whose assistant text is everything collected. *)
Lemma consume_streaming_store (response : list stream_item) :
  forall (n : nat) (messages : list Message) (u : string)
         (collected : list string) (st : Store) (ys : list string)
         (r : outcome generator) (st' : Store) (tr : list event),
  consume n (Streaming messages u true response collected) st
  = (ys, r, st', tr) ->
  tr = []
  \/ (unbroken response
      /\ ys = fragments response
      /\ tr = [MemAdd
                 (messages
                    ++ [assistant_message
                          (String.concat "" (collected ++ ys))])
                 u None]).
Proof.
  induction response as [| item rest IH];
    intros [| n] messages u collected st ys r st' tr;
    try (simpl; intros [= <- <- <- <-]; left; reflexivity).
  - rewrite consume_S, next_streaming_end_store. cbv zeta.
    destruct (mem0_add _ _ _ _) as [[id | e] st1];
      intros [= <- <- <- <-]; right; rewrite app_nil_r;
      (split; [intros e' [] | split; reflexivity]).
  - destruct item as [[content |] | e].
    + destruct (str_truthy content) eqn:E.
      * rewrite consume_S, next_streaming_fragment by exact E.
        destruct (consume n _ st) as [[[ys0 r0] st0] tr0] eqn:E0.
        intros [= <- <- <- <-].
        apply IH in E0 as [-> | (Hu & -> & ->)]; [left; reflexivity |].
        right. split; [| split].
        -- intros e' [Hd | Hin]; [discriminate | exact (Hu e' Hin)].
        -- simpl. rewrite E. reflexivity.
        -- simpl. rewrite <- app_assoc. reflexivity.
      * rewrite (consume_same_next n _ _ st
                   (next_streaming_empty _ _ _ _ _ _ E)).
        intros Hrun. apply IH in Hrun as [-> | (Hu & -> & ->)];
          [left; reflexivity |].
        right. split; [| split].
        -- intros e' [Hd | Hin]; [discriminate | exact (Hu e' Hin)].
        -- simpl. rewrite E. reflexivity.
        -- reflexivity.
    + rewrite (consume_same_next n _ _ st (next_streaming_none _ _ _ _ _)).
      intros Hrun. apply IH in Hrun as [-> | (Hu & -> & ->)];
        [left; reflexivity |].
      right. split; [| split]; [| reflexivity | reflexivity].
      intros e' [Hd | Hin]; [discriminate | exact (Hu e' Hin)].
    + rewrite consume_S. simpl. intros [= <- <- <- <-]. left. reflexivity.
Qed.

(** The other direction: a caller that keeps reading an unbroken
    stream gets every fragment, and the turn is written. *)
Lemma consume_streaming_store_complete (response : list stream_item) :
  forall (n : nat) (messages : list Message) (u : string)
         (collected : list string) (st : Store),
  unbroken response ->
  (length (fragments response) < n)%nat ->
  exists r st',
    consume n (Streaming messages u true response collected) st
    = (fragments response, r, st',
       [MemAdd
          (messages
             ++ [assistant_message
                   (String.concat "" (collected ++ fragments response))])
          u None]).
Proof.
  induction response as [| item rest IH];
    intros [| n] messages u collected st Hu Hn; try (simpl in Hn; lia).
  - rewrite consume_S, next_streaming_end_store. cbv zeta. simpl fragments.
    rewrite app_nil_r.
    destruct (mem0_add _ _ _ _) as [[id | e] st1]; eauto.
  - assert (Hrest : unbroken rest) by (intros e' Hin; apply (Hu e'); now right).
    destruct item as [[content |] | e].
    + simpl fragments in Hn |- *. destruct (str_truthy content) eqn:E.
      * rewrite consume_S, next_streaming_fragment by exact E.
        simpl in Hn.
        destruct (IH n messages u (collected ++ [content]) st Hrest
                    ltac:(lia)) as (r & st' & ->).
        rewrite <- app_assoc. simpl. eauto.
      * rewrite (consume_same_next n _ _ st
                   (next_streaming_empty _ _ _ _ _ _ E)).
        apply IH; [exact Hrest | exact Hn].
    + rewrite (consume_same_next n _ _ st (next_streaming_none _ _ _ _ _)).
      apply IH; [exact Hrest | exact Hn].
    + exfalso. apply (Hu e). now left.
Qed.

(** A caller that sees the [add] has asked for a value after the last
    fragment: the write is made by the [next] that ends the iteration. *)
Lemma consume_streaming_store_asked (response : list stream_item) :
  forall (n : nat) (messages : list Message) (u : string)
         (collected : list string) (st : Store) (ys : list string)
         (r : outcome generator) (st' : Store) (tr : list event),
  consume n (Streaming messages u true response collected) st
  = (ys, r, st', tr) ->
  tr <> [] ->
  (length ys < n)%nat.
Proof.
  induction response as [| item rest IH];
    intros [| n] messages u collected st ys r st' tr;
    try (simpl; intros [= <- <- <- <-] Hne; now contradiction Hne).
  - rewrite consume_S, next_streaming_end_store. cbv zeta.
    destruct (mem0_add _ _ _ _) as [[id | e] st1];
      intros [= <- <- <- <-] _; simpl; lia.
  - destruct item as [[content |] | e].
    + destruct (str_truthy content) eqn:E.
      * rewrite consume_S, next_streaming_fragment by exact E.
        destruct (consume n _ st) as [[[ys0 r0] st0] tr0] eqn:E0.
        intros [= <- <- <- <-] Hne.
        apply IH in E0; [simpl; lia | exact Hne].
      * rewrite (consume_same_next n _ _ st
                   (next_streaming_empty _ _ _ _ _ _ E)).
        intros Hrun Hne. exact (IH _ _ _ _ _ _ _ _ _ Hrun Hne).
    + rewrite (consume_same_next n _ _ st (next_streaming_none _ _ _ _ _)).
      intros Hrun Hne. exact (IH _ _ _ _ _ _ _ _ _ Hrun Hne).
    + rewrite consume_S. simpl. intros [= <- <- <- <-] Hne.
      now contradiction Hne.
Qed.

(** C1. In a streaming call that stores the turn, an [add] is issued
    only once the caller has read the whole stream and asked for more:
    the values it received are all the fragments of the stream; the
    messages written are the system message, the user message and an
    assistant message whose content is the concatenation, in order, of
    the values received; and the [add] is the last call of the turn and
    the only write.  The other way round, a caller that reads past the
    last fragment of an unbroken stream has received every fragment and
    the turn has been written with exactly that content. *)
Theorem stream_write_only_after_exhaustion (self : LLM) (message : string)
    (uid : option string) (n : nat) (st : Store) (ys : list string)
    (r : outcome generator) (st' : Store) (tr : list event) :
  consume n (chat_with_memories self message uid true true) st
  = (ys, r, st', tr) ->
  (forall (msgs : list Message) (u : string) (md : option pyval),
     In (MemAdd msgs u md) tr ->
     exists mm relevant response,
       let v := str_or uid (user_id self) in
       let limit := context_limit (Memory.config mm) in
       let messages :=
         [ {| role := "system";
              content := system_prompt (Llm.config self) +:+ nl +:+ nl
                         +:+ "Relevant Memories:" +:+ nl
                         +:+ String.concat nl (map memory_line relevant) |};
           {| role := "user"; content := message |} ] in
       memory_manager self = Some mm
       /\ mem0_search st message v limit = Ok relevant
       /\ completions_stream (request self messages true) = Ok response
       /\ unbroken response
       /\ ys = fragments response
       /\ (length ys < n)%nat
       /\ msgs = messages ++ [ {| role := "assistant";
                                  content := String.concat "" ys |} ]
       /\ u = v
       /\ md = None
       /\ tr = [MemSearch message v limit;
                Create (request self messages true);
                MemAdd msgs u md])
  /\ (forall (mm : MemoryManager) (relevant : list Entry)
             (response : list stream_item),
        let v := str_or uid (user_id self) in
        let limit := context_limit (Memory.config mm) in
        let messages :=
          [ {| role := "system";
               content := system_prompt (Llm.config self) +:+ nl +:+ nl
                          +:+ "Relevant Memories:" +:+ nl
                          +:+ String.concat nl (map memory_line relevant) |};
            {| role := "user"; content := message |} ] in
        memory_manager self = Some mm ->
        mem0_search st message v limit = Ok relevant ->
        completions_stream (request self messages true) = Ok response ->
        unbroken response ->
        (length (fragments response) < n)%nat ->
        ys = fragments response
        /\ tr = [MemSearch message v limit;
                 Create (request self messages true);
                 MemAdd (messages
                           ++ [ {| role := "assistant";
                                   content := String.concat "" ys |} ])
                   v None]).
Proof.
  intros Hrun. split.
  - revert Hrun. unfold chat_with_memories. destruct n as [| n].
    + simpl. intros [= <- <- <- <-] msgs u md [].
    + rewrite consume_created_stream.
      destruct (memory_manager self) as [mm |];
        [| intros [= <- <- <- <-] msgs u md []].
      cbv zeta. destruct (mem0_search _ _ _ _) as [relevant | e] eqn:Es.
      * destruct (completions_stream _) as [response | e] eqn:Ec.
        -- destruct (consume (S n) _ st) as [[[ys0 r0] st0] tr0] eqn:E0.
           simpl. intros [= <- <- <- <-] msgs u md Hin.
           pose proof (consume_streaming_store_asked _ _ _ _ _ _ _ _ _ _ E0)
             as Hasked.
           apply consume_streaming_store in E0 as [-> | (Hu & -> & ->)].
           ++ destruct Hin as [Hin | [Hin | []]]; discriminate.
           ++ destruct Hin as [Hin | [Hin | [Hin | []]]]; try discriminate.
              injection Hin as <- <- <-.
              exists mm, relevant, response. cbv zeta.
              split; [reflexivity |]. split; [exact Es |].
              split; [exact Ec |]. split; [exact Hu |].
              split; [reflexivity |].
              split; [apply Hasked; discriminate |].
              repeat (split; [reflexivity |]). reflexivity.
        -- intros [= <- <- <- <-] msgs u md [Hin | [Hin | []]]; discriminate.
      * intros [= <- <- <- <-] msgs u md [Hin | []]. discriminate.
  - intros mm relevant response v limit messages Hmm Hs Hc Hu Hn.
    destruct n as [| n]; [lia |].
    revert Hrun. unfold chat_with_memories.
    rewrite consume_created_stream, Hmm. cbv zeta.
    fold v limit. rewrite Hs.
    change [system_message self relevant; user_message message]
      with messages.
    rewrite Hc.
    destruct (consume_streaming_store_complete response (S n) messages v []
                st Hu Hn) as (r0 & st0 & ->).
    simpl. intros [= <- <- <- <-]. split; reflexivity.
Qed.

(** The write does happen: when the store answers the search, the
    client opens an unbroken stream and the caller reads past its last
    fragment, the turn is written. *)
Lemma stream_write_when_read_to_end (self : LLM) (message : string)
    (uid : option string) (n : nat) (st : Store) (mm : MemoryManager)
    (relevant : list Entry) (response : list stream_item) :
  let v := str_or uid (user_id self) in
  let limit := context_limit (Memory.config mm) in
  let messages := [system_message self relevant; user_message message] in
  memory_manager self = Some mm ->
  mem0_search st message v limit = Ok relevant ->
  completions_stream (request self messages true) = Ok response ->
  unbroken response ->
  (length (fragments response) < n)%nat ->
  exists r st',
    consume n (chat_with_memories self message uid true true) st
    = (fragments response, r, st',
       [MemSearch message v limit;
        Create (request self messages true);
        MemAdd (messages
                  ++ [assistant_message
                        (String.concat "" (fragments response))])
          v None]).
Proof.
  intros v limit messages Hmm Hs Hc Hu Hn.
  destruct n as [| n]; [lia |].
  unfold chat_with_memories. rewrite consume_created_stream, Hmm. cbv zeta.
  fold v limit. rewrite Hs. fold messages. rewrite Hc.
  destruct (consume_streaming_store_complete response (S n) messages v []
              st Hu Hn) as (r & st' & ->).
  simpl. eauto.
Qed.

Lemma search_record_relevance (m : Entry) :
  search_record m !! "relevance_score"
  = Some (PFloat (score_or (score m) 0%float)).
Proof. reflexivity. Qed.

Lemma format_2f_zero : format_2f 0%float = "0.00".
Proof. reflexivity. Qed.

(** C9. A raw result without a score gets 0.0: every record of
    [search_memories] has the key [relevance_score], holding the score
    of the raw result or 0.0 when it has none; and [chat_with_memories]
    sends a system prompt in which such a memory is the line
    "- <memory> (Relevance: 0.00)". *)
Theorem missing_score_defaults_to_zero :
  (forall (mm : MemoryManager) (uid query : string) (max_results : Z)
          (st : Store) (results : list Entry),
     mem0_search st query uid
       (Z.min max_results (search_limit (Memory.config mm))) = Ok results ->
     exists records,
       fst (fst (Memory.search_memories mm uid query max_results st))
       = Ok records
       /\ Forall2
            (fun m record =>
               record !! "relevance_score"
               = Some (PFloat (match score m with
                               | Some x => x
                               | None => 0%float
                               end)))
            results records)
  /\ (forall (self : LLM) (mm : MemoryManager) (message : string)
             (uid : option string) (store_memory stream : bool) (st : Store)
             (relevant : list Entry),
        memory_manager self = Some mm ->
        mem0_search st message (str_or uid (user_id self))
          (context_limit (Memory.config mm)) = Ok relevant ->
        (exists tr,
           snd (next (chat_with_memories self message uid store_memory stream)
                  st)
           = MemSearch message (str_or uid (user_id self))
               (context_limit (Memory.config mm))
             :: Create (request self
                          [system_message self relevant; user_message message]
                          stream)
             :: tr)
        /\ content (system_message self relevant)
           = system_prompt (Llm.config self) +:+ nl +:+ nl
             +:+ "Relevant Memories:" +:+ nl
             +:+ String.concat nl (map memory_line relevant)
        /\ (forall entry, In entry relevant -> score entry = None ->
              memory_line entry
              = "- " +:+ memory entry +:+ " (Relevance: 0.00)")).
Proof.
  split.
  - intros mm uid query max_results st results Hs.
    rewrite MemorySpec.search_memories_run, Hs. exists (map search_record results). split; [reflexivity |].
    clear Hs. induction results as [| m results IH]; constructor.
    + rewrite search_record_relevance. destruct (score m); reflexivity.
    + exact IH.
  - intros self mm message uid store_memory stream st relevant Hmm Hs.
    split; [| split].
    + unfold chat_with_memories. destruct stream.
      * rewrite next_created_stream, Hmm. cbv zeta. rewrite Hs.
        destruct (completions_stream _); [| eexists; reflexivity].
        destruct (stream_loop _ _ _ _ _ _) as [[r st'] tr].
        eexists. reflexivity.
      * rewrite next_created_blocking, Hmm. cbv zeta. rewrite Hs.
        destruct (completions_create _); [| eexists; reflexivity].
        destruct store_memory; [| eexists; reflexivity].
        destruct (mem0_add _ _ _ _) as [[id | e] st'];
          eexists; reflexivity.
    + reflexivity.
    + intros entry _ Hnone. unfold memory_line. rewrite Hnone. reflexivity.
Qed.

End Collaborators.

Lemma memory_methods_need_manager_witness :
  get_user_profile
    {| provider := "full"; memory_manager := None; user_id := "u1";
       config := {| api_key := "sk-1"; api_base := "https://api.example/v1";
                    model := "m1"; temperature := 0.5;
                    max_tokens := 2000; top_p := 1;
                    system_prompt := default_system_prompt |} |} store0
  = (Raise (ValueError "Memory manager not initialized"), store0, []).
Proof.
  exact (proj1 (memory_methods_need_manager "full" (Some "u1") None _
                  eq_refl store0)).
Defined.


(** One remembered fact, a stream of "Hel" and "lo", and a caller
    that asks three times: the turn written ends with the assistant
    message "Hello". *)
Lemma stream_write_only_after_exhaustion_witness :
  let self := llm_with_memory in
  let run := consume 3 (chat_with_memories self "hi" None true true) store0 in
  let turn :=
    [ {| role := "system";
         content := system_prompt (Llm.config self) +:+ nl +:+ nl
                    +:+ "Relevant Memories:" +:+ nl
                    +:+ "- likes coffee (Relevance: 0.00)" |};
      {| role := "user"; content := "hi" |};
      {| role := "assistant"; content := "Hello" |} ] in
  fst (fst (fst run)) = ["Hel"; "lo"]
  /\ In (MemAdd turn "demo_user" None) (snd run)
  /\ exists mm relevant response,
       memory_manager self = Some mm
       /\ completions_stream
            (request self
               [ {| role := "system";
                    content := system_prompt (Llm.config self) +:+ nl +:+ nl
                               +:+ "Relevant Memories:" +:+ nl
                               +:+ String.concat nl
                                     (map memory_line relevant) |};
                 {| role := "user"; content := "hi" |} ] true)
          = Ok response
       /\ ["Hel"; "lo"] = fragments response
       /\ (2 < 3)%nat
       /\ snd run
          = [MemSearch "hi" "demo_user" (context_limit (Memory.config mm));
             Create
               (request self
                  [ {| role := "system";
                       content := system_prompt (Llm.config self) +:+ nl +:+ nl
                                  +:+ "Relevant Memories:" +:+ nl
                                  +:+ String.concat nl
                                        (map memory_line relevant) |};
                    {| role := "user"; content := "hi" |} ] true);
             MemAdd turn "demo_user" None].
Proof.
  intros self run turn.
  assert (Hin : In (MemAdd turn "demo_user" None) (snd run))
    by (right; right; left; reflexivity).
  split; [reflexivity |]. split; [exact Hin |].
  assert (Hrun : consume 3 (chat_with_memories self "hi" None true true)
                    store0
                  = (["Hel"; "lo"], snd (fst (fst run)), snd (fst run),
                     snd run))
    by reflexivity.
  destruct (proj1 (stream_write_only_after_exhaustion self "hi" None 3 store0
                     ["Hel"; "lo"] (snd (fst (fst run))) (snd (fst run))
                     (snd run) Hrun)
              turn "demo_user" None Hin)
    as (mm & relevant & response & Hmm & _ & Hc & _ & Hys & Hlen & _ & _ & _
        & Htr).
  exists mm, relevant, response.
  split; [exact Hmm |]. split; [exact Hc |]. split; [exact Hys |].
  split; [exact Hlen |]. exact Htr.
Defined.

Lemma no_store_memory_never_writes_witness :
  let run :=
    consume 5 (chat_with_memories llm_with_memory "hi" None false true)
      store0 in
  snd (fst run) = store0
  /\ Forall (fun ev => is_add ev = false) (snd run)
  /\ (forall mm, memory_manager llm_with_memory = Some mm -> 5%nat <> O ->
        exists tr',
          snd run
          = MemSearch "hi" (str_or None (user_id llm_with_memory))
              (context_limit (Memory.config mm)) :: tr'
          /\ Forall (fun ev => is_store_call ev = false) tr').
Proof.
  intros run.
  exact (no_store_memory_never_writes llm_with_memory "hi" None true 5 store0
           (fst (fst (fst run))) (snd (fst (fst run))) (snd (fst run))
           (snd run) eq_refl).
Defined.

Lemma missing_score_defaults_to_zero_witness :
  exists records,
    fst (fst (Memory.search_memories manager "demo_user" "coffee" 5 store0))
    = Ok records
    /\ Forall2
         (fun m record =>
            record !! "relevance_score"
            = Some (PFloat (match score m with
                            | Some x => x
                            | None => 0%float
                            end)))
         [row_entry ("demo_user", "likes coffee")] records.
Proof.
  exact (proj1 missing_score_defaults_to_zero manager "demo_user" "coffee" 5
           store0 [row_entry ("demo_user", "likes coffee")] eq_refl).
Defined.

End ChatSpec.

(* ===================================================================== *)
(** * Properties of main.py                                               *)
(* ===================================================================== *)

Module ShellSpec.

Import Memory Llm Main Doubles.

(** ** Strings *)

Lemma rstrip_no_trailing_space (s : string) :
  ends_with_space (rstrip s) = false.
Proof.
  induction s as [| c s IH]; [reflexivity |].
  simpl. destruct (rstrip s) as [| c' t] eqn:E.
  - destruct (is_space c) eqn:Ec; simpl; [reflexivity | exact Ec].
  - exact IH.
Qed.

Lemma strip_no_trailing_space (s : string) :
  ends_with_space (strip s) = false.
Proof. apply rstrip_no_trailing_space. Qed.

Lemma split_space_once_shape (s : string) :
  (exists a, split_space_once s = [a])
  \/ (exists a b, split_space_once s = [a; b]).
Proof.
  induction s as [| c s IH]; simpl; [eauto |].
  case_bool_decide; [eauto |].
  destruct IH as [[a ->] | (a & b & ->)]; eauto.
Qed.

(** The two parts of a split are the text around the first space. *)
Lemma split_space_once_join (s a b : string) :
  split_space_once s = [a; b] -> s = a +:+ " " +:+ b.
Proof.
  revert a. induction s as [| c s IH]; intros a; simpl; [discriminate |].
  case_bool_decide as Hc.
  - intros [= <- <-]. subst c. reflexivity.
  - destruct (split_space_once s) as [| h [| h' t]] eqn:E; try discriminate.
    intros [= <- <- ->]. rewrite (IH h eq_refl) at 1. reflexivity.
Qed.

Lemma append_space_ends_with_space (a : string) :
  ends_with_space (a +:+ " ") = true.
Proof.
  induction a as [| c a IH]; [reflexivity |].
  simpl. destruct (a +:+ " ") eqn:E; [| exact IH].
  destruct a; discriminate.
Qed.

Lemma cons_append_space_ends_with_space (c : ascii) (a : string) :
  ends_with_space (String c (a +:+ " ")) = true.
Proof.
  destruct a as [| c' a]; [reflexivity |].
  exact (append_space_ends_with_space (String c' a)).
Qed.

Lemma split_no_space (s : string) :
  no_space (lower s) = true -> split_space_once s = [s].
Proof.
  induction s as [| c s IH]; simpl; [reflexivity |].
  intros Hns. apply andb_true_iff in Hns as [Hc Hs].
  assert (Hsp : bool_decide (c = " "%char) = false).
  { destruct (bool_decide (c = " "%char)) eqn:E; [| reflexivity].
    apply bool_decide_eq_true_1 in E. subst c. discriminate. }
  rewrite Hsp, (IH Hs). reflexivity.
Qed.

Section Shell.
Context {Store : Type} `{Mem0Memory Store} `{OpenAI} `{Builtins}.

(** The command token alone, in any letter case, selects the help
    branch. *)
Lemma dispatch_bare_search (tok : string) :
  lower tok = "search" -> dispatch (String "/" tok) = Help.
Proof.
  intros Hl. unfold dispatch. simpl.
  rewrite split_no_space by (rewrite Hl; reflexivity).
  simpl. rewrite Hl. reflexivity.
Qed.

(** The search branch is selected by [search], a space, and a query
    that is not empty. *)
Lemma dispatch_search_inv (line query : string) :
  dispatch (strip line) = Search query ->
  query <> ""
  /\ exists tok, strip line = String "/" (tok +:+ " " +:+ query)
                 /\ lower tok = "search".
Proof.
  unfold dispatch.
  pose proof (strip_no_trailing_space line) as Hend.
  destruct (strip line) as [| c rest]; [discriminate |].
  simpl. case_bool_decide as Hc; [| discriminate]. subst c.
  destruct (split_space_once_shape rest) as [[a Ea] | (a & b & Eab)].
  - rewrite Ea. simpl.
    repeat (case_bool_decide; try discriminate).
  - rewrite Eab. simpl.
    case_bool_decide; [discriminate |].
    case_bool_decide as Hs.
    + intros [= <-]. apply split_space_once_join in Eab. subst rest.
      split.
      * intros ->. change (" " +:+ "") with " " in Hend.
        rewrite cons_append_space_ends_with_space in Hend. discriminate.
      * exists a. split; [reflexivity | exact Hs].
    + repeat (case_bool_decide; try discriminate).
Qed.

(** C10. An input line that is the token [/search] alone (in any
    letter case, with any surrounding whitespace) gets the help
    message, which is the heading "Unknown command. Available
    commands:" and the four lines that list [/search <query>],
    [/profile], [/clear] and [/exit], each written with its newline
    after the prompt; nothing else is written and no call reaches the
    store.  The search branch is selected only by a line in which a
    non-empty query follows the token. *)
Theorem bare_search_prints_help :
  (forall (llm : LLM) (line tok : string) (st : Store),
     strip line = String "/" tok ->
     lower tok = "search" ->
     let lf := String "010"%char "" in
     dispatch (strip line) = Help
     /\ turn llm (Ok line) st
        = (Ok Continue, st,
           [Print (lf +:+ "You: ");
            Print ("Unknown command. Available commands:" +:+ lf);
            Print ("  /search <query> - Search memories" +:+ lf);
            Print ("  /profile - View user profile" +:+ lf);
            Print ("  /clear - Clear chat history" +:+ lf);
            Print ("  /exit - Exit the chat" +:+ lf)])
     /\ Forall (fun ev => is_store_call ev = false)
          (snd (turn llm (Ok line) st)))
  /\ (forall (line query : string),
        dispatch (strip line) = Search query ->
        query <> ""
        /\ exists tok, strip line = String "/" (tok +:+ " " +:+ query)
                       /\ lower tok = "search").
Proof.
  split; [| exact dispatch_search_inv].
  intros llm line tok st Hstrip Hlower lf.
  assert (Hd : dispatch (strip line) = Help)
    by (rewrite Hstrip; apply dispatch_bare_search; exact Hlower).
  assert (Hturn : turn llm (Ok line) st
                  = (Ok Continue, st,
                     [Print (lf +:+ "You: ");
                      Print ("Unknown command. Available commands:" +:+ lf);
                      Print ("  /search <query> - Search memories" +:+ lf);
                      Print ("  /profile - View user profile" +:+ lf);
                      Print ("  /clear - Clear chat history" +:+ lf);
                      Print ("  /exit - Exit the chat" +:+ lf)])).
  { unfold turn, turn_body. rewrite Hd. reflexivity. }
  split; [exact Hd |]. split; [exact Hturn |].
  rewrite Hturn. simpl. repeat constructor.
Qed.

End Shell.

(** The line "  /SEARCH  ": what the terminal shows is the prompt, the
    heading and the four command lines. *)
Lemma bare_search_prints_help_witness :
  dispatch (strip "  /SEARCH  ") = Help
  /\ turn llm_with_memory (Ok "  /SEARCH  ") store0
     = (Ok Continue, store0,
        [Print "
You: ";
         Print "Unknown command. Available commands:
";
         Print "  /search <query> - Search memories
";
         Print "  /profile - View user profile
";
         Print "  /clear - Clear chat history
";
         Print "  /exit - Exit the chat
"])
  /\ Forall (fun ev => is_store_call ev = false)
       (snd (turn llm_with_memory (Ok "  /SEARCH  ") store0)).
Proof.
  exact (proj1 bare_search_prints_help llm_with_memory "  /SEARCH  " "SEARCH"
           store0 eq_refl eq_refl).
Defined.

End ShellSpec.

(* ===================================================================== *)
(** * More of memory.py                                                   *)
(* ===================================================================== *)

Module MemoryMore.

Import Memory Doubles MoreDoubles.

Section Store.
Context {Store : Type} `{Mem0Memory Store} `{Builtins}.

(** X1. [add_conversation] issues exactly one [add], for the given user
    and with the messages as given; the metadata it passes is never
    [None]: a missing or empty metadata becomes the empty dict, any
    other is passed on.  The result is the store's, identifier or
    error. *)
Theorem add_conversation_single_add (uid : string) (messages : list Message)
    (md : option pyval) (st : Store) :
  exists passed,
    add_conversation uid messages md st
    = (fst (mem0_add st messages uid (Some passed)),
       snd (mem0_add st messages uid (Some passed)),
       [MemAdd messages uid (Some passed)])
    /\ (md = None \/ md = Some (PDict ∅) -> passed = PDict ∅)
    /\ (forall v, md = Some v -> truthy v = true -> passed = v).
Proof.
  exists (metadata_or_empty md). split; [| split].
  - unfold add_conversation, bind, memory_add, ret.
    destruct (mem0_add _ _ _ _) as [[id | e] st']; reflexivity.
  - intros [-> | ->]; reflexivity.
  - intros v -> Hv. simpl. rewrite Hv. reflexivity.
Qed.

(** X2. The three read operations do not catch: when the store's
    search raises, the operation raises the same exception, after that
    one search and with the store as it was. *)
Theorem read_operations_propagate_search_error (self : MemoryManager)
    (uid query : string) (max_results size : Z)
    (topics : option (list string)) (as_json : bool) (st : Store) (e : exn) :
  (mem0_search st "summary" uid (search_limit (config self)) = Raise e ->
   get_user_profile self uid as_json st
   = (Raise e, st, [MemSearch "summary" uid (search_limit (config self))]))
  /\ (mem0_search st "summary" uid (context_limit (config self)) = Raise e ->
      get_context self uid size topics st
      = (Raise e, st,
         [MemSearch "summary" uid (context_limit (config self))]))
  /\ (mem0_search st query uid
        (Z.min max_results (search_limit (config self))) = Raise e ->
      search_memories self uid query max_results st
      = (Raise e, st,
         [MemSearch query uid
            (Z.min max_results (search_limit (config self)))])).
Proof.
  split; [| split]; intros E.
  - unfold get_user_profile. rewrite MemorySpec.search_then_ret, E.
    reflexivity.
  - unfold get_context. rewrite MemorySpec.search_then_ret, E. reflexivity.
  - rewrite MemorySpec.search_memories_run, E. reflexivity.
Qed.

Lemma profile_record_keys (m : Entry) :
  dom (profile_record m) = {[ "content"; "metadata"; "created_at" ]}.
Proof.
  unfold profile_record. rewrite !dom_insert_L, dom_singleton_L. set_solver.
Qed.

Lemma search_record_keys (m : Entry) :
  dom (search_record m)
  = {[ "content"; "metadata"; "created_at"; "relevance_score" ]}.
Proof.
  unfold search_record. rewrite !dom_insert_L, dom_singleton_L. set_solver.
Qed.

(** X3. [get_user_profile] asks for "summary" with the full
    [search_limit], whatever [as_json] is, and returns one record per
    result, in order; a record has the keys [content], [metadata] and
    [created_at] and no others, so no relevance score. *)
Theorem get_user_profile_records (self : MemoryManager) (uid : string)
    (as_json : bool) (st : Store) (results : list Entry) :
  mem0_search st "summary" uid (search_limit (config self)) = Ok results ->
  exists profile,
    get_user_profile self uid as_json st
    = (Ok profile, st,
       [MemSearch "summary" uid (search_limit (config self))])
    /\ Forall2
         (fun m record =>
            dom record = {[ "content"; "metadata"; "created_at" ]}
            /\ record !! "content" = Some (PStr (memory m))
            /\ record !! "relevance_score" = None)
         results (recent_memories profile).
Proof.
  intros E. eexists. split.
  - unfold get_user_profile. rewrite MemorySpec.search_then_ret, E.
    reflexivity.
  - simpl. clear E. induction results as [| m results IH]; constructor.
    + split; [apply profile_record_keys | split; reflexivity].
    + exact IH.
Qed.

(** X4. [search_memories] returns one record per result, in order, and
    none for an empty result; a record has exactly the four keys
    [content], [metadata], [created_at] and [relevance_score], with the
    empty dict for a missing metadata and [None] for a missing
    timestamp. *)
Theorem search_memories_records (self : MemoryManager) (uid query : string)
    (max_results : Z) (st : Store) (results : list Entry) :
  mem0_search st query uid
    (Z.min max_results (search_limit (config self))) = Ok results ->
  exists records,
    fst (fst (search_memories self uid query max_results st)) = Ok records
    /\ (results = [] -> records = [])
    /\ Forall2
         (fun m record =>
            dom record
            = {[ "content"; "metadata"; "created_at"; "relevance_score" ]}
            /\ record !! "content" = Some (PStr (memory m))
            /\ record !! "metadata"
               = Some (match metadata m with
                       | Some v => v
                       | None => PDict ∅
                       end)
            /\ record !! "created_at"
               = Some (match timestamp m with
                       | Some v => v
                       | None => PNone
                       end))
         results records.
Proof.
  intros E. exists (map search_record results).
  rewrite MemorySpec.search_memories_run, E. split; [reflexivity |].
  split; [intros ->; reflexivity |].
  clear E. induction results as [| m results IH]; constructor.
  - split; [apply search_record_keys |].
    repeat split; destruct (metadata m), (timestamp m); reflexivity.
  - exact IH.
Qed.

End Store.

Lemma add_conversation_single_add_witness :
  exists passed,
    add_conversation "demo_user" [{| role := "user"; content := "hi" |}]
      (Some (PDict ∅)) store0
    = (fst (mem0_add store0 [{| role := "user"; content := "hi" |}]
              "demo_user" (Some passed)),
       snd (mem0_add store0 [{| role := "user"; content := "hi" |}]
              "demo_user" (Some passed)),
       [MemAdd [{| role := "user"; content := "hi" |}] "demo_user"
          (Some passed)])
    /\ passed = PDict ∅.
Proof.
  destruct (add_conversation_single_add "demo_user"
              [{| role := "user"; content := "hi" |}] (Some (PDict ∅)) store0)
    as (passed & Hrun & Hempty & _).
  exists passed. split; [exact Hrun | apply Hempty; right; reflexivity].
Defined.

Lemma read_operations_propagate_search_error_witness :
  @get_user_profile FakeStore down_mem0 manager "demo_user" true store0
  = (Raise (OtherException "search failed"), store0,
     [MemSearch "summary" "demo_user" 5]).
Proof.
  exact (proj1 (@read_operations_propagate_search_error FakeStore down_mem0
                  fake_builtins manager "demo_user" "q" 5 500 None true store0
                  (OtherException "search failed")) eq_refl).
Defined.

Lemma get_user_profile_records_witness :
  exists profile,
    get_user_profile manager "demo_user" true store0
    = (Ok profile, store0, [MemSearch "summary" "demo_user" 5])
    /\ Forall2
         (fun m record =>
            dom record = {[ "content"; "metadata"; "created_at" ]}
            /\ record !! "content" = Some (PStr (memory m))
            /\ record !! "relevance_score" = None)
         [row_entry ("demo_user", "likes coffee")] (recent_memories profile).
Proof.
  exact (get_user_profile_records manager "demo_user" true store0
           [row_entry ("demo_user", "likes coffee")] eq_refl).
Defined.

Lemma search_memories_records_witness :
  exists records,
    fst (fst (search_memories manager "demo_user" "coffee" 5 store0))
    = Ok records
    /\ ([row_entry ("demo_user", "likes coffee")] = [] -> records = [])
    /\ Forall2
         (fun m record =>
            dom record
            = {[ "content"; "metadata"; "created_at"; "relevance_score" ]}
            /\ record !! "content" = Some (PStr (memory m))
            /\ record !! "metadata"
               = Some (match metadata m with
                       | Some v => v
                       | None => PDict ∅
                       end)
            /\ record !! "created_at"
               = Some (match timestamp m with
                       | Some v => v
                       | None => PNone
                       end))
         [row_entry ("demo_user", "likes coffee")] records.
Proof.
  exact (search_memories_records manager "demo_user" "coffee" 5 store0
           [row_entry ("demo_user", "likes coffee")] eq_refl).
Defined.

End MemoryMore.

(* ===================================================================== *)
(** * More of the constructors                                            *)
(* ===================================================================== *)

Module ConfigMore.

Import Memory Llm MemoryInit Doubles MoreDoubles.

#[global] Instance plain_pydantic_dict_laws :
  @PydanticDictLaws plain_pydantic_dict.
Proof. split; reflexivity. Qed.

Section Loading.
Context `{Pydantic} `{PydanticDict} `{Host} {Store : Type} `{Mem0Factory Store}.

(** X5. Both constructors look for the file first: when the path (the
    one given, or [config.yaml] beside the code) does not exist, they
    raise [FileNotFoundError] naming it, whatever the provider. *)
Theorem constructors_need_the_file (provider : string)
    (mm : option MemoryManager) (uid config_path : option string) :
  read_yaml (path_or_default config_path) = None ->
  LLM_init provider mm uid config_path
  = Raise (FileNotFoundError ("Configuration file not found: "
                              +:+ path_or_default config_path))
  /\ MemoryManager_init (Store := Store) config_path
     = Raise (FileNotFoundError ("Configuration file not found: "
                                 +:+ path_or_default config_path)).
Proof.
  intros E. unfold LLM_init, MemoryManager_init. rewrite E. split; reflexivity.
Qed.

(** X6. No silent default: an instance is constructed only from a
    configuration whose [providers] mapping has an entry for the
    requested key, and its profile is the one read from that entry; it
    keeps the provider key and the memory manager it was given. *)
Theorem LLM_init_profile_from_own_entry (provider : string)
    (mm : option MemoryManager) (uid config_path : option string) (llm : LLM) :
  LLM_init provider mm uid config_path = Ok llm ->
  Llm.provider llm = provider
  /\ memory_manager llm = mm
  /\ exists cfg ps kwargs,
       read_yaml (path_or_default config_path) = Some (Ok (PDict cfg))
       /\ cfg !! "providers" = Some (PDict ps)
       /\ ps !! provider = Some (PDict kwargs)
       /\ LLMConfig_init kwargs = Ok (Llm.config llm).
Proof.
  unfold LLM_init.
  destruct (read_yaml (path_or_default config_path))
    as [[[| | | | | | cfg] | e] |]; try discriminate.
  intros E. apply ConfigSpec.and_then_Ok in E as (found & Hin & E).
  destruct found; [| discriminate]. simpl in E.
  apply ConfigSpec.and_then_Ok in E as (pc & Hget & E).
  destruct (cfg !! "providers") as [[| | | | | | ps] |] eqn:Ep;
    try discriminate.
  unfold py_getitem in Hget.
  destruct (ps !! provider) as [v |] eqn:Ev; [| discriminate].
  injection Hget as ->.
  destruct pc as [| | | | | | kwargs]; try discriminate.
  apply ConfigSpec.and_then_Ok in E as (c & Hc & E).
  apply ConfigSpec.and_then_Ok in E as (built & _ & E).
  injection E as <-. simpl.
  split; [reflexivity |]. split; [reflexivity |].
  exists cfg, ps, kwargs. auto.
Qed.

Lemma LLM_init_user_id_eq (provider : string) (mm : option MemoryManager)
    (uid config_path : option string) (llm : LLM) :
  LLM_init provider mm uid config_path = Ok llm ->
  user_id llm = str_or uid uuid4.
Proof.
  unfold LLM_init.
  destruct (read_yaml (path_or_default config_path))
    as [[[| | | | | | cfg] | e] |]; try discriminate.
  intros E. apply ConfigSpec.and_then_Ok in E as (found & _ & E).
  destruct (negb found); [discriminate |].
  apply ConfigSpec.and_then_Ok in E as (pc & _ & E).
  destruct pc; try discriminate.
  apply ConfigSpec.and_then_Ok in E as (c & _ & E).
  apply ConfigSpec.and_then_Ok in E as (built & _ & E).
  injection E as <-. reflexivity.
Qed.

(** X7. The user of an instance is the identifier given, unless that
    is missing or the empty string: then it is the generated token. *)
Theorem LLM_init_user_id (provider : string) (mm : option MemoryManager)
    (uid config_path : option string) (llm : LLM) :
  LLM_init provider mm uid config_path = Ok llm ->
  (forall u, uid = Some u -> u <> "" -> user_id llm = u)
  /\ (uid = None \/ uid = Some "" -> user_id llm = uuid4).
Proof.
  intros E. rewrite (LLM_init_user_id_eq _ _ _ _ _ E). split.
  - intros u -> Hne. destruct u; [contradiction | reflexivity].
  - intros [-> | ->]; reflexivity.
Qed.

Lemma field_outcome {A} (validate : pyval -> option A)
    (kwargs : gmap string pyval) (key : string) (default : option A) :
  (exists a, field validate kwargs key default = Ok a)
  \/ field validate kwargs key default = Raise ValidationError.
Proof.
  unfold field. destruct (kwargs !! key) as [v |].
  - destruct (validate v); eauto.
  - destruct default; eauto.
Qed.

Lemma LLMConfig_init_outcome (kwargs : gmap string pyval) :
  (exists c, LLMConfig_init kwargs = Ok c
             /\ is_Some (kwargs !! "api_key")
             /\ is_Some (kwargs !! "api_base")
             /\ is_Some (kwargs !! "model"))
  \/ LLMConfig_init kwargs = Raise ValidationError.
Proof.
  unfold LLMConfig_init.
  destruct (kwargs !! "api_key") as [vk |] eqn:Ek;
    [| right; rewrite (ConfigSpec.field_required_missing _ _ _ Ek); reflexivity].
  destruct (field_outcome as_str kwargs "api_key" None) as [[k ->] | ->];
    [| right; reflexivity]; simpl.
  destruct (kwargs !! "api_base") as [vb |] eqn:Eb;
    [| right; rewrite (ConfigSpec.field_required_missing _ _ _ Eb); reflexivity].
  destruct (field_outcome as_str kwargs "api_base" None) as [[b ->] | ->];
    [| right; reflexivity]; simpl.
  destruct (kwargs !! "model") as [vm |] eqn:Em;
    [| right; rewrite (ConfigSpec.field_required_missing _ _ _ Em); reflexivity].
  destruct (field_outcome as_str kwargs "model" None) as [[m ->] | ->];
    [| right; reflexivity]; simpl.
  destruct (field_outcome as_float kwargs "temperature"
              (Some default_temperature)) as [[t ->] | ->];
    [| right; reflexivity]; simpl.
  destruct (field_outcome as_int kwargs "max_tokens"
              (Some default_max_tokens)) as [[mt ->] | ->];
    [| right; reflexivity]; simpl.
  destruct (field_outcome as_float kwargs "top_p" (Some default_top_p))
    as [[tp ->] | ->]; [| right; reflexivity]; simpl.
  destruct (field_outcome as_str kwargs "system_prompt"
              (Some default_system_prompt)) as [[sp ->] | ->];
    [| right; reflexivity]; simpl.
  left. eexists. split; [reflexivity |]. eauto.
Qed.

(** X8. An entry that lacks [api_key], [api_base] or [model] is
    rejected with a validation error, whatever else it gives and
    whatever the validators accept: the three have no default. *)
Theorem entry_without_required_field_rejected (provider : string)
    (mm : option MemoryManager) (uid config_path : option string)
    (cfg ps kwargs : gmap string pyval) :
  read_yaml (path_or_default config_path) = Some (Ok (PDict cfg)) ->
  cfg !! "providers" = Some (PDict ps) ->
  ps !! provider = Some (PDict kwargs) ->
  kwargs !! "api_key" = None \/ kwargs !! "api_base" = None
  \/ kwargs !! "model" = None ->
  LLM_init provider mm uid config_path = Raise ValidationError.
Proof.
  intros Hread Hprov Hentry Hmiss. unfold LLM_init.
  rewrite Hread, Hprov, (ConfigSpec.py_in_present _ _ _ Hentry). simpl.
  rewrite Hentry. simpl.
  destruct (LLMConfig_init_outcome kwargs)
    as [(c & _ & [k Hk] & [b Hb] & [m Hm]) | ->]; [| reflexivity].
  destruct Hmiss as [E | [E | E]]; congruence.
Qed.

(** X9. A configuration without a [memory] section, or whose [memory]
    section has no [mem0] entry, gives the manager the declared
    defaults (search limit 5, context limit 3, the default adapter
    settings), and the store is built from those settings. *)
Theorem memory_manager_defaults (config_path : option string)
    (cfg : gmap string pyval) :
  read_yaml (path_or_default config_path) = Some (Ok (PDict cfg)) ->
  cfg !! "memory" = None
  \/ (exists m, cfg !! "memory" = Some (PDict m) /\ m !! "mem0" = None) ->
  MemoryManager_init (Store := Store) config_path
  = match from_config (mem0_settings default_memory_config) with
    | Ok store => Ok ({| Memory.config := default_memory_config |}, store)
    | Raise e => Raise e
    end
  /\ search_limit default_memory_config = 5
  /\ context_limit default_memory_config = 3.
Proof.
  intros Hread Hsec. split; [| split; reflexivity].
  unfold MemoryManager_init. rewrite Hread. simpl.
  assert (Hkw : and_then (get_or_empty
                            (match cfg !! "memory" with
                             | Some v => v
                             | None => PDict ∅
                             end) "mem0")
                  (fun memory_config : pyval =>
                     match memory_config with
                     | PDict kwargs =>
                         and_then (MemoryConfig_init kwargs) (fun c =>
                         and_then (from_config (mem0_settings c)) (fun store =>
                         Ok ({| Memory.config := c |}, store)))
                     | _ => Raise TypeError
                     end)
                = and_then (MemoryConfig_init ∅) (fun c =>
                  and_then (from_config (mem0_settings c)) (fun store =>
                  Ok ({| Memory.config := c |}, store)))).
  { destruct Hsec as [-> | (m & -> & Hm)]; simpl.
    - rewrite lookup_empty. reflexivity.
    - rewrite Hm. reflexivity. }
  rewrite Hkw. unfold MemoryConfig_init, field. rewrite !lookup_empty. simpl.
  destruct (from_config _); reflexivity.
Qed.

Lemma field_reads_dict (kwargs : gmap string pyval) (key : string)
    (default : pyval) `{!PydanticDictLaws} :
  typed PDict kwargs key (Some ∅) ->
  exists v, field as_dict kwargs key (Some default) = Ok v
            /\ reads id kwargs key (Some default) v.
Proof.
  unfold typed, field, reads. destruct (kwargs !! key) as [v |].
  - intros [m ->]. exists (PDict m). rewrite as_dict_PDict.
    split; reflexivity.
  - intros _. exists default. split; reflexivity.
Qed.

(** X10. A valid [mem0] section overrides field by field: each adapter
    setting the file gives is taken whole, as given (it is not merged
    with its default), each limit the file gives is taken, and the
    rest are the defaults.  The store is built from the three adapter
    settings alone. *)
Theorem memory_section_overrides `{!PydanticLaws} `{!PydanticDictLaws}
    (config_path : option string) (cfg m kwargs : gmap string pyval) :
  read_yaml (path_or_default config_path) = Some (Ok (PDict cfg)) ->
  cfg !! "memory" = Some (PDict m) ->
  m !! "mem0" = Some (PDict kwargs) ->
  valid_memory_section kwargs ->
  exists c,
    matches_memory_section kwargs c
    /\ MemoryManager_init (Store := Store) config_path
       = match from_config
                 (PDict {[ "llm" := llm c; "embedder" := embedder c;
                           "vector_store" := vector_store c ]}) with
         | Ok store => Ok ({| Memory.config := c |}, store)
         | Raise e => Raise e
         end.
Proof.
  intros Hread Hmem Hsec (Hl & He & Hv & Hsl & Hcl).
  destruct (field_reads_dict kwargs "llm" default_llm Hl) as (l & El & Rl).
  destruct (field_reads_dict kwargs "embedder" default_embedder He)
    as (e & Ee & Re).
  destruct (field_reads_dict kwargs "vector_store" default_vector_store Hv)
    as (v & Ev & Rv).
  destruct (ConfigSpec.field_reads as_int PInt _ _ _ as_int_PInt Hsl)
    as (sl & Esl & Rsl).
  destruct (ConfigSpec.field_reads as_int PInt _ _ _ as_int_PInt Hcl)
    as (cl & Ecl & Rcl).
  exists {| llm := l; embedder := e; vector_store := v;
            search_limit := sl; context_limit := cl |}.
  split; [repeat split; assumption |].
  unfold MemoryManager_init. rewrite Hread. simpl. rewrite Hmem. simpl.
  rewrite Hsec. unfold MemoryConfig_init.
  rewrite El, Ee, Ev, Esl, Ecl. simpl.
  destruct (from_config _); reflexivity.
Qed.

End Loading.

Lemma constructors_need_the_file_witness :
  LLM_init "full" None None (Some "missing.yaml")
  = Raise (FileNotFoundError "Configuration file not found: missing.yaml")
  /\ @MemoryManager_init strict_pydantic plain_pydantic_dict fake_host
       FakeStore fake_factory (Some "missing.yaml")
     = Raise (FileNotFoundError "Configuration file not found: missing.yaml").
Proof.
  exact (@constructors_need_the_file strict_pydantic plain_pydantic_dict
           fake_host FakeStore fake_factory "full" None None
           (Some "missing.yaml") eq_refl).
Defined.

Lemma LLM_init_profile_from_own_entry_witness :
  exists cfg ps kwargs,
    read_yaml (path_or_default None) = Some (Ok (PDict cfg))
    /\ cfg !! "providers" = Some (PDict ps)
    /\ ps !! "full" = Some (PDict kwargs)
    /\ LLMConfig_init kwargs = Ok profile_default.
Proof.
  exact (proj2 (proj2 (LLM_init_profile_from_own_entry "full" None
                         (Some "u1") None
                         {| provider := "full"; memory_manager := None;
                            user_id := "u1"; config := profile_default |}
                         eq_refl))).
Defined.

Lemma LLM_init_user_id_witness :
  user_id {| provider := "full"; memory_manager := None;
             user_id := uuid4; config := profile_default |} = uuid4.
Proof.
  exact (proj2 (LLM_init_user_id "full" None (Some "") None
                  {| provider := "full"; memory_manager := None;
                     user_id := uuid4; config := profile_default |} eq_refl)
           (or_intror eq_refl)).
Defined.

Lemma entry_without_required_field_rejected_witness :
  LLM_init "test" None None None = Raise ValidationError.
Proof.
  apply (entry_without_required_field_rejected "test" None None None
           {[ "providers" := PDict {[ "test" := PDict test_entry;
                                      "full" := PDict full_entry ]} ]}
           {[ "test" := PDict test_entry; "full" := PDict full_entry ]}
           test_entry).
  - reflexivity.
  - reflexivity.
  - reflexivity.
  - left. reflexivity.
Defined.

Lemma memory_manager_defaults_witness :
  @MemoryManager_init strict_pydantic plain_pydantic_dict fake_host
    FakeStore fake_factory None
  = Ok ({| Memory.config := default_memory_config |},
        {| rows := []; offline := false |})
  /\ search_limit default_memory_config = 5
  /\ context_limit default_memory_config = 3.
Proof.
  apply (@memory_manager_defaults strict_pydantic plain_pydantic_dict
           fake_host FakeStore fake_factory None
           {[ "providers" := PDict {[ "test" := PDict test_entry;
                                      "full" := PDict full_entry ]} ]}).
  - reflexivity.
  - left. reflexivity.
Defined.

Lemma memory_section_overrides_witness :
  exists c,
    matches_memory_section
      {[ "llm" := custom_llm; "search_limit" := PInt 8 ]} c
    /\ @MemoryManager_init strict_pydantic plain_pydantic_dict demo_host
         FakeStore fake_factory None
       = Ok ({| Memory.config := c |}, {| rows := []; offline := false |}).
Proof.
  apply (@memory_section_overrides strict_pydantic plain_pydantic_dict
           demo_host FakeStore fake_factory ConfigSpec.strict_pydantic_laws
           plain_pydantic_dict_laws None
           {[ "providers" :=
                PDict {[ "silicon_flow" := PDict full_entry ]};
              "memory" :=
                PDict {[ "mem0" := PDict {[ "llm" := custom_llm;
                                            "search_limit" := PInt 8 ]} ]} ]}
           {[ "mem0" := PDict {[ "llm" := custom_llm;
                                 "search_limit" := PInt 8 ]} ]}).
  - reflexivity.
  - reflexivity.
  - reflexivity.
  - repeat split; unfold typed; vm_compute; eauto.
Defined.

End ConfigMore.

(* ===================================================================== *)
(** * More of [chat_with_memories]                                        *)
(* ===================================================================== *)

Module ChatMore.

Import Memory Llm Doubles MoreDoubles.

Section Collaborators.
Context {Store : Type} `{Mem0Memory Store} `{OpenAI}.

(** ** One user per generator *)

Lemma stream_loop_scoped (response : list stream_item) :
  forall (messages : list Message) (u : string) (store_memory : bool)
         (collected : list string) (st : Store),
  match stream_loop messages u store_memory response collected st with
  | (r, _, tr) =>
      Forall (scoped_to u) tr
      /\ forall y g', r = Ok (y, g') -> works_for u g'
  end.
Proof.
  induction response as [| item rest IH];
    intros messages u store_memory collected st; simpl.
  - destruct store_memory; simpl.
    + unfold bind, memory_add, ret.
      destruct (mem0_add _ _ _ _) as [[id | e] st']; simpl.
      * split; [repeat constructor | intros y g' [= <- <-]; exact I].
      * split; [repeat constructor | intros y g' [=]].
    + split; [constructor | intros y g' [= <- <-]; exact I].
  - destruct item as [[content |] | e]; simpl.
    + destruct (str_truthy content); [| apply IH].
      simpl. split; [constructor | intros y g' [= <- <-]; reflexivity].
    + apply IH.
    + split; [constructor | intros y g' [=]].
Qed.

Lemma next_scoped (g : generator) (u : string) (st : Store) :
  works_for u g ->
  match next g st with
  | (r, _, tr) =>
      Forall (scoped_to u) tr
      /\ forall y g', r = Ok (y, g') -> works_for u g'
  end.
Proof.
  destruct g as [self message uid store_memory stream
                | messages u' store_memory response collected | |].
  - simpl works_for. intros <-. destruct stream.
    + rewrite ChatSpec.next_created_stream.
      destruct (memory_manager self) as [mm |];
        [| split; [constructor | intros y g' [=]]].
      cbv zeta. destruct (mem0_search _ _ _ _) as [relevant | e];
        [| split; [repeat constructor | intros y g' [=]]].
      destruct (completions_stream _) as [response | e];
        [| split; [repeat constructor | intros y g' [=]]].
      pose proof (stream_loop_scoped response
                    [system_message self relevant; user_message message]
                    (str_or uid (user_id self)) store_memory [] st) as Hl.
      destruct (stream_loop _ _ _ _ _ _) as [[r st'] tr].
      destruct Hl as [Htr Hg].
      split; [repeat constructor; exact Htr | exact Hg].
    + rewrite ChatSpec.next_created_blocking.
      destruct (memory_manager self) as [mm |];
        [| split; [constructor | intros y g' [=]]].
      cbv zeta. destruct (mem0_search _ _ _ _) as [relevant | e];
        [| split; [repeat constructor | intros y g' [=]]].
      destruct (completions_create _) as [reply | e];
        [| split; [repeat constructor | intros y g' [=]]].
      destruct store_memory.
      * destruct (mem0_add _ _ _ _) as [[id | e] st']; simpl;
          (split; [repeat constructor | ]).
        -- intros y g' [= <- <-]. exact I.
        -- intros y g' [=].
      * split; [repeat constructor | intros y g' [= <- <-]; exact I].
  - simpl works_for. intros ->. apply stream_loop_scoped.
  - intros _. simpl. split; [constructor | intros y g' [= <- <-]; exact I].
  - intros _. simpl. split; [constructor | intros y g' [= <- <-]; exact I].
Qed.

Lemma consume_scoped (n : nat) :
  forall (g : generator) (u : string) (st : Store),
  works_for u g -> Forall (scoped_to u) (snd (consume n g st)).
Proof.
  induction n as [| n IH]; intros g u st Hg; [constructor |].
  rewrite ChatSpec.consume_S. pose proof (next_scoped g u st Hg) as Hn.
  destruct (next g st) as [[[[[y |] g'] | e] st'] tr]; destruct Hn as [Htr Hg'];
    try exact Htr.
  specialize (IH g' u st' (Hg' _ _ eq_refl)).
  destruct (consume n g' st') as [[[ys r] st''] tr']. simpl in *.
  apply Forall_app. split; assumption.
Qed.

(** X11. Every call a turn makes to the store, the search and the
    write alike, names one and the same user, whatever the flags and
    however far the caller reads: the [user_id] argument when it is a
    non-empty string, else the user of the instance. *)
Theorem chat_calls_name_one_user (self : LLM) (message : string)
    (uid : option string) (store_memory stream : bool) (n : nat) (st : Store) :
  exists u,
    Forall (scoped_to u)
      (snd (consume n
              (chat_with_memories self message uid store_memory stream) st))
    /\ (forall v, uid = Some v -> v <> "" -> u = v)
    /\ (uid = None \/ uid = Some "" -> u = user_id self).
Proof.
  exists (str_or uid (user_id self)). split; [| split].
  - apply consume_scoped. reflexivity.
  - intros v -> Hv. destruct v; [contradiction | reflexivity].
  - intros [-> | ->]; reflexivity.
Qed.

(** ** The order of the calls *)

(** X12. Whatever the flags, the outcome of the calls and the number
    of values the caller takes, a turn issues its calls in one order
    and each at most once: the search, then the completion request,
    then the write.  There is no second search, no retry of the
    request, and never a [clear]. *)
Theorem chat_calls_in_order (self : LLM) (message : string)
    (uid : option string) (store_memory stream : bool) (n : nat) (st : Store) :
  turn_shaped
    (snd (consume n (chat_with_memories self message uid store_memory stream)
            st)).
Proof.
  unfold chat_with_memories. destruct n as [| n]; [exact I |].
  destruct stream.
  - rewrite ChatSpec.consume_created_stream.
    destruct (memory_manager self) as [mm |]; [| exact I]. cbv zeta.
    destruct (mem0_search _ _ _ _) as [relevant | e]; [| exact I].
    destruct (completions_stream _) as [response | e]; [| exact I].
    destruct store_memory.
    + destruct (consume (S n) _ st) as [[[ys r] st'] tr] eqn:E.
      apply ChatSpec.consume_streaming_store in E as [-> | (_ & _ & ->)];
        exact I.
    + destruct (ChatSpec.consume_streaming_no_store response (S n)
                  [system_message self relevant; user_message message]
                  (str_or uid (user_id self)) [] st) as (ys & r & ->).
      exact I.
  - rewrite ChatSpec.consume_S, ChatSpec.next_created_blocking.
    destruct (memory_manager self) as [mm |]; [| exact I]. cbv zeta.
    destruct (mem0_search _ _ _ _) as [relevant | e]; [| exact I].
    destruct (completions_create _) as [reply | e]; [| exact I].
    destruct store_memory.
    + destruct (mem0_add _ _ _ _) as [[id | e] st']; [| exact I].
      destruct (ChatSpec.consume_yielded n st') as (g & ->). exact I.
    + destruct (ChatSpec.consume_yielded n st) as (g & ->). exact I.
Qed.

(** X13. A blocking call that stores the turn writes before it hands
    the reply over: the first [next] issues the search, the request and
    the write of [system, user, assistant reply], and only then yields
    the reply, the one value of the call.  When the write raises, the
    reply is never yielded. *)
Theorem blocking_write_precedes_reply (self : LLM) (mm : MemoryManager)
    (message : string) (uid : option string) (n : nat) (st : Store)
    (relevant : list Entry) (reply : string) :
  let u := str_or uid (user_id self) in
  let limit := context_limit (Memory.config mm) in
  let messages := [system_message self relevant; user_message message] in
  let written := messages ++ [assistant_message reply] in
  memory_manager self = Some mm ->
  mem0_search st message u limit = Ok relevant ->
  completions_create (request self messages false) = Ok reply ->
  exists r,
    consume (S n) (chat_with_memories self message uid true false) st
    = (match fst (mem0_add st written u None) with
       | Ok _ => [reply]
       | Raise _ => []
       end, r, snd (mem0_add st written u None),
       [MemSearch message u limit; Create (request self messages false);
        MemAdd written u None])
    /\ (forall e, fst (mem0_add st written u None) = Raise e -> r = Raise e).
Proof.
  intros u limit messages written Hmm Hs Hc.
  unfold chat_with_memories.
  rewrite ChatSpec.consume_S, ChatSpec.next_created_blocking, Hmm. cbv zeta.
  fold u limit. rewrite Hs. fold messages. rewrite Hc. fold written.
  destruct (mem0_add st written u None) as [[id | e] st'] eqn:Ea; simpl.
  - destruct (ChatSpec.consume_yielded n st') as (g & ->).
    exists (Ok g). split; [reflexivity | intros e [=]].
  - exists (Raise e). split; [reflexivity | intros e' [= <-]; reflexivity].
Qed.

(** ** What a caller of a stream receives *)

Lemma fragments_nonempty (response : list stream_item) :
  Forall (fun y => y <> "") (fragments response).
Proof.
  induction response as [| [[content |] | e] rest IH]; simpl;
    try assumption; try constructor.
  destruct (str_truthy content) eqn:E; [| exact IH].
  constructor; [| exact IH]. intros ->. discriminate.
Qed.

Lemma unbroken_stream_error (response : list stream_item) :
  unbroken response <-> stream_error response = None.
Proof.
  unfold unbroken. induction response as [| [delta | e] rest IH]; simpl.
  - split; [reflexivity | intros _ e []].
  - rewrite <- IH. split.
    + intros Hu e Hin. apply (Hu e). now right.
    + intros Hu e [Hd | Hin]; [discriminate | exact (Hu e Hin)].
  - split; [| discriminate]. intros Hu. exfalso. apply (Hu e). now left.
Qed.

(** A caller that stops at or before the last fragment: it has the
    first [n] fragments, and nothing has been issued. *)
Lemma consume_streaming_early (response : list stream_item) :
  forall (n : nat) (messages : list Message) (u : string)
         (store_memory : bool) (collected : list string) (st : Store),
  (n <= length (fragments response))%nat ->
  exists g,
    consume n (Streaming messages u store_memory response collected) st
    = (firstn n (fragments response), Ok g, st, []).
Proof.
  induction response as [| item rest IH];
    intros [| n] messages u store_memory collected st Hn;
    try (simpl; eauto; fail); try (simpl in Hn; lia).
  destruct item as [[content |] | e]; simpl fragments in *.
  - destruct (str_truthy content) eqn:E.
    + rewrite ChatSpec.consume_S, ChatSpec.next_streaming_fragment by exact E.
      simpl in Hn.
      destruct (IH n messages u store_memory (collected ++ [content]) st
                  ltac:(lia)) as (g & ->).
      simpl. eauto.
    + rewrite (ChatSpec.consume_same_next n _ _ st
                 (ChatSpec.next_streaming_empty _ _ _ _ _ _ E)).
      apply IH. exact Hn.
  - rewrite (ChatSpec.consume_same_next n _ _ st
               (ChatSpec.next_streaming_none _ _ _ _ _)).
    apply IH. exact Hn.
  - simpl in Hn. lia.
Qed.

(** A caller that reads on into the break of a stream: it has the
    fragments before the break and then the error; nothing has been
    issued. *)
Lemma consume_streaming_broken (response : list stream_item) :
  forall (n : nat) (messages : list Message) (u : string)
         (store_memory : bool) (collected : list string) (st : Store)
         (e : exn),
  stream_error response = Some e ->
  (length (fragments response) < n)%nat ->
  consume n (Streaming messages u store_memory response collected) st
  = (fragments response, Raise e, st, []).
Proof.
  induction response as [| item rest IH];
    intros [| n] messages u store_memory collected st e He Hn;
    try discriminate; try (simpl in Hn; lia).
  destruct item as [[content |] | e']; simpl fragments in *; simpl in He.
  - destruct (str_truthy content) eqn:E.
    + rewrite ChatSpec.consume_S, ChatSpec.next_streaming_fragment by exact E.
      simpl in Hn.
      rewrite (IH n messages u store_memory (collected ++ [content]) st e He
                 ltac:(lia)).
      reflexivity.
    + rewrite (ChatSpec.consume_same_next n _ _ st
                 (ChatSpec.next_streaming_empty _ _ _ _ _ _ E)).
      apply IH; assumption.
  - rewrite (ChatSpec.consume_same_next n _ _ st
               (ChatSpec.next_streaming_none _ _ _ _ _)).
    apply IH; assumption.
  - injection He as ->. reflexivity.
Qed.

(** A caller that reads an unbroken stream to its end without
    storing: it has every fragment, and nothing has been issued. *)
Lemma consume_streaming_no_store_complete (response : list stream_item) :
  forall (n : nat) (messages : list Message) (u : string)
         (collected : list string) (st : Store),
  stream_error response = None ->
  (length (fragments response) < n)%nat ->
  consume n (Streaming messages u false response collected) st
  = (fragments response, Ok Finished, st, []).
Proof.
  induction response as [| item rest IH];
    intros [| n] messages u collected st He Hn;
    try (simpl in Hn; lia); [reflexivity |].
  destruct item as [[content |] | e']; simpl fragments in *; simpl in He;
    [| | discriminate].
  - destruct (str_truthy content) eqn:E.
    + rewrite ChatSpec.consume_S, ChatSpec.next_streaming_fragment by exact E.
      simpl in Hn.
      rewrite (IH n messages u (collected ++ [content]) st He ltac:(lia)).
      reflexivity.
    + rewrite (ChatSpec.consume_same_next n _ _ st
                 (ChatSpec.next_streaming_empty _ _ _ _ _ _ E)).
      apply IH; assumption.
  - rewrite (ChatSpec.consume_same_next n _ _ st
               (ChatSpec.next_streaming_none _ _ _ _ _)).
    apply IH; assumption.
Qed.

(** The values of any run are the first fragments of the stream. *)
Lemma consume_streaming_values (response : list stream_item)
    (n : nat) (messages : list Message) (u : string) (store_memory : bool)
    (collected : list string) (st : Store) :
  fst (fst (fst (consume n
                   (Streaming messages u store_memory response collected)
                   st)))
  = firstn n (fragments response).
Proof.
  destruct (le_lt_dec n (length (fragments response))) as [Hle | Hlt].
  - destruct (consume_streaming_early response n messages u store_memory
                collected st Hle) as (g & ->). reflexivity.
  - rewrite firstn_all2 by lia.
    destruct (stream_error response) as [e |] eqn:He.
    + rewrite (consume_streaming_broken response n messages u store_memory
                 collected st e He Hlt). reflexivity.
    + destruct store_memory.
      * apply unbroken_stream_error in He.
        destruct (ChatSpec.consume_streaming_store_complete response n
                    messages u collected st He Hlt) as (r & st' & ->).
        reflexivity.
      * rewrite (consume_streaming_no_store_complete response n messages u
                   collected st He Hlt). reflexivity.
Qed.

(** X14. With [stream=True] the caller receives the non-empty contents
    of the chunks, in order and nothing else: after asking for [n]
    values it holds the first [n] of them; no empty string is ever
    yielded. *)
Theorem stream_values_are_first_fragments (self : LLM) (mm : MemoryManager)
    (message : string) (uid : option string) (store_memory : bool) (n : nat)
    (st : Store) (relevant : list Entry) (response : list stream_item) :
  let messages := [system_message self relevant; user_message message] in
  memory_manager self = Some mm ->
  mem0_search st message (str_or uid (user_id self))
    (context_limit (Memory.config mm)) = Ok relevant ->
  completions_stream (request self messages true) = Ok response ->
  fst (fst (fst (consume n
                   (chat_with_memories self message uid store_memory true)
                   st)))
  = firstn n (fragments response)
  /\ Forall (fun y => y <> "") (fragments response).
Proof.
  intros messages Hmm Hs Hc. split; [| apply fragments_nonempty].
  destruct n as [| n]; [reflexivity |].
  unfold chat_with_memories.
  rewrite ChatSpec.consume_created_stream, Hmm. cbv zeta. rewrite Hs.
  fold messages. rewrite Hc.
  pose proof (consume_streaming_values response (S n) messages
                (str_or uid (user_id self)) store_memory [] st) as Hv.
  destruct (consume (S n) _ st) as [[[ys r] st'] tr]. exact Hv.
Qed.

(** X15. A turn is stored only if its stream is read to the end.  A
    caller that stops at or before the last fragment leaves the store
    as it was, with no [add] issued; and when the stream breaks, the
    caller gets the fragments before the break, then the error, and
    nothing is written. *)
Theorem unfinished_stream_is_not_stored (self : LLM) (mm : MemoryManager)
    (message : string) (uid : option string) (store_memory : bool) (n : nat)
    (st : Store) (relevant : list Entry) (response : list stream_item) :
  let u := str_or uid (user_id self) in
  let limit := context_limit (Memory.config mm) in
  let messages := [system_message self relevant; user_message message] in
  let run :=
    consume n (chat_with_memories self message uid store_memory true) st in
  memory_manager self = Some mm ->
  mem0_search st message u limit = Ok relevant ->
  completions_stream (request self messages true) = Ok response ->
  ((n <= length (fragments response))%nat ->
   snd (fst run) = st /\ Forall (fun ev => is_add ev = false) (snd run))
  /\ (forall e, stream_error response = Some e ->
        (length (fragments response) < n)%nat ->
        run = (fragments response, Raise e, st,
               [MemSearch message u limit;
                Create (request self messages true)])).
Proof.
  intros u limit messages run Hmm Hs Hc. subst run.
  unfold chat_with_memories. split.
  - intros Hn. destruct n as [| n]; [split; [reflexivity | constructor] |].
    rewrite ChatSpec.consume_created_stream, Hmm. cbv zeta.
    fold u limit. rewrite Hs. fold messages. rewrite Hc.
    destruct (consume_streaming_early response (S n) messages u store_memory
                [] st Hn) as (g & ->).
    simpl. split; [reflexivity | repeat constructor].
  - intros e He Hn. destruct n as [| n]; [lia |].
    rewrite ChatSpec.consume_created_stream, Hmm. cbv zeta.
    fold u limit. rewrite Hs. fold messages. rewrite Hc.
    rewrite (consume_streaming_broken response (S n) messages u store_memory
               [] st e He Hn).
    reflexivity.
Qed.

(** X16. A failed call ends the turn where it fails.  When the search
    raises, the completion client is never called; when the completion
    call raises, nothing is written; either way the exception reaches
    the caller and the store is as it was. *)
Theorem failed_call_ends_the_turn (self : LLM) (mm : MemoryManager)
    (message : string) (uid : option string) (store_memory stream : bool)
    (n : nat) (st : Store) (e : exn) :
  let u := str_or uid (user_id self) in
  let limit := context_limit (Memory.config mm) in
  let run :=
    consume (S n) (chat_with_memories self message uid store_memory stream)
      st in
  memory_manager self = Some mm ->
  (mem0_search st message u limit = Raise e ->
   run = ([], Raise e, st, [MemSearch message u limit]))
  /\ (forall relevant,
        let req := request self
                     [system_message self relevant; user_message message]
                     stream in
        mem0_search st message u limit = Ok relevant ->
        (if stream then completions_stream req = Raise e
         else completions_create req = Raise e) ->
        run = ([], Raise e, st, [MemSearch message u limit; Create req])).
Proof.
  intros u limit run Hmm. subst run. unfold chat_with_memories. split.
  - intros Hs. destruct stream.
    + rewrite ChatSpec.consume_created_stream, Hmm. cbv zeta.
      fold u limit. rewrite Hs. reflexivity.
    + rewrite ChatSpec.consume_S, ChatSpec.next_created_blocking, Hmm.
      cbv zeta. fold u limit. rewrite Hs. reflexivity.
  - intros relevant. cbv zeta. intros Hs Hc. destruct stream.
    + rewrite ChatSpec.consume_created_stream, Hmm. cbv zeta.
      fold u limit. rewrite Hs, Hc. reflexivity.
    + rewrite ChatSpec.consume_S, ChatSpec.next_created_blocking, Hmm.
      cbv zeta. fold u limit. rewrite Hs, Hc. reflexivity.
Qed.

End Collaborators.

Lemma blocking_write_precedes_reply_witness :
  let turn := [system_message llm_with_memory
                 [row_entry ("demo_user", "likes coffee")];
               user_message "hi"; assistant_message "Hello"] in
  exists r,
    consume 1 (chat_with_memories llm_with_memory "hi" None true false) store0
    = (["Hello"], r, snd (mem0_add store0 turn "demo_user" None),
       [MemSearch "hi" "demo_user" 3;
        Create (request llm_with_memory
                  [system_message llm_with_memory
                     [row_entry ("demo_user", "likes coffee")];
                   user_message "hi"] false);
        MemAdd turn "demo_user" None])
    /\ (forall e, fst (mem0_add store0 turn "demo_user" None) = Raise e ->
          r = Raise e).
Proof.
  intros turn.
  exact (blocking_write_precedes_reply llm_with_memory manager "hi" None 0
           store0 [row_entry ("demo_user", "likes coffee")] "Hello"
           eq_refl eq_refl eq_refl).
Defined.

Lemma stream_values_are_first_fragments_witness :
  let response :=
    [Chunk (Some "Hel"); Chunk None; Chunk (Some ""); Chunk (Some "lo")] in
  fst (fst (fst (consume 1
                   (chat_with_memories llm_with_memory "hi" None true true)
                   store0)))
  = firstn 1 (fragments response)
  /\ Forall (fun y => y <> "") (fragments response).
Proof.
  intros response.
  exact (stream_values_are_first_fragments llm_with_memory manager "hi" None
           true 1 store0 [row_entry ("demo_user", "likes coffee")] response
           eq_refl eq_refl eq_refl).
Defined.

Lemma unfinished_stream_is_not_stored_witness :
  @consume FakeStore fake_mem0 broken_openai 5
    (chat_with_memories llm_with_memory "hi" None true true) store0
  = (["Hel"], Raise (OtherException "reset"), store0,
     [MemSearch "hi" "demo_user" 3;
      Create (request llm_with_memory
                [system_message llm_with_memory
                   [row_entry ("demo_user", "likes coffee")];
                 user_message "hi"] true)]).
Proof.
  exact (proj2 (@unfinished_stream_is_not_stored FakeStore fake_mem0
                  broken_openai llm_with_memory manager "hi" None true 5
                  store0 [row_entry ("demo_user", "likes coffee")]
                  [Chunk (Some "Hel"); StreamRaise (OtherException "reset");
                   Chunk (Some "lo")]
                  eq_refl eq_refl eq_refl)
           (OtherException "reset") eq_refl ltac:(simpl; lia)).
Defined.

Lemma failed_call_ends_the_turn_witness :
  @consume FakeStore down_mem0 fake_openai 3
    (chat_with_memories llm_with_memory "hi" None true true) store0
  = ([], Raise (OtherException "search failed"), store0,
     [MemSearch "hi" "demo_user" 3]).
Proof.
  exact (proj1 (@failed_call_ends_the_turn FakeStore down_mem0 fake_openai
                  llm_with_memory manager "hi" None true true 2 store0
                  (OtherException "search failed") eq_refl) eq_refl).
Defined.

End ChatMore.

(* ===================================================================== *)
(** * [chat_completion]                                                   *)
(* ===================================================================== *)

Module CompletionSpec.

Import Memory Llm Doubles MoreDoubles.

Section Collaborators.
Context {Store : Type} `{Mem0Memory Store} `{OpenAI}.

Lemma completion_consume_S (n : nat) (g : completion_generator) (st : Store) :
  completion_consume (S n) g st
  = match completion_next g st with
    | (Ok (Some y, g'), st', tr) =>
        match completion_consume n g' st' with
        | (ys, r, st'', tr') => (y :: ys, r, st'', tr ++ tr')
        end
    | (Ok (None, g'), st', tr) => ([], Ok g', st', tr)
    | (Raise e, st', tr) => ([], Raise e, st', tr)
    end.
Proof. reflexivity. Qed.

Lemma completion_same_next (n : nat) (g1 g2 : completion_generator)
    (st : Store) :
  completion_next g1 st = completion_next g2 st ->
  completion_consume (S n) g1 st = completion_consume (S n) g2 st.
Proof. intros E. rewrite !completion_consume_S, E. reflexivity. Qed.

Lemma completion_skip_empty (content : string) (rest : list stream_item)
    (st : Store) :
  str_truthy content = false ->
  completion_next (CompletionStreaming (Chunk (Some content) :: rest)) st
  = completion_next (CompletionStreaming rest) st.
Proof. intros E. simpl. rewrite E. reflexivity. Qed.

Lemma completion_fragment (content : string) (rest : list stream_item)
    (st : Store) :
  str_truthy content = true ->
  completion_next (CompletionStreaming (Chunk (Some content) :: rest)) st
  = (Ok (Some content, CompletionStreaming rest), st, []).
Proof. intros E. simpl. rewrite E. reflexivity. Qed.

(** An open stream of [chat_completion], read by a caller that takes at
    most [n] values: the first [n] fragments; then, if the caller reads
    on, the end of the stream or the error that breaks it. *)
Lemma completion_streaming_run (response : list stream_item) :
  forall (n : nat) (st : Store),
  exists r,
    completion_consume n (CompletionStreaming response) st
    = (firstn n (fragments response), r, st, [])
    /\ ((n <= length (fragments response))%nat -> exists g, r = Ok g)
    /\ ((length (fragments response) < n)%nat ->
        r = match stream_error response with
            | Some e => Raise e
            | None => Ok CompletionFinished
            end).
Proof.
  induction response as [| item rest IH]; intros [| n] st.
  - exists (Ok (CompletionStreaming [])). simpl.
    split; [reflexivity |]. split; [eauto | lia].
  - exists (Ok CompletionFinished). simpl.
    split; [reflexivity |]. split; [lia | reflexivity].
  - eexists. split; [reflexivity |]. split; [eauto | lia].
  - destruct item as [[content |] | e]; simpl fragments; simpl stream_error.
    + destruct (str_truthy content) eqn:E.
      * rewrite completion_consume_S, completion_fragment by exact E.
        destruct (IH n st) as (r & -> & Hearly & Hlate).
        exists r. simpl. split; [reflexivity |].
        split; intros Hn; [apply Hearly | apply Hlate]; lia.
      * rewrite (completion_same_next n _ _ st
                   (completion_skip_empty _ _ _ E)).
        apply IH.
    + rewrite (completion_same_next n (CompletionStreaming (Chunk None :: rest))
                 (CompletionStreaming rest) st eq_refl).
      apply IH.
    + exists (Raise e). simpl. split; [reflexivity |].
      split; [lia | reflexivity].
Qed.

(** A streaming [chat_completion]: the request, then the stream. *)
Lemma completion_created_stream (n : nat) (self : LLM)
    (messages : list Message) (st : Store) :
  completion_consume (S n) (CompletionCreated self messages true) st
  = match completions_stream (request self messages true) with
    | Raise e => ([], Raise e, st, [Create (request self messages true)])
    | Ok response =>
        match completion_consume (S n) (CompletionStreaming response) st with
        | (ys, r, st', tr) =>
            (ys, r, st', Create (request self messages true) :: tr)
        end
    end.
Proof.
  rewrite completion_consume_S.
  unfold completion_next, completion_start, bind, client_stream.
  destruct (completions_stream _) as [response | e]; [| reflexivity].
  rewrite completion_consume_S. unfold completion_next.
  destruct (completion_loop response st) as [[[[[y |] g'] | e] st'] tr];
    try reflexivity.
  destruct (completion_consume n g' st') as [[[ys r] st''] tr']. reflexivity.
Qed.

Lemma completion_created_blocking (n : nat) (self : LLM)
    (messages : list Message) (st : Store) :
  completion_consume (S n) (CompletionCreated self messages false) st
  = match completions_create (request self messages false) with
    | Raise e => ([], Raise e, st, [Create (request self messages false)])
    | Ok reply =>
        ([reply],
         Ok (match n with O => CompletionYielded | S _ => CompletionFinished end),
         st, [Create (request self messages false)])
    end.
Proof.
  rewrite completion_consume_S.
  unfold completion_next, completion_start, bind, client_create, ret.
  destruct (completions_create _) as [reply | e]; [| reflexivity].
  destruct n; reflexivity.
Qed.

(** X17. [chat_completion] is a raw passthrough: it needs no memory
    manager, it issues the one completion request with the caller's
    messages and the instance's model, temperature and token limit, and
    it never calls the store, which stays as it was. *)
Theorem chat_completion_is_passthrough (self : LLM) (messages : list Message)
    (stream : bool) (n : nat) (st : Store) :
  let run := completion_consume (S n) (chat_completion self messages stream)
               st in
  snd (fst run) = st
  /\ snd run
     = [Create {| req_model := model (Llm.config self);
                  req_messages := messages;
                  req_stream := stream;
                  req_temperature := temperature (Llm.config self);
                  req_max_tokens := max_tokens (Llm.config self) |}].
Proof.
  unfold chat_completion. destruct stream.
  - rewrite completion_created_stream.
    destruct (completions_stream _) as [response | e];
      [| split; reflexivity].
    destruct (completion_streaming_run response (S n) st) as (r & -> & _).
    split; reflexivity.
  - rewrite completion_created_blocking.
    destruct (completions_create _); split; reflexivity.
Qed.

Ltac same_outcome :=
  split;
  [ reflexivity
  | split;
    [ intros ?; split; simpl; intros Hraised;
      (discriminate Hraised || (injection Hraised as ->; reflexivity))
    | reflexivity ] ].

(** X18. [chat_with_memories] with [store_memory=False] is the search
    followed by [chat_completion] on the two messages it builds: the
    caller receives the same values and the same exception, and the
    calls issued are the search and then those of [chat_completion]. *)
Theorem chat_without_store_is_search_then_completion (self : LLM)
    (mm : MemoryManager) (message : string) (uid : option string)
    (stream : bool) (n : nat) (st : Store) (relevant : list Entry) :
  let u := str_or uid (user_id self) in
  let limit := context_limit (Memory.config mm) in
  let messages := [system_message self relevant; user_message message] in
  let chat :=
    consume (S n) (chat_with_memories self message uid false stream) st in
  let raw :=
    completion_consume (S n) (chat_completion self messages stream) st in
  memory_manager self = Some mm ->
  mem0_search st message u limit = Ok relevant ->
  fst (fst (fst chat)) = fst (fst (fst raw))
  /\ (forall e, snd (fst (fst chat)) = Raise e
                <-> snd (fst (fst raw)) = Raise e)
  /\ snd chat = MemSearch message u limit :: snd raw.
Proof.
  intros u limit messages chat raw Hmm Hs. subst chat raw.
  unfold chat_with_memories, chat_completion. destruct stream.
  - rewrite ChatSpec.consume_created_stream, Hmm, completion_created_stream.
    cbv zeta. fold u limit. rewrite Hs. fold messages.
    destruct (completions_stream _) as [response | e]; [| same_outcome].
    destruct (completion_streaming_run response (S n) st)
      as (r & -> & Hearly & Hlate).
    destruct (le_lt_dec (S n) (length (fragments response))) as [Hle | Hlt].
    + destruct (ChatMore.consume_streaming_early response (S n) messages u
                  false [] st Hle) as (g & ->).
      destruct (Hearly Hle) as (g' & ->). simpl. same_outcome.
    + rewrite (Hlate Hlt), firstn_all2 by lia.
      destruct (stream_error response) as [e |] eqn:He.
      * rewrite (ChatMore.consume_streaming_broken response (S n) messages u
                   false [] st e He Hlt).
        simpl. same_outcome.
      * rewrite (ChatMore.consume_streaming_no_store_complete response (S n)
                   messages u [] st He Hlt).
        simpl. same_outcome.
  - rewrite ChatSpec.consume_S, ChatSpec.next_created_blocking, Hmm,
      completion_created_blocking.
    cbv zeta. fold u limit. rewrite Hs. fold messages.
    destruct (completions_create _) as [reply | e]; [| same_outcome].
    destruct (ChatSpec.consume_yielded n st) as (g & ->). simpl.
    same_outcome.
Qed.

End Collaborators.

Lemma chat_without_store_is_search_then_completion_witness :
  let messages := [system_message llm_with_memory
                     [row_entry ("demo_user", "likes coffee")];
                   user_message "hi"] in
  let chat :=
    consume 4 (chat_with_memories llm_with_memory "hi" None false true)
      store0 in
  let raw :=
    completion_consume 4 (chat_completion llm_with_memory messages true)
      store0 in
  fst (fst (fst chat)) = fst (fst (fst raw))
  /\ (forall e, snd (fst (fst chat)) = Raise e
                <-> snd (fst (fst raw)) = Raise e)
  /\ snd chat = MemSearch "hi" "demo_user" 3 :: snd raw.
Proof.
  intros messages chat raw.
  exact (chat_without_store_is_search_then_completion llm_with_memory manager
           "hi" None true 3 store0 [row_entry ("demo_user", "likes coffee")]
           eq_refl eq_refl).
Defined.

End CompletionSpec.

(* ===================================================================== *)
(** * More of main.py                                                     *)
(* ===================================================================== *)

Module ShellMore.

Import Memory Llm MemoryInit Main Doubles MoreDoubles.

(** ** Parsing a command line *)

Lemma split_token (tok : string) :
  no_space tok = true -> split_space_once tok = [tok].
Proof.
  induction tok as [| c tok IH]; simpl; [reflexivity |].
  intros Hns. apply andb_true_iff in Hns as [Hc Hs].
  destruct (bool_decide (c = " "%char)); [discriminate |].
  rewrite (IH Hs). reflexivity.
Qed.

Lemma split_token_argument (tok arg : string) :
  no_space tok = true -> split_space_once (tok +:+ " " +:+ arg) = [tok; arg].
Proof.
  induction tok as [| c tok IH]; simpl; [reflexivity |].
  intros Hns. apply andb_true_iff in Hns as [Hc Hs].
  destruct (bool_decide (c = " "%char)); [discriminate |].
  rewrite (IH Hs). reflexivity.
Qed.

Lemma startswith_slash (s : string) :
  startswith_char (String "/" s) "/" = true.
Proof. reflexivity. Qed.

Lemma dispatch_chat (user_input : string) :
  startswith_char user_input "/" = false ->
  dispatch user_input = Chat user_input.
Proof. intros E. unfold dispatch. rewrite E. reflexivity. Qed.

(** X19. How an input is read.  A line that does not start with [/] is
    a chat message, as it is.  In a command line the token up to the
    first space is compared without regard to letter case; [exit],
    [profile] and [clear] ignore whatever follows them, [search] takes
    everything after the first space as its query (and is the help
    request without one), and any other token is the help request. *)
Theorem dispatch_reads_command_lines :
  (forall user_input,
     startswith_char user_input "/" = false ->
     dispatch user_input = Chat user_input)
  /\ (forall tok arg,
        no_space tok = true ->
        dispatch (command_line tok arg) = command_branch tok arg).
Proof.
  split; [exact dispatch_chat |].
  intros tok arg Hns. unfold dispatch, command_line, command_branch.
  rewrite startswith_slash. simpl drop_first.
  destruct arg as [a |].
  - rewrite (split_token_argument tok a Hns). simpl command_name.
    repeat case_bool_decide; try reflexivity; congruence.
  - rewrite (split_token tok Hns). simpl command_name.
    repeat case_bool_decide; try reflexivity; congruence.
Qed.

Section Shell.
Context {Store : Type} `{Mem0Memory Store} `{OpenAI} `{Builtins}.

(** ** The two [except] clauses *)


(** ** [/clear] *)

(** X21. [/clear] asks the store to purge the user of the instance and
    prints one of two fixed messages, the success message when the
    purge returned and the failure message when it raised (whatever it
    raised); the turn itself never fails and the loop goes on. *)
Theorem clear_reports_outcome (llm : LLM) (line : string) (st : Store) :
  dispatch (strip line) = Clear ->
  turn llm (Ok line) st
  = (Ok Continue, snd (mem0_clear st (user_id llm)),
     [Print (nl +:+ "You: ");
      MemClear (user_id llm);
      Print ((match fst (mem0_clear st (user_id llm)) with
              | Ok _ => "Chat history cleared."
              | Raise _ => "Failed to clear chat history."
              end) +:+ nl)]).
Proof.
  intros Hd. unfold turn, turn_body. rewrite Hd.
  destruct (mem0_clear st (user_id llm)) as [[[] | e] st'] eqn:E;
    unfold handle, run, delete_user, try_except_all, println, print,
      memory_clear, bind, ret; rewrite E; reflexivity.
Qed.

(** ** The loop *)

Lemma loop_cons (llm : LLM) (input : outcome string)
    (rest : list (outcome string)) (st : Store) :
  loop llm (input :: rest) st
  = match turn llm input st with
    | (Ok Continue, st1, tr1) =>
        match loop llm rest st1 with
        | (r, st2, tr2) => (r, st2, tr1 ++ tr2)
        end
    | (Ok Break, st1, tr1) => (Ok Ended, st1, tr1 ++ [])
    | (Raise e, st1, tr1) => (Raise e, st1, tr1)
    end.
Proof.
  simpl. unfold bind.
  destruct (turn llm input st) as [[[[] | e] st1] tr1]; reflexivity.
Qed.

(** X22. Once the loop has ended, nothing more is read: the inputs
    that follow change neither the result, nor the store, nor a single
    event.  The loop ends on [/exit] (in any letter case, with or
    without trailing text) and on an interrupt at the prompt. *)
Theorem loop_reads_nothing_after_the_end (llm : LLM) (st : Store) :
  (forall inputs rest,
     fst (fst (loop llm inputs st)) = Ok Ended ->
     loop llm (inputs ++ rest) st = loop llm inputs st)
  /\ (forall line,
        dispatch (strip line) = Exit ->
        loop llm [Ok line] st
        = (Ok Ended, st,
           [Print (nl +:+ "You: "); Print ("Goodbye!" +:+ nl)]))
  /\ loop llm [Raise KeyboardInterrupt] st
     = (Ok Ended, st,
        [Print (nl +:+ "You: "); Print (nl +:+ "Goodbye!" +:+ nl)]).
Proof.
  split; [| split].
  - intros inputs. revert st.
    induction inputs as [| input inputs IH]; intros st rest.
    + simpl. discriminate.
    + rewrite <- app_comm_cons, !loop_cons.
      destruct (turn llm input st) as [[[[] | e] st1] tr1]; try reflexivity.
      specialize (IH st1 rest).
      destruct (loop llm inputs st1) as [[r st2] tr2] eqn:E.
      simpl. intros Hr. rewrite (IH Hr). reflexivity.
  - intros line Hd. rewrite loop_cons. unfold turn, turn_body. rewrite Hd.
    reflexivity.
  - reflexivity.
Qed.

End Shell.

Lemma dispatch_reads_command_lines_witness :
  dispatch (command_line "CLEAR" (Some "everything  now")) = Clear.
Proof.
  exact (proj2 dispatch_reads_command_lines "CLEAR" (Some "everything  now")
           eq_refl).
Defined.


Lemma clear_reports_outcome_witness :
  @turn FakeStore down_mem0 fake_openai fake_builtins llm_without_memory
    (Ok " /Clear ") store0
  = (Ok Continue, store0,
     [Print (nl +:+ "You: "); MemClear "demo_user";
      Print ("Failed to clear chat history." +:+ nl)]).
Proof.
  exact (@clear_reports_outcome FakeStore down_mem0 fake_openai fake_builtins
           llm_without_memory " /Clear " store0 eq_refl).
Defined.

Lemma loop_reads_nothing_after_the_end_witness :
  loop llm_with_memory ([Ok "/EXIT now"] ++ [Ok "/clear"; Ok "hello"]) store0
  = loop llm_with_memory [Ok "/EXIT now"] store0.
Proof.
  exact (proj1 (loop_reads_nothing_after_the_end llm_with_memory store0)
           [Ok "/EXIT now"] [Ok "/clear"; Ok "hello"] eq_refl).
Defined.

(** ** Traces *)

Section Traces.
Context {Store : Type} `{Mem0Memory Store} `{OpenAI} `{Builtins}.
Variable P : event -> Prop.
Hypothesis P_print : forall text, P (Print text).

Lemma emits_ret {A} (a : A) : emits P (ret (Store := Store) a).
Proof. intros st. constructor. Qed.

Lemma emits_raise {A} (e : exn) : emits P (raise (Store := Store) (A := A) e).
Proof. intros st. constructor. Qed.

Lemma emits_bind {A B} (c : M Store A) (k : A -> M Store B) :
  emits P c -> (forall a, emits P (k a)) -> emits P (bind c k).
Proof.
  intros Hc Hk st. unfold bind. specialize (Hc st).
  destruct (c st) as [[[a | e] st1] tr1]; simpl in *; [| exact Hc].
  specialize (Hk a st1). destruct (k a st1) as [[r st2] tr2]. simpl in *.
  apply Forall_app. split; assumption.
Qed.

Lemma emits_print (text : string) : emits P (print (Store := Store) text).
Proof. intros st. repeat constructor. apply P_print. Qed.

Lemma emits_println (text : string) : emits P (println (Store := Store) text).
Proof. apply emits_print. Qed.

Lemma emits_when (b : bool) (c : M Store unit) :
  emits P c -> emits P (when b c).
Proof. intros Hc. destruct b; [exact Hc | apply emits_ret]. Qed.

Lemma emits_getitem (d : gmap string pyval) (key : string) :
  emits P (getitem (Store := Store) d key).
Proof.
  unfold getitem. destruct (d !! key); [apply emits_ret | apply emits_raise].
Qed.

Lemma emits_print_entry (i : Z) (memory : gmap string pyval) :
  emits P (print_entry (Store := Store) i memory).
Proof.
  unfold print_entry.
  apply emits_bind; [apply emits_getitem | intros c].
  apply emits_bind; [apply emits_println | intros _].
  apply emits_bind.
  - apply emits_when, emits_bind; [apply emits_getitem | intros md].
    apply emits_println.
  - intros _. apply emits_when, emits_bind; [apply emits_getitem | intros ts].
    apply emits_println.
Qed.

Lemma emits_print_relevance (memory : gmap string pyval) :
  emits P (print_relevance (Store := Store) memory).
Proof.
  unfold print_relevance.
  apply emits_when, emits_bind; [apply emits_getitem | intros sc].
  destruct (format_2f_value sc); [apply emits_println | apply emits_raise].
Qed.

Lemma emits_for_enumerate (memories : list (gmap string pyval))
    (body : Z -> gmap string pyval -> M Store unit) :
  (forall i memory, emits P (body i memory)) ->
  forall i, emits P (for_enumerate i memories body).
Proof.
  intros Hbody. induction memories as [| memory rest IH]; intros i; simpl.
  - apply emits_ret.
  - apply emits_bind; [apply Hbody | intros _; apply IH].
Qed.

Lemma emits_print_memories (memories : list (gmap string pyval)) :
  emits P (print_memories (Store := Store) memories).
Proof.
  unfold print_memories. destruct memories as [| memory rest].
  - apply emits_println.
  - apply emits_bind; [apply emits_println | intros _].
    apply emits_for_enumerate. intros i m.
    apply emits_bind; [apply emits_print_entry | intros _].
    apply emits_print_relevance.
Qed.

Lemma emits_print_profile (profile : Profile) :
  emits P (print_profile (Store := Store) profile).
Proof.
  unfold print_profile. apply emits_bind; [apply emits_println | intros _].
  destruct (recent_memories profile) as [| memory rest].
  - apply emits_println.
  - apply emits_bind; [apply emits_println | intros _].
    apply emits_for_enumerate. intros i m. apply emits_print_entry.
Qed.

Lemma emits_print_lines (lines : list string) :
  emits P (print_lines (Store := Store) lines).
Proof.
  induction lines as [| l rest IH]; simpl; [apply emits_ret |].
  apply emits_bind; [apply emits_println | intros _; exact IH].
Qed.

Lemma emits_handle (c : M Store control) : emits P c -> emits P (handle c).
Proof.
  intros Hc st. unfold handle. specialize (Hc st).
  destruct (c st) as [[[k | e] st1] tr1]; simpl in *; [exact Hc |].
  destruct e; simpl; try exact Hc;
    (apply Forall_app; split; [exact Hc | repeat constructor; apply P_print]).
Qed.

End Traces.

Section Session.
Context {Store : Type} `{Mem0Memory Store} `{OpenAI} `{Builtins}.

Lemma scoped_print (u text : string) : scoped_to u (Print text).
Proof. exact I. Qed.

Lemma for_loop_scoped (u : string) (body : string -> M Store unit)
    (fuel : nat) :
  (forall v, emits (scoped_to u) (body v)) ->
  forall g, works_for u g -> emits (scoped_to u) (for_loop fuel g body).
Proof.
  intros Hbody. induction fuel as [| fuel IH]; intros g Hg st;
    rewrite ChatSpec.for_loop_unfold; unfold bind;
    pose proof (ChatMore.next_scoped g u st Hg) as Hn;
    destruct (next g st) as [[[[[v |] g'] | e] st1] tr1];
    destruct Hn as [Htr Hg']; simpl; try exact Htr;
    try (rewrite app_nil_r; exact Htr).
  - pose proof (Hbody v st1) as Hb.
    destruct (body v st1) as [[[[] | e] st2] tr2]; simpl in *;
      apply Forall_app; split; try assumption.
    rewrite app_nil_r. exact Hb.
  - pose proof (Hbody v st1) as Hb.
    destruct (body v st1) as [[[[] | e] st2] tr2]; simpl in *.
    + specialize (IH g' (Hg' _ _ eq_refl) st2).
      destruct (for_loop fuel g' body st2) as [[r st3] tr3]. simpl in *.
      apply Forall_app. split; [exact Htr |].
      apply Forall_app. split; assumption.
    + apply Forall_app. split; assumption.
Qed.

Lemma for_in_scoped (u : string) (body : string -> M Store unit)
    (g : generator) :
  (forall v, emits (scoped_to u) (body v)) ->
  works_for u g -> emits (scoped_to u) (for_in g body).
Proof.
  intros Hbody Hg st. unfold for_in, bind.
  pose proof (ChatMore.next_scoped g u st Hg) as Hn.
  destruct (next g st) as [[[[[v |] g'] | e] st1] tr1];
    destruct Hn as [Htr Hg']; simpl; try exact Htr;
    try (rewrite app_nil_r; exact Htr).
  pose proof (Hbody v st1) as Hb.
  destruct (body v st1) as [[[[] | e] st2] tr2]; simpl in *.
  - pose proof (for_loop_scoped u body (pending g') Hbody g'
                  (Hg' _ _ eq_refl) st2) as Hl.
    destruct (for_loop (pending g') g' body st2) as [[r st3] tr3]. simpl in *.
    apply Forall_app. split; [exact Htr |].
    apply Forall_app. split; assumption.
  - apply Forall_app. split; assumption.
Qed.

Lemma run_scoped (llm : LLM) (b : branch) :
  emits (scoped_to (user_id llm)) (run llm b).
Proof.
  pose proof (scoped_print (user_id llm)) as Hp.
  destruct b as [| query | | | | text]; simpl.
  - apply emits_bind; [apply emits_println, Hp | intros _; apply emits_ret].
  - apply emits_bind; [apply emits_println, Hp | intros _].
    apply emits_bind.
    + unfold Llm.search_memories.
      destruct (memory_manager llm) as [mm |]; [| apply emits_raise].
      intros st. rewrite MemorySpec.search_memories_run.
      repeat constructor.
    + intros memories.
      apply emits_bind; [apply emits_print_memories, Hp | intros _].
      apply emits_ret.
  - apply emits_bind.
    + unfold Llm.get_user_profile.
      destruct (memory_manager llm) as [mm |]; [| apply emits_raise].
      intros st. unfold Memory.get_user_profile.
      rewrite MemorySpec.search_then_ret. repeat constructor.
    + intros profile.
      apply emits_bind; [apply emits_print_profile, Hp | intros _].
      apply emits_ret.
  - apply emits_bind.
    + intros st.
      unfold delete_user, try_except_all, memory_clear, bind, ret.
      destruct (mem0_clear st (user_id llm)) as [[[] | e] st'];
        repeat constructor.
    + intros cleared. apply emits_bind; [| intros _; apply emits_ret].
      destruct cleared; apply emits_println, Hp.
  - apply emits_bind; [| intros _; apply emits_ret].
    apply emits_bind; [apply emits_println, Hp | intros _].
    apply emits_print_lines, Hp.
  - apply emits_bind; [apply emits_print, Hp | intros _].
    apply emits_bind.
    + apply for_in_scoped; [intros v; apply emits_print, Hp | reflexivity].
    + intros _. apply emits_bind; [apply emits_println, Hp | intros _].
      apply emits_ret.
Qed.

Lemma turn_scoped (llm : LLM) (input : outcome string) :
  emits (scoped_to (user_id llm)) (turn llm input).
Proof.
  pose proof (scoped_print (user_id llm)) as Hp.
  unfold turn. apply emits_handle; [exact Hp |].
  apply emits_bind; [apply emits_print, Hp | intros _].
  destruct input as [line | e]; [apply run_scoped | apply emits_raise].
Qed.

(** What holds of the events of every turn holds of those of the
    loop. *)
Lemma loop_emits (P : event -> Prop) (llm : LLM) :
  (forall input, emits P (turn llm input)) ->
  forall inputs, emits P (loop llm inputs).
Proof.
  intros Hturn inputs. induction inputs as [| input rest IH]; intros st.
  - constructor.
  - rewrite loop_cons. pose proof (Hturn input st) as Ht.
    destruct (turn llm input st) as [[[[] | e] st1] tr1]; simpl in *.
    + specialize (IH st1). destruct (loop llm rest st1) as [[r st2] tr2].
      simpl in *. apply Forall_app. split; assumption.
    + rewrite app_nil_r. exact Ht.
    + exact Ht.
Qed.

(** X23. Every call the shell ever makes to the store, for a search, a
    profile, a purge or a chat turn, and over any sequence of inputs,
    names the user of the instance it was started with: none of the
    commands can reach another user's memories. *)
Theorem session_calls_name_one_user (llm : LLM)
    (inputs : list (outcome string)) (st : Store) :
  Forall (scoped_to (user_id llm)) (snd (loop llm inputs st)).
Proof.
  revert st. change (emits (scoped_to (user_id llm)) (loop llm inputs)).
  apply loop_emits. intros input. apply turn_scoped.
Qed.

End Session.

(** ** Printing the records of the manager *)

Section Printing.
Context {Store : Type} `{Mem0Memory Store} `{OpenAI} `{Builtins}.

Lemma print_search_record (i : Z) (m : Entry) (st : Store) :
  exists tr,
    (let* _ := print_entry i (search_record m) in
     print_relevance (search_record m)) st
    = (Ok tt, st, tr)
    /\ Forall is_print tr
    /\ In (relevance_line m) tr.
Proof.
  unfold print_entry, print_relevance, getitem, get_truthy, get_is_not_None,
    relevance_line.
  change (search_record m !! "content") with (Some (PStr (memory m))).
  change (search_record m !! "metadata")
    with (Some (get_or (metadata m) (PDict ∅))).
  change (search_record m !! "created_at")
    with (Some (get_or (timestamp m) PNone)).
  change (search_record m !! "relevance_score")
    with (Some (PFloat (score_or (score m) 0%float))).
  unfold score_or. cbv beta iota.
  destruct (truthy (get_or (metadata m) (PDict ∅)));
    destruct (truthy (get_or (timestamp m) PNone));
    (eexists; split; [reflexivity |]; split;
     [repeat constructor | simpl; tauto]).
Qed.

Lemma print_profile_record (i : Z) (m : Entry) (st : Store) :
  exists tr,
    print_entry i (profile_record m) st = (Ok tt, st, tr)
    /\ Forall is_print tr.
Proof.
  unfold print_entry, getitem, get_truthy.
  change (profile_record m !! "content") with (Some (PStr (memory m))).
  change (profile_record m !! "metadata")
    with (Some (get_or (metadata m) (PDict ∅))).
  change (profile_record m !! "created_at")
    with (Some (get_or (timestamp m) PNone)).
  cbv beta iota.
  destruct (truthy (get_or (metadata m) (PDict ∅)));
    destruct (truthy (get_or (timestamp m) PNone));
    (eexists; split; [reflexivity | repeat constructor]).
Qed.

Lemma for_enumerate_search_records (results : list Entry) :
  forall (i : Z) (st : Store),
  exists tr,
    for_enumerate i (map search_record results)
      (fun i memory =>
         let* _ := print_entry i memory in print_relevance memory) st
    = (Ok tt, st, tr)
    /\ Forall is_print tr
    /\ Forall (fun m => In (relevance_line m) tr) results.
Proof.
  induction results as [| m results IH]; intros i st.
  - exists []. repeat split; constructor.
  - destruct (print_search_record i m st) as (tr1 & E1 & Hp1 & Hin1).
    destruct (IH (i + 1) st) as (tr2 & E2 & Hp2 & Hin2).
    exists (tr1 ++ tr2). simpl map. simpl for_enumerate.
    unfold bind at 1. rewrite E1, E2. split; [reflexivity |]. split.
    + apply Forall_app. split; assumption.
    + constructor.
      * apply in_or_app. left. exact Hin1.
      * eapply Forall_impl; [exact Hin2 |].
        intros m' Hm'. apply in_or_app. right. exact Hm'.
Qed.

Lemma for_enumerate_profile_records (results : list Entry) :
  forall (i : Z) (st : Store),
  exists tr,
    for_enumerate i (map profile_record results) print_entry st
    = (Ok tt, st, tr)
    /\ Forall is_print tr.
Proof.
  induction results as [| m results IH]; intros i st.
  - exists []. split; [reflexivity | constructor].
  - destruct (print_profile_record i m st) as (tr1 & E1 & Hp1).
    destruct (IH (i + 1) st) as (tr2 & E2 & Hp2).
    exists (tr1 ++ tr2). simpl map. simpl for_enumerate.
    unfold bind. rewrite E1, E2. split; [reflexivity |].
    apply Forall_app. split; assumption.
Qed.

(** X24. Printing what the manager returns cannot fail.  On the
    records of [search_memories], whatever the raw results were,
    [print_memories] returns normally, only prints, and prints for
    every result its relevance with two decimals (0.00 for a result
    without score); for no result it prints "No memories found." and
    nothing else.  On the records of [get_user_profile],
    [print_profile] returns normally and only prints. *)
Theorem printing_manager_records_never_fails (results : list Entry)
    (st : Store) :
  (exists tr,
     print_memories (map search_record results) st = (Ok tt, st, tr)
     /\ Forall is_print tr
     /\ Forall (fun m => In (relevance_line m) tr) results
     /\ (results = [] -> tr = [Print ("No memories found." +:+ nl)]))
  /\ (exists tr,
        print_profile {| recent_memories := map profile_record results |} st
        = (Ok tt, st, tr)
        /\ Forall is_print tr).
Proof.
  split.
  - destruct results as [| m results].
    + eexists. split; [reflexivity |]. repeat split; repeat constructor.
    + destruct (for_enumerate_search_records (m :: results) 1 st)
        as (tr & E & Hp & Hin).
      eexists. unfold print_memories.
      change (map search_record (m :: results))
        with (search_record m :: map search_record results) in *.
      cbv beta iota delta [bind println print] in E |- *. rewrite E.
      split; [reflexivity |]. split; [| split].
      * constructor; [exact I | exact Hp].
      * eapply Forall_impl; [exact Hin |]. intros m' Hm'. right. exact Hm'.
      * discriminate.
  - unfold print_profile. simpl recent_memories.
    destruct results as [| m results].
    + eexists. split; [reflexivity | repeat constructor].
    + destruct (for_enumerate_profile_records (m :: results) 1 st)
        as (tr & E & Hp).
      eexists.
      change (map profile_record (m :: results))
        with (profile_record m :: map profile_record results) in *.
      cbv beta iota delta [bind println print]. rewrite E.
      split; [reflexivity |]. repeat constructor. exact Hp.
Qed.

End Printing.

(** ** A chat turn at the shell *)

Section ChatTurn.
Context {Store : Type} `{Mem0Memory Store} `{OpenAI} `{Builtins}.

Lemma for_loop_same_next (fuel : nat) (g1 g2 : generator)
    (body : string -> M Store unit) (st : Store) :
  next g1 st = next g2 st ->
  for_loop fuel g1 body st = for_loop fuel g2 body st.
Proof.
  intros E. rewrite !ChatSpec.for_loop_unfold. unfold bind. rewrite E.
  reflexivity.
Qed.

(** The loop of the shell over an open stream: every fragment is
    printed; then the stream breaks, or it ends and the turn is
    written. *)
Lemma for_loop_print_run (response : list stream_item) :
  forall (fuel : nat) (messages : list Message) (u : string)
         (collected : list string) (st : Store),
  (length response <= fuel)%nat ->
  for_loop fuel (Streaming messages u true response collected)
    (fun v => print v) st
  = match stream_error response with
    | Some e => (Raise e, st, map Print (fragments response))
    | None =>
        let written :=
          messages
            ++ [assistant_message
                  (String.concat "" (collected ++ fragments response))] in
        match mem0_add st written u None with
        | (Ok _, st') =>
            (Ok tt, st',
             map Print (fragments response) ++ [MemAdd written u None])
        | (Raise e, st') =>
            (Raise e, st',
             map Print (fragments response) ++ [MemAdd written u None])
        end
    end.
Proof.
  induction response as [| item rest IH];
    intros fuel messages u collected st Hfuel.
  - rewrite ChatSpec.for_loop_unfold. unfold bind.
    rewrite ChatSpec.next_streaming_end_store. simpl.
    rewrite app_nil_r.
    destruct (mem0_add _ _ _ _) as [[id | e] st']; reflexivity.
  - destruct item as [[content |] | e]; simpl fragments; simpl stream_error.
    + destruct (str_truthy content) eqn:E.
      * destruct fuel as [| fuel]; [simpl in Hfuel; lia |].
        rewrite ChatSpec.for_loop_unfold. unfold bind.
        rewrite ChatSpec.next_streaming_fragment by exact E.
        unfold print at 1.
        rewrite (IH fuel messages u (collected ++ [content]) st
                   ltac:(simpl in Hfuel; lia)).
        rewrite <- app_assoc. simpl.
        destruct (stream_error rest); [reflexivity |].
        destruct (mem0_add _ _ _ _) as [[id | e] st']; reflexivity.
      * rewrite (for_loop_same_next fuel _ _ _ st
                   (f_equal (fun f => f st)
                      (ChatSpec.next_streaming_empty _ _ _ _ _ _ E))).
        apply IH. simpl in Hfuel. lia.
    + rewrite (for_loop_same_next fuel _ _ _ st
                 (f_equal (fun f => f st)
                    (ChatSpec.next_streaming_none _ _ _ _ _))).
      apply IH. simpl in Hfuel. lia.
    + rewrite ChatSpec.for_loop_unfold. reflexivity.
Qed.

(** The [for] loop over a streaming call that has not started: the
    search and the request, then the loop over the stream. *)
Lemma for_in_created_stream (self : LLM) (message : string)
    (uid : option string) (store_memory : bool)
    (body : string -> M Store unit) (st : Store) :
  for_in (Created self message uid store_memory true) body st
  = match memory_manager self with
    | None => (Raise not_initialized, st, [])
    | Some mm =>
        let u := str_or uid (user_id self) in
        let limit := context_limit (Memory.config mm) in
        match mem0_search st message u limit with
        | Raise e => (Raise e, st, [MemSearch message u limit])
        | Ok relevant =>
            let messages := [system_message self relevant;
                             user_message message] in
            let issued := [MemSearch message u limit;
                           Create (request self messages true)] in
            match completions_stream (request self messages true) with
            | Raise e => (Raise e, st, issued)
            | Ok response =>
                match for_loop (length response)
                        (Streaming messages u store_memory response [])
                        body st with
                | (r, st', tr) => (r, st', issued ++ tr)
                end
            end
        end
    end.
Proof.
  unfold for_in, bind. rewrite ChatSpec.next_created_stream.
  destruct (memory_manager self) as [mm |]; [| reflexivity]. cbv zeta.
  destruct (mem0_search _ _ _ _) as [relevant | e]; [| reflexivity].
  destruct (completions_stream _) as [response | e]; [| reflexivity].
  rewrite ChatSpec.for_loop_unfold. unfold bind, next.
  destruct (stream_loop _ _ _ _ _ _) as [[[[[v |] g'] | e] st1] tr1] eqn:El;
    try reflexivity.
  apply ChatSpec.stream_loop_yield in El as [Hs Hp].
  destruct (body v st1) as [[[[] | e] st2] tr2]; [| reflexivity].
  destruct (length response) as [| fuel] eqn:Elen; [lia |].
  rewrite (ChatSpec.for_loop_fuel body fuel g' st2 Hs ltac:(lia)).
  destruct (for_loop (pending g') g' body st2) as [[r st3] tr3]. reflexivity.
Qed.

(** X25. A chat turn, from the line to the store.  For a line that is
    not a command, with the search answered and an unbroken stream,
    the shell prints the "Assistant: " heading, issues the search and
    the request, prints the fragments in order as they come, and only
    after the last fragment is the turn written; the closing newline
    is printed after the write, and the loop goes on. *)
Theorem chat_turn_prints_then_stores (llm : LLM) (mm : MemoryManager)
    (line : string) (st st' : Store) (relevant : list Entry)
    (response : list stream_item) (id : string) :
  let text := strip line in
  let u := user_id llm in
  let limit := context_limit (Memory.config mm) in
  let messages := [system_message llm relevant; user_message text] in
  let written :=
    messages
      ++ [assistant_message (String.concat "" (fragments response))] in
  startswith_char text "/" = false ->
  memory_manager llm = Some mm ->
  mem0_search st text u limit = Ok relevant ->
  completions_stream (request llm messages true) = Ok response ->
  stream_error response = None ->
  mem0_add st written u None = (Ok id, st') ->
  turn llm (Ok line) st
  = (Ok Continue, st',
     [Print (nl +:+ "You: "); Print (nl +:+ "Assistant: ");
      MemSearch text u limit; Create (request llm messages true)]
     ++ map Print (fragments response)
     ++ [MemAdd written u None; Print nl]).
Proof.
  intros text u limit messages written Hcmd Hmm Hs Hc He Ha.
  unfold turn, turn_body. fold text.
  rewrite (dispatch_chat text Hcmd).
  unfold handle, run, chat_with_memories.
  unfold bind at 1 2 3. unfold print at 1 2.
  rewrite for_in_created_stream, Hmm. cbv zeta.
  change (str_or None (user_id llm)) with u. fold limit. rewrite Hs.
  fold messages. rewrite Hc.
  rewrite (for_loop_print_run response (length response) messages u [] st
             (le_n _)), He.
  cbv zeta. change ([] ++ fragments response) with (fragments response).
  fold written. rewrite Ha. simpl.
  rewrite <- !app_assoc. reflexivity.
Qed.

(** X26. A stream that breaks during a chat turn, seen from the shell:
    the fragments before the break are printed, the error is reported
    on a line of its own as "Error: ...", nothing has been written to
    the store, and the loop goes on. *)
Theorem broken_stream_is_reported (llm : LLM) (mm : MemoryManager)
    (line : string) (st : Store) (relevant : list Entry)
    (response : list stream_item) (e : exn) :
  let text := strip line in
  let u := user_id llm in
  let limit := context_limit (Memory.config mm) in
  let messages := [system_message llm relevant; user_message text] in
  startswith_char text "/" = false ->
  memory_manager llm = Some mm ->
  mem0_search st text u limit = Ok relevant ->
  completions_stream (request llm messages true) = Ok response ->
  stream_error response = Some e ->
  is_Exception e = true ->
  turn llm (Ok line) st
  = (Ok Continue, st,
     [Print (nl +:+ "You: "); Print (nl +:+ "Assistant: ");
      MemSearch text u limit; Create (request llm messages true)]
     ++ map Print (fragments response)
     ++ [Print (nl +:+ "Error: " +:+ exn_str e +:+ nl)]).
Proof.
  intros text u limit messages Hcmd Hmm Hs Hc He Hexc.
  unfold turn, turn_body. fold text.
  rewrite (dispatch_chat text Hcmd).
  unfold handle, run, chat_with_memories.
  unfold bind at 1 2 3. unfold print at 1 2.
  rewrite for_in_created_stream, Hmm. cbv zeta.
  change (str_or None (user_id llm)) with u. fold limit. rewrite Hs.
  fold messages. rewrite Hc.
  rewrite (for_loop_print_run response (length response) messages u [] st
             (le_n _)), He.
  destruct e; try discriminate Hexc; simpl;
    try rewrite <- !app_assoc; reflexivity.
Qed.

(** X27. A blank line is not skipped.  A line that is empty or all
    whitespace is a chat message like any other, the empty one: with a
    memory manager attached, the turn prints the heading and searches
    the store with the empty query for the user of the instance. *)
Theorem blank_line_is_sent_as_empty_message (llm : LLM) (mm : MemoryManager)
    (line : string) (st : Store) :
  strip line = "" ->
  memory_manager llm = Some mm ->
  dispatch (strip line) = Chat ""
  /\ exists tr,
       snd (turn llm (Ok line) st)
       = Print (nl +:+ "You: ") :: Print (nl +:+ "Assistant: ")
         :: MemSearch "" (user_id llm) (context_limit (Memory.config mm))
         :: tr.
Proof.
  intros Hblank Hmm. rewrite Hblank. split; [reflexivity |].
  unfold turn, turn_body. rewrite Hblank.
  change (dispatch "") with (Chat "").
  unfold handle, run, chat_with_memories.
  unfold bind at 1 2 3. unfold print at 1 2.
  rewrite for_in_created_stream, Hmm. cbv zeta.
  change (str_or None (user_id llm)) with (user_id llm).
  destruct (mem0_search _ _ _ _) as [relevant | e].
  - destruct (completions_stream _) as [response | e].
    + destruct (for_loop _ _ _ st) as [[[[] | e] st1] tr1];
        [| destruct e]; simpl; eexists; reflexivity.
    + destruct e; simpl; eexists; reflexivity.
  - destruct e; simpl; eexists; reflexivity.
Qed.

End ChatTurn.

(** ** [main] *)

Section MainSession.
Context {Store : Type} `{Mem0Memory Store} `{OpenAI} `{Builtins}.
Context `{Pydantic} `{PydanticDict} `{Host} `{Mem0Factory Store}.

Lemma print_lines_run (lines : list string) (st : Store) :
  print_lines lines st = (Ok tt, st, map (fun l => Print (l +:+ nl)) lines).
Proof.
  induction lines as [| l rest IH]; [reflexivity |].
  simpl. unfold bind, println, print at 1. rewrite IH. reflexivity.
Qed.

Lemma LLM_init_lacking (provider : string) (mm : option MemoryManager)
    (uid config_path : option string) (cfg : gmap string pyval) :
  read_yaml (path_or_default config_path) = Some (Ok (PDict cfg)) ->
  lacks_provider cfg provider ->
  LLM_init provider mm uid config_path
  = Raise (ValueError (not_found_message provider)).
Proof.
  intros Hread Hlacks. unfold LLM_init, lacks_provider in *. rewrite Hread.
  destruct (cfg !! "providers") as [[| | | | | | ps] |]; try contradiction.
  - rewrite (ConfigSpec.py_in_absent _ _ Hlacks). reflexivity.
  - rewrite (ConfigSpec.py_in_absent ∅ provider (lookup_empty _)).
    reflexivity.
Qed.

(** X28. A configuration error is fatal at startup, before the banner
    and before any input is read.  Without the configuration file
    [main] raises [FileNotFoundError] and builds nothing; with a file
    that has no [silicon_flow] provider it raises the "not found"
    [ValueError], after the memory store has already been built. *)
Theorem main_fails_before_the_banner (inputs : list (outcome string)) :
  (read_yaml default_config_path = None ->
   main inputs
   = (Raise (FileNotFoundError ("Configuration file not found: "
                                +:+ default_config_path)), None, []))
  /\ (forall mm store cfg,
        MemoryManager_init None = Ok (mm, store) ->
        read_yaml default_config_path = Some (Ok (PDict cfg)) ->
        lacks_provider cfg "silicon_flow" ->
        main inputs
        = (Raise (ValueError
                    "Provider 'silicon_flow' not found in configuration"),
           Some store, [])).
Proof.
  split.
  - intros E. unfold main, MemoryManager_init. simpl path_or_default.
    rewrite E. reflexivity.
  - intros mm store cfg Hm Hread Hlacks. unfold main. rewrite Hm.
    unfold create_silicon_flow.
    rewrite (LLM_init_lacking "silicon_flow" (Some mm) (Some "demo_user")
               None cfg Hread Hlacks).
    reflexivity.
Qed.

(** X29. When both constructors succeed, [main] prints the banner (the
    welcome line, the four commands, the invitation) and then runs the
    loop on the store the manager built, with the instance of the
    [silicon_flow] preset: its memory manager is the one just built,
    its user is "demo_user", and so every call of the session to the
    store names "demo_user". *)
Theorem main_runs_the_session (inputs : list (outcome string))
    (mm : MemoryManager) (store : Store) (llm : LLM) :
  MemoryManager_init None = Ok (mm, store) ->
  create_silicon_flow (Some mm) (Some "demo_user") None = Ok llm ->
  user_id llm = "demo_user"
  /\ memory_manager llm = Some mm
  /\ main inputs
     = (fst (fst (loop llm inputs store)),
        Some (snd (fst (loop llm inputs store))),
        map (fun l => Print (l +:+ nl)) banner
        ++ snd (loop llm inputs store))
  /\ Forall (scoped_to "demo_user") (snd (main inputs)).
Proof.
  intros Hm Hl.
  assert (Hu : user_id llm = "demo_user")
    by exact (ConfigMore.LLM_init_user_id_eq _ _ _ _ _ Hl).
  assert (Hrun : main inputs
                 = (fst (fst (loop llm inputs store)),
                    Some (snd (fst (loop llm inputs store))),
                    map (fun l => Print (l +:+ nl)) banner
                    ++ snd (loop llm inputs store))).
  { unfold main. rewrite Hm, Hl. unfold bind. rewrite print_lines_run.
    destruct (loop llm inputs store) as [[r st] tr]. reflexivity. }
  split; [exact Hu |].
  split; [exact (ConfigSpec.LLM_init_memory_manager _ _ _ _ _ Hl) |].
  split; [exact Hrun |].
  rewrite Hrun. simpl. repeat (constructor; [exact I |]).
  rewrite <- Hu. apply (loop_emits _ llm (turn_scoped llm)).
Qed.

End MainSession.

Lemma printing_manager_records_never_fails_witness :
  exists tr,
    print_memories (map search_record [scored_entry]) store0
    = (Ok tt, store0, tr)
    /\ Forall is_print tr
    /\ Forall (fun m => In (relevance_line m) tr) [scored_entry]
    /\ ([scored_entry] = [] -> tr = [Print ("No memories found." +:+ nl)]).
Proof.
  exact (proj1 (printing_manager_records_never_fails [scored_entry] store0)).
Defined.

Lemma chat_turn_prints_then_stores_witness :
  let messages := [system_message llm_with_memory
                     [row_entry ("demo_user", "likes coffee")];
                   user_message "hello there"] in
  let written := messages ++ [assistant_message "Hello"] in
  turn llm_with_memory (Ok "  hello there ") store0
  = (Ok Continue, snd (mem0_add store0 written "demo_user" None),
     [Print (nl +:+ "You: "); Print (nl +:+ "Assistant: ");
      MemSearch "hello there" "demo_user" 3;
      Create (request llm_with_memory messages true)]
     ++ map Print ["Hel"; "lo"]
     ++ [MemAdd written "demo_user" None; Print nl]).
Proof.
  intros messages written.
  exact (chat_turn_prints_then_stores llm_with_memory manager
           "  hello there " store0 (snd (mem0_add store0 written "demo_user"
                                             None))
           [row_entry ("demo_user", "likes coffee")]
           [Chunk (Some "Hel"); Chunk None; Chunk (Some ""); Chunk (Some "lo")]
           "id-1" eq_refl eq_refl eq_refl eq_refl eq_refl eq_refl).
Defined.

Lemma broken_stream_is_reported_witness :
  let messages := [system_message llm_with_memory
                     [row_entry ("demo_user", "likes coffee")];
                   user_message "hello"] in
  @turn FakeStore fake_mem0 broken_openai fake_builtins llm_with_memory
    (Ok "hello") store0
  = (Ok Continue, store0,
     [Print (nl +:+ "You: "); Print (nl +:+ "Assistant: ");
      MemSearch "hello" "demo_user" 3;
      Create (request llm_with_memory messages true)]
     ++ map Print ["Hel"]
     ++ [Print (nl +:+ "Error: reset" +:+ nl)]).
Proof.
  intros messages.
  exact (@broken_stream_is_reported FakeStore fake_mem0 broken_openai
           fake_builtins llm_with_memory manager "hello" store0
           [row_entry ("demo_user", "likes coffee")]
           [Chunk (Some "Hel"); StreamRaise (OtherException "reset");
            Chunk (Some "lo")]
           (OtherException "reset") eq_refl eq_refl eq_refl eq_refl eq_refl
           eq_refl).
Defined.

Lemma blank_line_is_sent_as_empty_message_witness :
  dispatch (strip "   ") = Chat ""
  /\ exists tr,
       snd (turn llm_with_memory (Ok "   ") store0)
       = Print (nl +:+ "You: ") :: Print (nl +:+ "Assistant: ")
         :: MemSearch "" "demo_user" 3 :: tr.
Proof.
  exact (blank_line_is_sent_as_empty_message llm_with_memory manager "   "
           store0 eq_refl eq_refl).
Defined.

Lemma main_fails_before_the_banner_witness :
  @main FakeStore fake_mem0 fake_openai fake_builtins strict_pydantic
    plain_pydantic_dict fake_host fake_factory [Ok "hello"]
  = (Raise (ValueError "Provider 'silicon_flow' not found in configuration"),
     Some {| rows := []; offline := false |}, []).
Proof.
  apply (proj2 (@main_fails_before_the_banner FakeStore fake_mem0 fake_openai
                  fake_builtins strict_pydantic plain_pydantic_dict fake_host
                  fake_factory [Ok "hello"])
           {| Memory.config := default_memory_config |}
           {| rows := []; offline := false |}
           {[ "providers" := PDict {[ "test" := PDict test_entry;
                                      "full" := PDict full_entry ]} ]}).
  - reflexivity.
  - reflexivity.
  - vm_compute. reflexivity.
Defined.

Lemma main_runs_the_session_witness :
  Forall (scoped_to "demo_user")
    (snd (@main FakeStore fake_mem0 fake_openai fake_builtins strict_pydantic
            plain_pydantic_dict demo_host fake_factory
            [Ok "hello"; Ok "/search coffee"; Ok "/clear"; Ok "/exit"])).
Proof.
  refine (proj2 (proj2 (proj2
            (@main_runs_the_session FakeStore fake_mem0 fake_openai
               fake_builtins strict_pydantic plain_pydantic_dict demo_host
               fake_factory
               [Ok "hello"; Ok "/search coffee"; Ok "/clear"; Ok "/exit"]
               {| Memory.config :=
                    {| llm := custom_llm; embedder := default_embedder;
                       vector_store := default_vector_store;
                       search_limit := 8;
                       context_limit := default_context_limit |} |}
               {| rows := []; offline := false |}
               {| provider := "silicon_flow";
                  memory_manager :=
                    Some {| Memory.config :=
                              {| llm := custom_llm;
                                 embedder := default_embedder;
                                 vector_store := default_vector_store;
                                 search_limit := 8;
                                 context_limit := default_context_limit |} |};
                  user_id := "demo_user"; config := profile_default |}
               _ _)))).
  - reflexivity.
  - reflexivity.
Defined.

End ShellMore.
